(** * Verification of the meal-analysis service (server/src/services/openai.ts)

    A shallow embedding of [OpenAIService]: the JavaScript values the service
    receives from [JSON.parse], the coercions [Number(x)], [x || y] and
    property access it applies to them, the record built by
    [normalizeAnalysisResult], and the three public operations with their
    configuration check, their single request to the provider and their
    [try]/[catch] blocks. *)

From Stdlib Require Import ZArith NArith List String Ascii Bool Lia.
From Stdlib Require Import DecimalString.
From Stdlib Require Import Floats.SpecFloat.
Import ListNotations.

Local Open Scope string_scope.

Set Warnings "-register-all".

(** ** Numbers

    A JavaScript number is an IEEE 754 binary64 value.  The Standard Library's
    [spec_float] gives them with their operations, rounding included, as plain
    functions; it has one NaN, as JavaScript shows one. *)

Module Num.

Definition number : Type := spec_float.

Definition prec : Z := 53.
Definition emax : Z := 1024.

Definition nan : number := S754_nan.
Definition zero : number := S754_zero false.

Definition add : number -> number -> number := SFadd prec emax.
Definition sub : number -> number -> number := SFsub prec emax.
Definition mul : number -> number -> number := SFmul prec emax.
Definition abs : number -> number := SFabs.

(** [x > y], [x === y] on numbers: false as soon as one side is NaN. *)
Definition gtb (x y : number) : bool := SFltb y x.
Definition eqb (x y : number) : bool := SFeqb x y.

Definition is_nan (x : number) : bool :=
  match x with S754_nan => true | _ => false end.

Definition is_zero (x : number) : bool :=
  match x with S754_zero _ => true | _ => false end.

(** ToBoolean on a number: +0, -0 and NaN are falsy. *)
Definition truthy (x : number) : bool := negb (is_nan x || is_zero x).

(** The integer [z] as a number (rounded to nearest, ties to even). *)
Definition of_Z (z : Z) : number := binary_normalize prec emax z 0 false.

(** The quotient [p / q] of two positive integers, rounded once. *)
Definition of_ratio (neg : bool) (p q : positive) : number :=
  let '(m, e, l) := SFdiv_core_binary prec emax (Zpos p) 0 (Zpos q) 0 in
  binary_round_aux prec emax neg m e l.

(** The value of a decimal literal: [m * 10 ^ e], rounded once. *)
Definition decimal (neg : bool) (m : N) (e : Z) : number :=
  match m with
  | N0 => S754_zero neg
  | Npos p =>
      match e with
      | Zneg k => of_ratio neg p (Pos.pow 10 k)
      | _ => binary_round prec emax neg (p * Z.to_pos (10 ^ e)) 0
      end
  end.

End Num.

Abbreviation number := Num.number.

(** ** Strings

    A JavaScript string is kept as the bytes of its UTF-8 encoding.  The
    service only compares strings, tests them for emptiness, concatenates them,
    searches them for an ASCII substring and hands them to [Number], and these
    read the same on either encoding for well-formed text. *)

Definition byte (n : nat) : string := String (ascii_of_nat n) EmptyString.

(** The double quote and the line feed, which a template string of the source
    holds literally. *)
Definition dq : string := byte 34.
Definition nl : string := byte 10.

Definition quoted (s : string) : string := dq ++ s ++ dq.

Definition lines (l : list string) : string := String.concat nl l.

(** [drop_prefix p s] is what follows [p] in [s], when [s] starts with [p]. *)
Fixpoint drop_prefix (p s : string) : option string :=
  match p, s with
  | EmptyString, _ => Some s
  | String a p', String b s' =>
      if Ascii.eqb a b then drop_prefix p' s' else None
  | String _ _, EmptyString => None
  end.

(** [String.prototype.includes]: [sub] occurs somewhere in [s]. *)
Fixpoint includes (s sub : string) : bool :=
  match drop_prefix sub s with
  | Some _ => true
  | None =>
      match s with
      | EmptyString => false
      | String _ s' => includes s' sub
      end
  end.

(** *** StringToNumber

    [Number] applied to a string reads it with the grammar StringNumericLiteral
    of ECMAScript: optional white space, then nothing (the value is +0), or a
    signed decimal literal, or an unsigned binary, octal or hexadecimal integer,
    then optional white space; anything else is NaN.  The value read is rounded
    to the nearest number, ties to even. *)

Module StrNum.

(** WhiteSpace and LineTerminator code points, in UTF-8. *)
Definition white_space : list string :=
  [ byte 9; byte 10; byte 11; byte 12; byte 13; byte 32;
    byte 194 ++ byte 160;
    byte 225 ++ byte 154 ++ byte 128;
    byte 226 ++ byte 128 ++ byte 128; byte 226 ++ byte 128 ++ byte 129;
    byte 226 ++ byte 128 ++ byte 130; byte 226 ++ byte 128 ++ byte 131;
    byte 226 ++ byte 128 ++ byte 132; byte 226 ++ byte 128 ++ byte 133;
    byte 226 ++ byte 128 ++ byte 134; byte 226 ++ byte 128 ++ byte 135;
    byte 226 ++ byte 128 ++ byte 136; byte 226 ++ byte 128 ++ byte 137;
    byte 226 ++ byte 128 ++ byte 138;
    byte 226 ++ byte 128 ++ byte 168; byte 226 ++ byte 128 ++ byte 169;
    byte 226 ++ byte 128 ++ byte 175;
    byte 226 ++ byte 129 ++ byte 159;
    byte 227 ++ byte 128 ++ byte 128;
    byte 239 ++ byte 187 ++ byte 191 ].

Fixpoint drop_any (ps : list string) (s : string) : option string :=
  match ps with
  | [] => None
  | p :: ps' =>
      match drop_prefix p s with
      | Some r => Some r
      | None => drop_any ps' s
      end
  end.

Fixpoint skip_ws (fuel : nat) (s : string) : string :=
  match fuel with
  | O => s
  | S fuel' =>
      match drop_any white_space s with
      | Some r => skip_ws fuel' r
      | None => s
      end
  end.

Definition trim_start (s : string) : string := skip_ws (String.length s) s.

Definition only_ws (s : string) : bool :=
  match trim_start s with EmptyString => true | _ => false end.

(** The value of [c] as a digit of base [base], if it is one. *)
Definition digit_of (base : N) (c : ascii) : option N :=
  let n := N_of_ascii c in
  let d :=
    if (48 <=? n)%N && (n <=? 57)%N then Some (n - 48)%N
    else if (97 <=? n)%N && (n <=? 102)%N then Some (n - 87)%N
    else if (65 <=? n)%N && (n <=? 70)%N then Some (n - 55)%N
    else None in
  match d with
  | Some v => if (v <? base)%N then Some v else None
  | None => None
  end.

(** The longest run of digits at the head of [s]: its value continuing
    [acc], how many digits it has, and what follows. *)
Fixpoint digits (base : N) (s : string) (acc : N) (count : nat)
  : N * nat * string :=
  match s with
  | EmptyString => (acc, count, s)
  | String c s' =>
      match digit_of base c with
      | Some d => digits base s' (acc * base + d)%N (S count)
      | None => (acc, count, s)
      end
  end.

(** ExponentPart, optional: [e] or [E], an optional sign, at least one
    digit.  When no exponent can be read the string is left as it is. *)
Definition exponent (s : string) : Z * string :=
  match s with
  | String c s' =>
      if Ascii.eqb c "e" || Ascii.eqb c "E" then
        let '(neg, s'') :=
          match s' with
          | String "+" r => (false, r)
          | String "-" r => (true, r)
          | _ => (false, s')
          end in
        match digits 10 s'' 0 0 with
        | (_, O, _) => (0%Z, s)
        | (v, S _, rest) => ((if neg then - Z.of_N v else Z.of_N v)%Z, rest)
        end
      else (0%Z, s)
  | EmptyString => (0%Z, s)
  end.

(** StrUnsignedDecimalLiteral followed by white space only. *)
Definition unsigned_decimal (neg : bool) (s : string) : number :=
  match drop_prefix "Infinity" s with
  | Some rest => if only_ws rest then S754_infinity neg else Num.nan
  | None =>
      let '(int, n_int, after_int) := digits 10 s 0 0 in
      let '(mant, n_frac, after_frac) :=
        match after_int with
        | String "." r => digits 10 r int 0
        | _ => (int, O, after_int)
        end in
      match n_int, n_frac with
      | O, O => Num.nan
      | _, _ =>
          let '(e, rest) := exponent after_frac in
          if only_ws rest
          then Num.decimal neg mant (e - Z.of_nat n_frac)
          else Num.nan
      end
  end.

(** NonDecimalIntegerLiteral followed by white space only. *)
Definition non_decimal (base : N) (s : string) : number :=
  match digits base s 0 0 with
  | (_, O, _) => Num.nan
  | (v, S _, rest) =>
      if only_ws rest then Num.decimal false v 0 else Num.nan
  end.

Definition StringToNumber (s : string) : number :=
  match trim_start s with
  | EmptyString => Num.zero
  | String "0" (String c r) as t =>
      if Ascii.eqb c "x" || Ascii.eqb c "X" then non_decimal 16 r
      else if Ascii.eqb c "o" || Ascii.eqb c "O" then non_decimal 8 r
      else if Ascii.eqb c "b" || Ascii.eqb c "B" then non_decimal 2 r
      else unsigned_decimal false t
  | String "+" r => unsigned_decimal false r
  | String "-" r => unsigned_decimal true r
  | t => unsigned_decimal false t
  end.

End StrNum.

Definition StringToNumber : string -> number := StrNum.StringToNumber.

(** ** Values

    What [JSON.parse] returns and what the service's expressions compute from
    it.  An object is the list of its own properties (a name listed twice
    reads as its first entry); a reply never holds [undefined], which only
    arises from reading a property that is absent. *)

Inductive value : Type :=
| VUndefined
| VNull
| VBool (b : bool)
| VNum (n : number)
| VStr (s : string)
| VArr (elems : list value)
| VObj (props : list (string * value)).

(** What a [throw] carries: an [Error] object with its message, or any other
    value ([error instanceof Error] tells them apart). *)
Inductive thrown : Type :=
| JsError (message : string)
| NonError (v : value).

Inductive outcome (A : Type) : Type :=
| Returned (a : A)
| Raised (e : thrown).

Arguments Returned {A} a.
Arguments Raised {A} e.

(** ** Effects

    A computation of the service leaves a trace of the requests it sent to the
    provider and of the warnings it wrote, and returns or raises.  The
    [console.log] and [console.error] lines are left out of the trace: nothing
    reads them back. *)

(** One part of a user message: [{type: "text", text}] or
    [{type: "image_url", image_url: {url, detail}}]. *)
Inductive ContentPart : Type :=
| TextPart (text : string)
| ImageUrlPart (url detail : string).

Inductive MessageContent : Type :=
| Text (s : string)
| Parts (l : list ContentPart).

Record Message : Type := { role : string; content : MessageContent }.

Record ChatRequest : Type := {
  model : string;
  messages : list Message;
  max_tokens : number;
  temperature : number
}.

Inductive event : Type :=
| Request (r : ChatRequest)
| Warn (mealCalories ingredientCalories difference : number).

Definition Comp (A : Type) : Type := list event * outcome A.

Class Monad (M : Type -> Type) : Type := {
  ret : forall {A}, A -> M A;
  bind : forall {A B}, M A -> (A -> M B) -> M B
}.

#[export] Instance outcome_monad : Monad outcome := {
  ret := fun A a => Returned a;
  bind := fun A B m k =>
    match m with
    | Returned a => k a
    | Raised e => Raised e
    end
}.

#[export] Instance comp_monad : Monad Comp := {
  ret := fun A a => ([], Returned a);
  bind := fun A B m k =>
    match m with
    | (t, Returned a) => let '(t', r) := k a in ((t ++ t')%list, r)
    | (t, Raised e) => (t, Raised e)
    end
}.

Notation "x <- m ;; k" := (bind m (fun x => k))
  (at level 61, m at next level, right associativity).
Notation "m ;;; k" := (bind m (fun _ => k))
  (at level 61, right associativity).

Definition throw {A} (e : thrown) : Comp A := ([], Raised e).
Definition lift {A} (o : outcome A) : Comp A := ([], o).
Definition emit (e : event) : Comp unit := ([e], Returned tt).

(** [try { body } catch (error) { handler }]: the trace of the body is kept. *)
Definition try_catch {A} (body : Comp A) (handler : thrown -> Comp A) : Comp A :=
  match body with
  | (t, Returned a) => (t, Returned a)
  | (t, Raised e) => let '(t', r) := handler e in ((t ++ t')%list, r)
  end.

Definition trace_of {A} (c : Comp A) : list event := fst c.
Definition outcome_of {A} (c : Comp A) : outcome A := snd c.

(** ** Coercions *)

(** The messages of V8's TypeErrors (the service runs on Node). *)
Definition cannot_read (base key : string) : thrown :=
  JsError ("Cannot read properties of " ++ base ++ " (reading '" ++ key ++ "')").
Definition cannot_convert : thrown :=
  JsError "Cannot convert object to primitive value".

Fixpoint lookup (k : string) (props : list (string * value)) : value :=
  match props with
  | [] => VUndefined
  | (k', v) :: rest => if String.eqb k k' then v else lookup k rest
  end.

Definition has_own (k : string) (props : list (string * value)) : bool :=
  existsb (fun p => String.eqb k (fst p)) props.

(** [v.k], for the property names the service reads: none of them is a
    property of a prototype, so only an object's own properties answer, and
    reading from [null] or [undefined] raises. *)
Definition get (v : value) (k : string) : outcome value :=
  match v with
  | VUndefined => Raised (cannot_read "undefined" k)
  | VNull => Raised (cannot_read "null" k)
  | VObj props => Returned (lookup k props)
  | _ => Returned VUndefined
  end.

(** The same read from a value already known to be neither [null] nor
    [undefined]. *)
Definition prop (v : value) (k : string) : value :=
  match v with
  | VObj props => lookup k props
  | _ => VUndefined
  end.

(** ToBoolean. *)
Definition truthy (v : value) : bool :=
  match v with
  | VUndefined | VNull => false
  | VBool b => b
  | VNum n => Num.truthy n
  | VStr EmptyString => false
  | VStr (String _ _) => true
  | VArr _ | VObj _ => true
  end.

(** [a || b]. *)
Definition or_else (a b : value) : value := if truthy a then a else b.

Infix "|||" := or_else (at level 50, left associativity).

(** ToString raises on an object whose own property [toString] hides
    [Object.prototype.toString] (a value of a reply is never callable), and on
    an array that holds such an object at any depth. *)
Fixpoint to_string_raises (v : value) : bool :=
  match v with
  | VObj props => has_own "toString" props
  | VArr elems => existsb to_string_raises elems
  | _ => false
  end.

(** [Number(v)].  An object becomes the string [[object Object]], hence NaN.
    An array becomes the join of its elements with commas: no element gives the
    empty string, one element gives that element's string ([null] and
    [undefined] count as empty), and two or more give a string with a comma,
    which is no numeric literal.  A number's string reads back as that number,
    -0 apart, whose string is [0]. *)
Fixpoint ToNumber (v : value) : outcome number :=
  match v with
  | VUndefined => Returned Num.nan
  | VNull => Returned Num.zero
  | VBool b => Returned (if b then Num.of_Z 1 else Num.zero)
  | VNum n => Returned n
  | VStr s => Returned (StringToNumber s)
  | VObj props =>
      if has_own "toString" props then Raised cannot_convert
      else Returned Num.nan
  | VArr [] => Returned Num.zero
  | VArr [x] =>
      match x with
      | VUndefined | VNull => Returned Num.zero
      | VBool _ => Returned Num.nan
      | VNum n => Returned (if Num.is_zero n then Num.zero else n)
      | VStr s => Returned (StringToNumber s)
      | VArr _ => ToNumber x
      | VObj props =>
          if has_own "toString" props then Raised cannot_convert
          else Returned Num.nan
      end
  | VArr elems =>
      if existsb to_string_raises elems then Raised cannot_convert
      else Returned Num.nan
  end.

(** [Number(v) || d]. *)
Definition number_or (v : value) (d : number) : outcome number :=
  n <- ToNumber v ;;
  ret (if Num.truthy n then n else d).

(** [Number(v) || undefined]. *)
Definition number_or_undefined (v : value) : outcome (option number) :=
  n <- ToNumber v ;;
  ret (if Num.truthy n then Some n else None).

(** ** The records

    [MealAnalysisResult] and the ingredient records inside it, with the fields
    the object literals of [normalizeAnalysisResult] give them.  A field filled
    by [Number(x) || 0] is a number, one filled by [Number(x) || undefined] is
    a number or absent, and one filled by [x || y] holds whatever value the
    reply had there. *)

Module Ingredient.
Record t : Type := {
  name : value;
  calories : number;
  protein : number;
  carbs : number;
  fat : number;
  fiber : number;
  sugar : number;
  sodium_mg : number;
  cholesterol_mg : number;
  saturated_fats_g : number;
  polyunsaturated_fats_g : number;
  monounsaturated_fats_g : number;
  omega_3_g : number;
  omega_6_g : number;
  soluble_fiber_g : number;
  insoluble_fiber_g : number;
  alcohol_g : number;
  caffeine_mg : number;
  serving_size_g : number;
  glycemic_index : value;
  insulin_index : value;
  vitamins_json : value;
  micronutrients_json : value;
  allergens_json : value
}.
End Ingredient.

Module MealAnalysisResult.
Record t : Type := {
  name : value;
  description : value;
  calories : number;
  protein : number;
  carbs : number;
  fat : number;
  fiber : number;
  sugar : number;
  sodium : number;
  confidence : number;
  ingredients : list Ingredient.t;
  cooking_method : value;
  food_category : value;
  recommendations : value;
  servingSize : value;
  cookingMethod : value;
  healthNotes : value;
  saturated_fats_g : option number;
  polyunsaturated_fats_g : option number;
  monounsaturated_fats_g : option number;
  omega_3_g : option number;
  omega_6_g : option number;
  soluble_fiber_g : option number;
  insoluble_fiber_g : option number;
  cholesterol_mg : option number;
  alcohol_g : option number;
  caffeine_mg : option number;
  liquids_ml : option number;
  serving_size_g : option number;
  allergens_json : value;
  vitamins_json : value;
  micronutrients_json : value;
  glycemic_index : value;
  insulin_index : value;
  processing_level : value;
  additives_json : value;
  health_risk_notes : value
}.
End MealAnalysisResult.

(** ** normalizeAnalysisResult *)

(** The placeholder names. *)
Definition unknown_meal (isHebrew : bool) : string :=
  if isHebrew then "ארוחה לא מזוהה" else "Unknown meal".
Definition unknown_ingredient (isHebrew : bool) : string :=
  if isHebrew then "מרכיב לא מזוהה" else "Unknown ingredient".

(** The callback of [result.ingredients.map]: one ingredient of the reply to
    one ingredient record.  Its first read, [ingredient.name], raises on
    [null]; the reads after it are from the same value. *)
Definition normalizeIngredient (isHebrew : bool) (ingredient : value)
  : outcome Ingredient.t :=
  name <- get ingredient "name" ;;
  calories <- number_or (prop ingredient "calories") Num.zero ;;
  protein <- number_or (prop ingredient "protein" ||| prop ingredient "protein_g") Num.zero ;;
  carbs <- number_or (prop ingredient "carbs" ||| prop ingredient "carbs_g") Num.zero ;;
  fat <- number_or (prop ingredient "fat" ||| prop ingredient "fats_g") Num.zero ;;
  fiber <- number_or (prop ingredient "fiber" ||| prop ingredient "fiber_g") Num.zero ;;
  sugar <- number_or (prop ingredient "sugar" ||| prop ingredient "sugar_g") Num.zero ;;
  sodium_mg <- number_or (prop ingredient "sodium_mg" ||| prop ingredient "sodium") Num.zero ;;
  cholesterol_mg <- number_or (prop ingredient "cholesterol_mg") Num.zero ;;
  saturated_fats_g <- number_or (prop ingredient "saturated_fats_g") Num.zero ;;
  polyunsaturated_fats_g <- number_or (prop ingredient "polyunsaturated_fats_g") Num.zero ;;
  monounsaturated_fats_g <- number_or (prop ingredient "monounsaturated_fats_g") Num.zero ;;
  omega_3_g <- number_or (prop ingredient "omega_3_g") Num.zero ;;
  omega_6_g <- number_or (prop ingredient "omega_6_g") Num.zero ;;
  soluble_fiber_g <- number_or (prop ingredient "soluble_fiber_g") Num.zero ;;
  insoluble_fiber_g <- number_or (prop ingredient "insoluble_fiber_g") Num.zero ;;
  alcohol_g <- number_or (prop ingredient "alcohol_g") Num.zero ;;
  caffeine_mg <- number_or (prop ingredient "caffeine_mg") Num.zero ;;
  serving_size_g <- number_or (prop ingredient "serving_size_g") Num.zero ;;
  ret {|
    Ingredient.name := name ||| VStr (unknown_ingredient isHebrew);
    Ingredient.calories := calories;
    Ingredient.protein := protein;
    Ingredient.carbs := carbs;
    Ingredient.fat := fat;
    Ingredient.fiber := fiber;
    Ingredient.sugar := sugar;
    Ingredient.sodium_mg := sodium_mg;
    Ingredient.cholesterol_mg := cholesterol_mg;
    Ingredient.saturated_fats_g := saturated_fats_g;
    Ingredient.polyunsaturated_fats_g := polyunsaturated_fats_g;
    Ingredient.monounsaturated_fats_g := monounsaturated_fats_g;
    Ingredient.omega_3_g := omega_3_g;
    Ingredient.omega_6_g := omega_6_g;
    Ingredient.soluble_fiber_g := soluble_fiber_g;
    Ingredient.insoluble_fiber_g := insoluble_fiber_g;
    Ingredient.alcohol_g := alcohol_g;
    Ingredient.caffeine_mg := caffeine_mg;
    Ingredient.serving_size_g := serving_size_g;
    Ingredient.glycemic_index := prop ingredient "glycemic_index" ||| VNull;
    Ingredient.insulin_index := prop ingredient "insulin_index" ||| VNull;
    Ingredient.vitamins_json := prop ingredient "vitamins_json" ||| VObj [];
    Ingredient.micronutrients_json := prop ingredient "micronutrients_json" ||| VObj [];
    Ingredient.allergens_json := prop ingredient "allergens_json" ||| VObj []
  |}.

(** [Array.prototype.map] with a callback that may raise: the elements are
    visited in order and the first exception ends the loop. *)
Fixpoint map_outcome {A B} (f : A -> outcome B) (l : list A) : outcome (list B) :=
  match l with
  | [] => ret []
  | x :: rest =>
      y <- f x ;;
      ys <- map_outcome f rest ;;
      ret (y :: ys)
  end.

(** [Array.isArray(v) ? v.map(callback) : []]. *)
Definition normalizeIngredients (isHebrew : bool) (v : value)
  : outcome (list Ingredient.t) :=
  match v with
  | VArr elems => map_outcome (normalizeIngredient isHebrew) elems
  | _ => ret []
  end.

(** The object literal bound to [normalized], its fields computed in the
    order they are written. *)
Definition normalized_record (result : value) (isHebrew : bool)
  : outcome MealAnalysisResult.t :=
  name <- get result "name" ;;
  calories <- number_or (prop result "calories") Num.zero ;;
  protein <- number_or (prop result "protein") Num.zero ;;
  carbs <- number_or (prop result "carbs") Num.zero ;;
  fat <- number_or (prop result "fat") Num.zero ;;
  fiber <- number_or (prop result "fiber") Num.zero ;;
  sugar <- number_or (prop result "sugar") Num.zero ;;
  sodium <- number_or (prop result "sodium") Num.zero ;;
  confidence <- number_or (prop result "confidence") (Num.of_Z 75) ;;
  ingredients <- normalizeIngredients isHebrew (prop result "ingredients") ;;
  saturated_fats_g <- number_or_undefined (prop result "saturated_fats_g") ;;
  polyunsaturated_fats_g <- number_or_undefined (prop result "polyunsaturated_fats_g") ;;
  monounsaturated_fats_g <- number_or_undefined (prop result "monounsaturated_fats_g") ;;
  omega_3_g <- number_or_undefined (prop result "omega_3_g") ;;
  omega_6_g <- number_or_undefined (prop result "omega_6_g") ;;
  soluble_fiber_g <- number_or_undefined (prop result "soluble_fiber_g") ;;
  insoluble_fiber_g <- number_or_undefined (prop result "insoluble_fiber_g") ;;
  cholesterol_mg <- number_or_undefined (prop result "cholesterol_mg") ;;
  alcohol_g <- number_or_undefined (prop result "alcohol_g") ;;
  caffeine_mg <- number_or_undefined (prop result "caffeine_mg") ;;
  liquids_ml <- number_or_undefined (prop result "liquids_ml") ;;
  serving_size_g <- number_or_undefined (prop result "serving_size_g") ;;
  ret {|
    MealAnalysisResult.name := name ||| VStr (unknown_meal isHebrew);
    MealAnalysisResult.description := prop result "description" ||| VStr "";
    MealAnalysisResult.calories := calories;
    MealAnalysisResult.protein := protein;
    MealAnalysisResult.carbs := carbs;
    MealAnalysisResult.fat := fat;
    MealAnalysisResult.fiber := fiber;
    MealAnalysisResult.sugar := sugar;
    MealAnalysisResult.sodium := sodium;
    MealAnalysisResult.confidence := confidence;
    MealAnalysisResult.ingredients := ingredients;
    MealAnalysisResult.cooking_method :=
      prop result "cooking_method" ||| prop result "cookingMethod" ||| VStr "";
    MealAnalysisResult.food_category :=
      prop result "food_category" ||| prop result "foodCategory" ||| VStr "";
    MealAnalysisResult.recommendations :=
      prop result "recommendations" ||| prop result "healthNotes" ||| VStr "";
    MealAnalysisResult.servingSize :=
      prop result "serving_size" ||| prop result "servingSize" ||| VStr "1 serving";
    MealAnalysisResult.cookingMethod :=
      prop result "cooking_method" ||| prop result "cookingMethod" ||| VStr "";
    MealAnalysisResult.healthNotes :=
      prop result "recommendations" ||| prop result "health_notes" ||| VStr "";
    MealAnalysisResult.saturated_fats_g := saturated_fats_g;
    MealAnalysisResult.polyunsaturated_fats_g := polyunsaturated_fats_g;
    MealAnalysisResult.monounsaturated_fats_g := monounsaturated_fats_g;
    MealAnalysisResult.omega_3_g := omega_3_g;
    MealAnalysisResult.omega_6_g := omega_6_g;
    MealAnalysisResult.soluble_fiber_g := soluble_fiber_g;
    MealAnalysisResult.insoluble_fiber_g := insoluble_fiber_g;
    MealAnalysisResult.cholesterol_mg := cholesterol_mg;
    MealAnalysisResult.alcohol_g := alcohol_g;
    MealAnalysisResult.caffeine_mg := caffeine_mg;
    MealAnalysisResult.liquids_ml := liquids_ml;
    MealAnalysisResult.serving_size_g := serving_size_g;
    MealAnalysisResult.allergens_json := prop result "allergens_json" ||| VObj [];
    MealAnalysisResult.vitamins_json := prop result "vitamins_json" ||| VObj [];
    MealAnalysisResult.micronutrients_json := prop result "micronutrients_json" ||| VObj [];
    MealAnalysisResult.glycemic_index := prop result "glycemic_index" ||| VUndefined;
    MealAnalysisResult.insulin_index := prop result "insulin_index" ||| VUndefined;
    MealAnalysisResult.processing_level := prop result "processing_level" ||| VStr "";
    MealAnalysisResult.additives_json := prop result "additives_json" ||| VObj [];
    MealAnalysisResult.health_risk_notes := prop result "health_risk_notes" ||| VUndefined
  |}.

(** The accumulator of [normalized.ingredients.reduce]. *)
Record Totals : Type := {
  total_calories : number;
  total_protein : number;
  total_carbs : number;
  total_fat : number
}.

Definition ingredientTotals (ingredients : list Ingredient.t) : Totals :=
  fold_left
    (fun acc ingredient =>
       {| total_calories := Num.add (total_calories acc) (Ingredient.calories ingredient);
          total_protein := Num.add (total_protein acc) (Ingredient.protein ingredient);
          total_carbs := Num.add (total_carbs acc) (Ingredient.carbs ingredient);
          total_fat := Num.add (total_fat acc) (Ingredient.fat ingredient) |})
    ingredients
    {| total_calories := Num.zero; total_protein := Num.zero;
       total_carbs := Num.zero; total_fat := Num.zero |}.

Definition caloriesDiff (normalized : MealAnalysisResult.t) : number :=
  Num.abs (Num.sub (total_calories (ingredientTotals (MealAnalysisResult.ingredients normalized)))
                   (MealAnalysisResult.calories normalized)).

(** [caloriesDiff > normalized.calories * 0.2]. *)
Definition totals_mismatch (normalized : MealAnalysisResult.t) : bool :=
  Num.gtb (caloriesDiff normalized)
          (Num.mul (MealAnalysisResult.calories normalized) (Num.decimal false 2 (-1))).

(** The check that follows the literal: it may warn, and changes nothing. *)
Definition validateTotals (normalized : MealAnalysisResult.t) : Comp unit :=
  if (0 <? List.length (MealAnalysisResult.ingredients normalized))%nat then
    if totals_mismatch normalized then
      emit (Warn (MealAnalysisResult.calories normalized)
                 (total_calories (ingredientTotals (MealAnalysisResult.ingredients normalized)))
                 (caloriesDiff normalized))
    else ret tt
  else ret tt.

Definition normalizeAnalysisResult (result : value) (isHebrew : bool)
  : Comp MealAnalysisResult.t :=
  normalized <- lift (normalized_record result isHebrew) ;;
  validateTotals normalized ;;;
  ret normalized.

(** ** The prompts

    The template strings of [buildAnalysisPrompt], line by line. *)

Definition analysis_prompt_hebrew : string :=
  lines
    [ "אתה מומחה תזונה מקצועי המנתח תמונות של ארוחות. נתח את התמונה ותחזיר JSON מדויק עם המידע הבא:";
      EmptyString;
      "{";
      "  " ++ quoted "name" ++ ": " ++ quoted "שם הארוחה בעברית" ++ ",";
      "  " ++ quoted "description" ++ ": " ++ quoted "תיאור קצר של הארוחה" ++ ",";
      "  " ++ quoted "calories" ++ ": מספר_קלוריות_כולל,";
      "  " ++ quoted "protein" ++ ": מספר_גרמי_חלבון,";
      "  " ++ quoted "carbs" ++ ": מספר_גרמי_פחמימות,";
      "  " ++ quoted "fat" ++ ": מספר_גרמי_שומן,";
      "  " ++ quoted "fiber" ++ ": מספר_גרמי_סיבים,";
      "  " ++ quoted "sugar" ++ ": מספר_גרמי_סוכר,";
      "  " ++ quoted "sodium" ++ ": מספר_מיליגרם_נתרן,";
      "  " ++ quoted "ingredients" ++ ": [";
      "    {";
      "      " ++ quoted "name" ++ ": " ++ quoted "שם המרכיב בעברית" ++ ",";
      "      " ++ quoted "calories" ++ ": מספר_קלוריות,";
      "      " ++ quoted "protein" ++ ": מספר_גרמי_חלבון,";
      "      " ++ quoted "carbs" ++ ": מספר_גרמי_פחמימות,";
      "      " ++ quoted "fat" ++ ": מספר_גרמי_שומן,";
      "      " ++ quoted "fiber" ++ ": מספר_גרמי_סיבים,";
      "      " ++ quoted "sugar" ++ ": מספר_גרמי_סוכר,";
      "      " ++ quoted "sodium_mg" ++ ": מספר_מיליגרם_נתרן";
      "    }";
      "  ],";
      "  " ++ quoted "cooking_method" ++ ": " ++ quoted "שיטת_הכנה" ++ ",";
      "  " ++ quoted "food_category" ++ ": " ++ quoted "קטגוריית_מזון" ++ ",";
      "  " ++ quoted "confidence" ++ ": מספר_בין_0_ל_100,";
      "  " ++ quoted "recommendations" ++ ": " ++ quoted "המלצות_בריאותיות_והערות";
      "}";
      EmptyString;
      "חשוב:";
      "- זהה כל מרכיב בנפרד עם ערכים תזונתיים מדויקים";
      "- חשב ערכים תזונתיים על בסיס כמויות מוערכות";
      "- תן ערכים מספריים בלבד (לא טקסט)";
      "- ודא שסכום המרכיבים תואם לסך הכולל";
      "- השתמש בשמות עבריים למרכיבים" ].

Definition analysis_prompt_english : string :=
  lines
    [ "You are a professional nutrition expert analyzing meal images. Analyze the image and return accurate JSON with this information:";
      EmptyString;
      "{";
      "  " ++ quoted "name" ++ ": " ++ quoted "meal_name_in_english" ++ ",";
      "  " ++ quoted "description" ++ ": " ++ quoted "brief_meal_description" ++ ",";
      "  " ++ quoted "calories" ++ ": total_calories_number,";
      "  " ++ quoted "protein" ++ ": total_protein_grams,";
      "  " ++ quoted "carbs" ++ ": total_carbs_grams,";
      "  " ++ quoted "fat" ++ ": total_fat_grams,";
      "  " ++ quoted "fiber" ++ ": total_fiber_grams,";
      "  " ++ quoted "sugar" ++ ": total_sugar_grams,";
      "  " ++ quoted "sodium" ++ ": total_sodium_milligrams,";
      "  " ++ quoted "ingredients" ++ ": [";
      "    {";
      "      " ++ quoted "name" ++ ": " ++ quoted "ingredient_name" ++ ",";
      "      " ++ quoted "calories" ++ ": calories_number,";
      "      " ++ quoted "protein" ++ ": protein_grams,";
      "      " ++ quoted "carbs" ++ ": carbs_grams,";
      "      " ++ quoted "fat" ++ ": fat_grams,";
      "      " ++ quoted "fiber" ++ ": fiber_grams,";
      "      " ++ quoted "sugar" ++ ": sugar_grams,";
      "      " ++ quoted "sodium_mg" ++ ": sodium_milligrams";
      "    }";
      "  ],";
      "  " ++ quoted "cooking_method" ++ ": " ++ quoted "cooking_method" ++ ",";
      "  " ++ quoted "food_category" ++ ": " ++ quoted "food_category" ++ ",";
      "  " ++ quoted "confidence" ++ ": confidence_0_to_100,";
      "  " ++ quoted "recommendations" ++ ": " ++ quoted "health_recommendations_and_notes";
      "}";
      EmptyString;
      "Important:";
      "- Identify each ingredient separately with accurate nutritional values";
      "- Calculate nutritional values based on estimated quantities";
      "- Provide only numeric values (no text)";
      "- Ensure ingredient totals match overall totals";
      "- Be precise with portion estimates" ].

Definition buildAnalysisPrompt (isHebrew : bool) : string :=
  if isHebrew then analysis_prompt_hebrew else analysis_prompt_english.

(** ** The provider

    [openai.chat.completions.create], awaited: it answers with a completion or
    raises.  Of the completion the service reads
    [response.choices[0]?.message?.content]. *)

Module Completion.
Record Message : Type := { content : option string }.
Record Choice : Type := { message : option Message }.
Record t : Type := { choices : list Choice }.
End Completion.

Record OpenAI : Type := { create : ChatRequest -> outcome Completion.t }.

(** The module-level [openai] handle, built when the module loads if the
    credential was there, and [process.env.OPENAI_API_KEY] as the operation
    finds it. *)
Record Config : Type := {
  openai : option OpenAI;
  OPENAI_API_KEY : option string
}.

(** ToBoolean of a string that may be [undefined] or [null]. *)
Definition text_truthy (s : option string) : bool :=
  match s with
  | Some (String _ _) => true
  | _ => false
  end.

(** [if (!openai || !process.env.OPENAI_API_KEY) throw ...], and the handle
    when the test lets the operation go on. *)
Definition not_configured : thrown := JsError "OpenAI API key not configured".

Definition require_client (cfg : Config) : outcome OpenAI :=
  match openai cfg with
  | None => Raised not_configured
  | Some client =>
      if negb (text_truthy (OPENAI_API_KEY cfg)) then Raised not_configured
      else Returned client
  end.

(** One request to the provider, recorded in the trace. *)
Definition send (client : OpenAI) (request : ChatRequest) : Comp Completion.t :=
  ([Request request], create client request).

Definition first_content (response : Completion.t) : option string :=
  match Completion.choices response with
  | [] => None
  | choice :: _ =>
      match Completion.message choice with
      | None => None
      | Some m => Completion.content m
      end
  end.

(** [if (!content) throw new Error("No response content from OpenAI")]. *)
Definition no_content : thrown := JsError "No response content from OpenAI".

Definition require_content (response : Completion.t) : outcome string :=
  match first_content response with
  | Some (String _ _ as content) => Returned content
  | _ => Raised no_content
  end.

(** The length of an array, or an index into it, in a template string. *)
Definition nat_to_string (n : nat) : string := NilZero.string_of_uint (Nat.to_uint n).

(** The [catch] block of [analyzeMealImage]. *)
Definition quota_exceeded : thrown :=
  JsError "AI analysis quota exceeded. Please try again later.".
Definition rate_limited : thrown :=
  JsError "Too many requests. Please wait a moment and try again.".
Definition invalid_image : thrown :=
  JsError "Invalid image format. Please try a different image.".
Definition analysis_failed : thrown :=
  JsError "AI analysis failed. Please try again.".

Definition translate_error (error : thrown) : thrown :=
  match error with
  | JsError message =>
      if includes message "quota" then quota_exceeded
      else if includes message "rate limit" then rate_limited
      else if includes message "invalid_request_error" then invalid_image
      else analysis_failed
  | NonError _ => analysis_failed
  end.

Definition update_failed : thrown := JsError "Failed to update meal analysis".

(** ** The operations *)

(** *** Requests and defaults *)

(** A parameter with a default: [language: string = "english"]. *)
Definition language_or_default (language : option string) : string :=
  match language with
  | Some l => l
  | None => "english"
  end.

Definition is_hebrew (language : option string) : bool :=
  String.eqb (language_or_default language) "hebrew".

(** The text part of the user message of [analyzeMealImage]. *)
Definition analysis_user_text (updateText : option string)
    (editedIngredients : option (list value)) : string :=
  match updateText with
  | Some (String _ _ as text) =>
      "Please analyze this meal image and incorporate the following user feedback: "
      ++ quoted text ++ ". "
      ++ match editedIngredients with
         | Some ((_ :: _) as edited) =>
             "The user has also provided " ++ nat_to_string (List.length edited)
             ++ " edited ingredients."
         | _ => EmptyString
         end
  | _ => "Please analyze this meal image and provide detailed nutritional information."
  end.

Definition analysis_request (analysisPrompt : string) (imageBase64 : string)
    (updateText : option string) (editedIngredients : option (list value))
  : ChatRequest :=
  {| model := "gpt-4o";
     messages :=
       [ {| role := "system"; content := Text analysisPrompt |};
         {| role := "user";
            content :=
              Parts
                [ TextPart (analysis_user_text updateText editedIngredients);
                  ImageUrlPart ("data:image/jpeg;base64," ++ imageBase64) "high" ] |} ];
     max_tokens := Num.of_Z 2000;
     temperature := Num.decimal false 1 (-1) |}.

Definition update_request (updatePrompt updateText : string) : ChatRequest :=
  {| model := "gpt-4o";
     messages :=
       [ {| role := "system"; content := Text updatePrompt |};
         {| role := "user";
            content :=
              Text ("Please update the meal analysis based on this feedback: "
                    ++ quoted updateText) |} ];
     max_tokens := Num.of_Z 1500;
     temperature := Num.decimal false 1 (-1) |}.

Definition text_request (prompt : string) (maxTokens : number) : ChatRequest :=
  {| model := "gpt-4o";
     messages := [ {| role := "user"; content := Text prompt |} ];
     max_tokens := maxTokens;
     temperature := Num.decimal false 7 (-1) |}.

(** A parameter with a default: [maxTokens: number = 1000]. *)
Definition maxTokens_or_default (maxTokens : option number) : number :=
  match maxTokens with
  | Some n => n
  | None => Num.of_Z 1000
  end.

(** The first sentence of the prompt of [buildUpdatePrompt]. *)
Definition update_prompt_hebrew : string :=
  "אתה מומחה תזונה המעדכן ניתוח ארוחה קיים על בסיס משוב מהמשתמש.".
Definition update_prompt_english : string :=
  "You are a nutrition expert updating an existing meal analysis based on user feedback.".

(** *** The static methods of the class that call the provider *)

Module OpenAIService.
Section Methods.

(** What the service calls and this file does not hold: the text-cleaning
    utility of [../utils/openai], [JSON.parse], [JSON.stringify(x, null, 2)]
    as a template string shows it, and the string of a number. *)
Variable extractCleanJSON : string -> outcome string.
Variable JSON_parse : string -> outcome value.
Variable JSON_stringify : value -> outcome string.
Variable NumberToString : number -> string.

(** ToString, as a template string applies it to a substitution. *)
Fixpoint ToString (v : value) : outcome string :=
  match v with
  | VUndefined => Returned "undefined"
  | VNull => Returned "null"
  | VBool b => Returned (if b then "true" else "false")
  | VNum n => Returned (NumberToString n)
  | VStr s => Returned s
  | VObj props =>
      if has_own "toString" props then Raised cannot_convert
      else Returned "[object Object]"
  | VArr elems =>
      let join :=
        fix join (l : list value) : outcome (list string) :=
          match l with
          | [] => Returned []
          | e :: rest =>
              match
                match e with
                | VUndefined | VNull => Returned EmptyString
                | _ => ToString e
                end
              with
              | Raised x => Raised x
              | Returned s =>
                  match join rest with
                  | Raised x => Raised x
                  | Returned ss => Returned (s :: ss)
                  end
              end
          end in
      match join elems with
      | Raised x => Raised x
      | Returned parts => Returned (String.concat "," parts)
      end
  end.

(** The body of [editedIngredients.forEach]: the line it appends. *)
Definition edited_ingredient_line (index : nat) (ingredient : value)
  : outcome string :=
  name <- get ingredient "name" ;;
  name <- ToString name ;;
  calories <- ToString (prop ingredient "calories") ;;
  protein <- ToString (prop ingredient "protein") ;;
  ret ("  " ++ nat_to_string (index + 1) ++ ". " ++ name ++ ": " ++ calories
       ++ " cal, " ++ protein ++ "g protein" ++ nl).

Fixpoint edited_ingredient_lines (index : nat) (l : list value)
  : outcome string :=
  match l with
  | [] => ret EmptyString
  | ingredient :: rest =>
      line <- edited_ingredient_line index ingredient ;;
      more <- edited_ingredient_lines (S index) rest ;;
      ret (line ++ more)
  end.

Definition buildUpdateContext (updateText : option string)
    (editedIngredients : option (list value)) (isHebrew : bool)
  : outcome string :=
  let context :=
    if isHebrew then nl ++ nl ++ "הקשר נוסף:" ++ nl
    else nl ++ nl ++ "Additional context:" ++ nl in
  let context :=
    match updateText with
    | Some (String _ _ as text) =>
        context ++
        (if isHebrew then "- המשתמש הוסיף הערה: " ++ quoted text ++ nl
         else "- User provided feedback: " ++ quoted text ++ nl)
    | _ => context
    end in
  context <-
    match editedIngredients with
    | Some ((_ :: _) as edited) =>
        let context :=
          context ++
          (if isHebrew
           then "- המשתמש ערך " ++ nat_to_string (List.length edited) ++ " מרכיבים:" ++ nl
           else "- User edited " ++ nat_to_string (List.length edited) ++ " ingredients:" ++ nl) in
        added <- edited_ingredient_lines 0 edited ;;
        ret (context ++ added)
    | _ => ret context
    end ;;
  ret (context ++
       (if isHebrew then nl ++ "אנא התחשב במידע זה בעת עדכון הניתוח."
        else nl ++ "Please incorporate this information when updating the analysis.")).

Definition buildUpdatePrompt (originalAnalysis : value) (updateText : string)
    (isHebrew : bool) : outcome string :=
  let basePrompt :=
    if isHebrew then update_prompt_hebrew else update_prompt_english in
  json <- JSON_stringify originalAnalysis ;;
  let originalData :=
    if isHebrew then nl ++ nl ++ "ניתוח מקורי:" ++ nl ++ json
    else nl ++ nl ++ "Original analysis:" ++ nl ++ json in
  let updateInstruction :=
    if isHebrew
    then nl ++ nl ++ "משוב מהמשתמש: " ++ quoted updateText ++ nl ++ nl
         ++ "אנא עדכן את הניתוח בהתאם למשוב והחזר JSON מעודכן באותו פורמט."
    else nl ++ nl ++ "User feedback: " ++ quoted updateText ++ nl ++ nl
         ++ "Please update the analysis according to the feedback and return updated JSON in the same format." in
  ret (basePrompt ++ originalData ++ updateInstruction).

(** The system prompt of [analyzeMealImage]: the analysis prompt, and the
    context of the update or of the edits when there is one. *)
Definition analysis_prompt (language : option string)
    (updateText : option string) (editedIngredients : option (list value))
  : outcome string :=
  let isHebrew := is_hebrew language in
  let analysisPrompt := buildAnalysisPrompt isHebrew in
  if text_truthy updateText
     || match editedIngredients with Some (_ :: _) => true | _ => false end
  then
    context <- buildUpdateContext updateText editedIngredients isHebrew ;;
    ret (analysisPrompt ++ context)
  else ret analysisPrompt.

(** The [try] block of [analyzeMealImage]. *)
Definition analyzeMealImage_try (client : OpenAI) (imageBase64 : string)
    (language : option string) (updateText : option string)
    (editedIngredients : option (list value)) : Comp MealAnalysisResult.t :=
  let isHebrew := is_hebrew language in
  analysisPrompt <- lift (analysis_prompt language updateText editedIngredients) ;;
  response <-
    send client (analysis_request analysisPrompt imageBase64 updateText editedIngredients) ;;
  content <- lift (require_content response) ;;
  cleanedJSON <- lift (extractCleanJSON content) ;;
  parsedResult <- lift (JSON_parse cleanedJSON) ;;
  lift (get parsedResult "name") ;;;
  normalizeAnalysisResult parsedResult isHebrew.

Definition analyzeMealImage (cfg : Config) (imageBase64 : string)
    (language : option string) (updateText : option string)
    (editedIngredients : option (list value)) : Comp MealAnalysisResult.t :=
  client <- lift (require_client cfg) ;;
  try_catch
    (analyzeMealImage_try client imageBase64 language updateText editedIngredients)
    (fun error => throw (translate_error error)).

(** The [try] block of [updateMealAnalysis]. *)
Definition updateMealAnalysis_try (client : OpenAI) (originalAnalysis : value)
    (updateText : string) (language : option string)
  : Comp MealAnalysisResult.t :=
  let isHebrew := is_hebrew language in
  updatePrompt <- lift (buildUpdatePrompt originalAnalysis updateText isHebrew) ;;
  response <- send client (update_request updatePrompt updateText) ;;
  content <- lift (require_content response) ;;
  cleanedJSON <- lift (extractCleanJSON content) ;;
  parsedResult <- lift (JSON_parse cleanedJSON) ;;
  normalizeAnalysisResult parsedResult isHebrew.

Definition updateMealAnalysis (cfg : Config) (originalAnalysis : value)
    (updateText : string) (language : option string)
  : Comp MealAnalysisResult.t :=
  client <- lift (require_client cfg) ;;
  try_catch
    (updateMealAnalysis_try client originalAnalysis updateText language)
    (fun _ => throw update_failed).

(** The [try] block of [generateText]. *)
Definition generateText_try (client : OpenAI) (prompt : string)
    (maxTokens : option number) : Comp string :=
  response <- send client (text_request prompt (maxTokens_or_default maxTokens)) ;;
  ret match first_content response with
      | Some (String _ _ as content) => content
      | _ => EmptyString
      end.

Definition generateText (cfg : Config) (prompt : string)
    (maxTokens : option number) : Comp string :=
  client <- lift (require_client cfg) ;;
  try_catch (generateText_try client prompt maxTokens)
            (fun error => throw error).

End Methods.
End OpenAIService.

(** ** Tables of fields and sample replies

    The statements below speak of several fields at once through these
    tables: a property name of the reply with the field of the record that is
    computed from it. *)

(** The fields of the meal record that [Number(x) || 0] fills, each with the
    property of the reply it is read from. *)
Definition zero_default_fields : list (string * (MealAnalysisResult.t -> number)) :=
  [ ("calories", MealAnalysisResult.calories);
    ("protein", MealAnalysisResult.protein);
    ("carbs", MealAnalysisResult.carbs);
    ("fat", MealAnalysisResult.fat);
    ("fiber", MealAnalysisResult.fiber);
    ("sugar", MealAnalysisResult.sugar);
    ("sodium", MealAnalysisResult.sodium) ].

(** The fields that [Number(x) || undefined] fills. *)
Definition extended_fields : list (string * (MealAnalysisResult.t -> option number)) :=
  [ ("saturated_fats_g", MealAnalysisResult.saturated_fats_g);
    ("polyunsaturated_fats_g", MealAnalysisResult.polyunsaturated_fats_g);
    ("monounsaturated_fats_g", MealAnalysisResult.monounsaturated_fats_g);
    ("omega_3_g", MealAnalysisResult.omega_3_g);
    ("omega_6_g", MealAnalysisResult.omega_6_g);
    ("soluble_fiber_g", MealAnalysisResult.soluble_fiber_g);
    ("insoluble_fiber_g", MealAnalysisResult.insoluble_fiber_g);
    ("cholesterol_mg", MealAnalysisResult.cholesterol_mg);
    ("alcohol_g", MealAnalysisResult.alcohol_g);
    ("caffeine_mg", MealAnalysisResult.caffeine_mg);
    ("liquids_ml", MealAnalysisResult.liquids_ml);
    ("serving_size_g", MealAnalysisResult.serving_size_g) ].

(** The pairs of names under which an ingredient of the reply may give one
    nutrient, first the name read first, with the field they fill. *)
Definition ingredient_aliases : list (string * string * (Ingredient.t -> number)) :=
  [ ("protein", "protein_g", Ingredient.protein);
    ("carbs", "carbs_g", Ingredient.carbs);
    ("fat", "fats_g", Ingredient.fat);
    ("fiber", "fiber_g", Ingredient.fiber);
    ("sugar", "sugar_g", Ingredient.sugar);
    ("sodium_mg", "sodium", Ingredient.sodium_mg) ].

(** No object inside [v] has an own property named [toString]: on such
    values no coercion raises. *)
Fixpoint plain (v : value) : bool :=
  match v with
  | VObj props =>
      negb (has_own "toString" props) && forallb (fun p => plain (snd p)) props
  | VArr elems => forallb plain elems
  | _ => true
  end.

Definition nullish (v : value) : bool :=
  match v with
  | VUndefined | VNull => true
  | _ => false
  end.

(** A reply on which [normalizeAnalysisResult] returns: it is not [null], no
    coercion of it raises, and none of its ingredients is [null]. *)
Definition well_formed_reply (result : value) : bool :=
  negb (nullish result) && plain result
  && match prop result "ingredients" with
     | VArr elems => forallb (fun e => negb (nullish e)) elems
     | _ => true
     end.

(** A number given by its decimal digits, as a reply holds it. *)
Definition num (z : Z) : value := VNum (Num.of_Z z).

(** A reply with fields of several kinds: numbers, a numeric string, text
    that is no number, aliases, and fields left out. *)
Definition sample_reply : value :=
  VObj
    [ ("name", VStr "Greek salad");
      ("calories", num 500);
      ("protein", VStr "12.5");
      ("carbs", VStr "a few");
      ("cholesterol_mg", num 30);
      ("omega_3_g", num 0);
      ("ingredients",
        VArr
          [ VObj [ ("name", VStr "Feta"); ("calories", num 260);
                   ("protein_g", num 14); ("sodium", num 900) ];
            VObj [ ("calories", num 90); ("protein", num 2);
                   ("fats_g", VNum (Num.decimal false 5 (-1))) ] ]) ].

(** The requests in a trace, in the order they were sent. *)
Fixpoint requests_of (t : list event) : list ChatRequest :=
  match t with
  | [] => []
  | Request r :: rest => r :: requests_of rest
  | Warn _ _ _ :: rest => requests_of rest
  end.

(** An environment for the examples: a cleaning utility that changes nothing,
    a parser that knows one text, that of the sample reply, and fixed strings
    for what the examples never print. *)
Module Sample.
Definition reply_text : string :=
  "{" ++ quoted "name" ++ ": " ++ quoted "Greek salad" ++ ", "
  ++ quoted "calories" ++ ": 500, "
  ++ quoted "protein" ++ ": " ++ quoted "12.5" ++ ", "
  ++ quoted "carbs" ++ ": " ++ quoted "a few" ++ ", "
  ++ quoted "cholesterol_mg" ++ ": 30, "
  ++ quoted "omega_3_g" ++ ": 0, "
  ++ quoted "ingredients" ++ ": [{"
  ++ quoted "name" ++ ": " ++ quoted "Feta" ++ ", "
  ++ quoted "calories" ++ ": 260, "
  ++ quoted "protein_g" ++ ": 14, "
  ++ quoted "sodium" ++ ": 900}, {"
  ++ quoted "calories" ++ ": 90, "
  ++ quoted "protein" ++ ": 2, "
  ++ quoted "fats_g" ++ ": 0.5}]}".

Definition extractCleanJSON (s : string) : outcome string := Returned s.
Definition JSON_parse (s : string) : outcome value :=
  if String.eqb s reply_text then Returned sample_reply
  else Raised (JsError "Unexpected token in JSON").
Definition JSON_stringify (_ : value) : outcome string := Returned "{}".
Definition NumberToString (_ : number) : string := "0".

Definition completion (content : option string) : Completion.t :=
  {| Completion.choices :=
       [ {| Completion.message := Some {| Completion.content := content |} |} ] |}.

(** A provider that answers every request with [content]. *)
Definition answering (content : option string) : OpenAI :=
  {| create := fun _ => Returned (completion content) |}.

(** A provider that raises [error] on every request. *)
Definition failing (error : thrown) : OpenAI :=
  {| create := fun _ => Raised error |}.

Definition configured (client : OpenAI) : Config :=
  {| openai := Some client; OPENAI_API_KEY := Some "sk-sample" |}.

Definition unconfigured : Config :=
  {| openai := None; OPENAI_API_KEY := None |}.
End Sample.

(** The error of a provider out of quota. *)
Definition out_of_quota : thrown :=
  JsError "429 You exceeded your current quota, please check your plan.".

(** The numeric fields of an ingredient record, each with the expression of
    the reply's ingredient that [Number] is applied to. *)
Definition ingredient_number_fields
  : list ((value -> value) * (Ingredient.t -> number)) :=
  [ (fun i => prop i "calories", Ingredient.calories);
    (fun i => prop i "protein" ||| prop i "protein_g", Ingredient.protein);
    (fun i => prop i "carbs" ||| prop i "carbs_g", Ingredient.carbs);
    (fun i => prop i "fat" ||| prop i "fats_g", Ingredient.fat);
    (fun i => prop i "fiber" ||| prop i "fiber_g", Ingredient.fiber);
    (fun i => prop i "sugar" ||| prop i "sugar_g", Ingredient.sugar);
    (fun i => prop i "sodium_mg" ||| prop i "sodium", Ingredient.sodium_mg);
    (fun i => prop i "cholesterol_mg", Ingredient.cholesterol_mg);
    (fun i => prop i "saturated_fats_g", Ingredient.saturated_fats_g);
    (fun i => prop i "polyunsaturated_fats_g", Ingredient.polyunsaturated_fats_g);
    (fun i => prop i "monounsaturated_fats_g", Ingredient.monounsaturated_fats_g);
    (fun i => prop i "omega_3_g", Ingredient.omega_3_g);
    (fun i => prop i "omega_6_g", Ingredient.omega_6_g);
    (fun i => prop i "soluble_fiber_g", Ingredient.soluble_fiber_g);
    (fun i => prop i "insoluble_fiber_g", Ingredient.insoluble_fiber_g);
    (fun i => prop i "alcohol_g", Ingredient.alcohol_g);
    (fun i => prop i "caffeine_mg", Ingredient.caffeine_mg);
    (fun i => prop i "serving_size_g", Ingredient.serving_size_g) ].

(** [x < 0]. *)
Definition is_negative (x : number) : bool := Num.gtb Num.zero x.

(** The TypeErrors that reading a property or coercing a value can raise. *)
Definition type_errors : list thrown :=
  [ cannot_read "undefined" "name"; cannot_read "null" "name"; cannot_convert ].

(** What follows the provider's answer in both [try] blocks: the content is
    required, cleaned, parsed and normalized. *)
Definition read_reply (extractCleanJSON : string -> outcome string)
    (JSON_parse : string -> outcome value) (response : Completion.t)
    (isHebrew : bool) : Comp MealAnalysisResult.t :=
  match require_content response with
  | Raised e => ([], Raised e)
  | Returned content =>
      match extractCleanJSON content with
      | Raised e => ([], Raised e)
      | Returned cleaned =>
          match JSON_parse cleaned with
          | Raised e => ([], Raised e)
          | Returned parsed => normalizeAnalysisResult parsed isHebrew
          end
      end
  end.

(** The other extended fields of the meal record, which [x || d] fills with
    the reply's own value, not coerced: each with the property it is read
    from and its default [d]. *)
Definition extended_value_fields
  : list (string * value * (MealAnalysisResult.t -> value)) :=
  [ ("allergens_json", VObj [], MealAnalysisResult.allergens_json);
    ("vitamins_json", VObj [], MealAnalysisResult.vitamins_json);
    ("micronutrients_json", VObj [], MealAnalysisResult.micronutrients_json);
    ("glycemic_index", VUndefined, MealAnalysisResult.glycemic_index);
    ("insulin_index", VUndefined, MealAnalysisResult.insulin_index);
    ("processing_level", VStr "", MealAnalysisResult.processing_level);
    ("additives_json", VObj [], MealAnalysisResult.additives_json);
    ("health_risk_notes", VUndefined, MealAnalysisResult.health_risk_notes) ].

(** An edited ingredient whose line [buildUpdateContext] can write: it is
    neither [null] nor [undefined], and its name, calories and protein have a
    string. *)
Definition printable_edit (ingredient : value) : bool :=
  negb (nullish ingredient)
  && negb (to_string_raises (prop ingredient "name"))
  && negb (to_string_raises (prop ingredient "calories"))
  && negb (to_string_raises (prop ingredient "protein")).

Definition printable_edits (editedIngredients : option (list value)) : bool :=
  match editedIngredients with
  | Some edited => forallb printable_edit edited
  | None => true
  end.

(** The content of the system message a request starts with. *)
Definition system_prompt (request : ChatRequest) : option string :=
  match messages request with
  | {| role := r; content := Text prompt |} :: _ =>
      if String.eqb r "system" then Some prompt else None
  | _ => None
  end.

(** The four ways a run can end: failed before any request, failed after
    one request, returned after one request, returned after one request and
    one warning. *)
Definition run_shape {A : Type} (run : Comp A) : Prop :=
  (exists e, run = ([], Raised e)) \/
  (exists r e, run = ([Request r], Raised e)) \/
  (exists r a, run = ([Request r], Returned a)) \/
  (exists r x y z a, run = ([Request r; Warn x y z], Returned a)).

(** * Properties *)

(** ** The coercions on examples *)

Example tenth_is_rounded :
  Num.decimal false 1 (-1) = S754_finite false 7205759403792794 (-56).
Proof. reflexivity. Qed.

Example tenths_do_not_add_up :
  Num.eqb (Num.add (Num.decimal false 1 (-1)) (Num.decimal false 2 (-1)))
          (Num.decimal false 3 (-1)) = false.
Proof. reflexivity. Qed.

Example number_of_decimal_text : StringToNumber "12.5" = Num.decimal false 125 (-1).
Proof. reflexivity. Qed.

Example number_of_padded_text : StringToNumber " 42 " = Num.of_Z 42.
Proof. reflexivity. Qed.

Example number_of_exponent_text : StringToNumber "1e3" = Num.of_Z 1000.
Proof. reflexivity. Qed.

Example number_of_hexadecimal_text : StringToNumber "0x1F" = Num.of_Z 31.
Proof. reflexivity. Qed.

Example number_of_empty_text : StringToNumber EmptyString = Num.zero.
Proof. reflexivity. Qed.

Example number_of_words : StringToNumber "a few" = Num.nan.
Proof. reflexivity. Qed.

Example number_of_unit_suffix : StringToNumber "12g" = Num.nan.
Proof. reflexivity. Qed.

Example number_of_true : ToNumber (VBool true) = Returned (Num.of_Z 1).
Proof. reflexivity. Qed.

Example number_of_singleton : ToNumber (VArr [VStr "7"]) = Returned (Num.of_Z 7).
Proof. reflexivity. Qed.

Example number_of_pair : ToNumber (VArr [num 1; num 2]) = Returned Num.nan.
Proof. reflexivity. Qed.

Example number_of_object : ToNumber (VObj [("kcal", num 5)]) = Returned Num.nan.
Proof. reflexivity. Qed.

Example number_of_shadowed_toString :
  ToNumber (VObj [("toString", VNull)]) = Raised cannot_convert.
Proof. reflexivity. Qed.

Example quota_is_found :
  translate_error out_of_quota = quota_exceeded.
Proof. reflexivity. Qed.

Example rate_limit_is_found :
  translate_error (JsError "Rate limit reached: rate limit of 3 per minute")
  = rate_limited.
Proof. reflexivity. Qed.

Example other_errors_are_generic :
  translate_error (JsError "connect ECONNREFUSED") = analysis_failed.
Proof. reflexivity. Qed.

(** ** Inversion of the monadic definitions *)

(** A sequence of binds that returned: every step of it returned. *)
Ltac returned_steps H :=
  cbn [bind outcome_monad] in H;
  repeat
    match type of H with
    | match ?m with Returned _ => _ | Raised _ => _ end = Returned _ =>
        let x := fresh "x" in
        let E := fresh "E" in
        destruct m as [x | ?] eqn:E; [ | discriminate H ]
    end.

Lemma number_or_inv (v : value) (d x : number) :
  number_or v d = Returned x ->
  exists n, ToNumber v = Returned n /\ x = if Num.truthy n then n else d.
Proof.
  unfold number_or. intros H. returned_steps H.
  cbn [ret outcome_monad] in H. injection H as <-. eauto.
Qed.

Lemma number_or_undefined_inv (v : value) (x : option number) :
  number_or_undefined v = Returned x ->
  exists n, ToNumber v = Returned n /\ x = if Num.truthy n then Some n else None.
Proof.
  unfold number_or_undefined. intros H. returned_steps H.
  cbn [ret outcome_monad] in H. injection H as <-. eauto.
Qed.

Lemma truthy_not_nan (n : number) : Num.truthy n = true -> Num.is_nan n = false.
Proof. destruct n; cbv; congruence. Qed.

(** [Number(v) || d] is never NaN, unless [d] is. *)
Lemma number_or_not_nan (v : value) (d x : number) :
  Num.is_nan d = false -> number_or v d = Returned x -> Num.is_nan x = false.
Proof.
  intros Hd H. apply number_or_inv in H as (n & _ & ->).
  destruct (Num.truthy n) eqn:T; auto using truthy_not_nan.
Qed.

(** [Number(v) || d] is [d] when [Number(v)] is NaN. *)
Lemma number_or_nan (v : value) (d x : number) :
  ToNumber v = Returned Num.nan -> number_or v d = Returned x -> x = d.
Proof.
  intros Hv H. apply number_or_inv in H as (n & Hn & ->).
  rewrite Hv in Hn. injection Hn as <-. reflexivity.
Qed.

(** What the object literal puts in each field, read off a run that returned. *)
Lemma normalized_record_inv (result : value) (isHebrew : bool)
    (normalized : MealAnalysisResult.t) :
  normalized_record result isHebrew = Returned normalized ->
  (exists name, get result "name" = Returned name /\
     MealAnalysisResult.name normalized = name ||| VStr (unknown_meal isHebrew)) /\
  Forall (fun '(key, field) =>
            number_or (prop result key) Num.zero = Returned (field normalized))
         zero_default_fields /\
  number_or (prop result "confidence") (Num.of_Z 75)
    = Returned (MealAnalysisResult.confidence normalized) /\
  normalizeIngredients isHebrew (prop result "ingredients")
    = Returned (MealAnalysisResult.ingredients normalized) /\
  Forall (fun '(key, field) =>
            number_or_undefined (prop result key) = Returned (field normalized))
         extended_fields.
Proof.
  unfold normalized_record. intros H. returned_steps H.
  cbn [ret outcome_monad] in H. injection H as <-.
  cbn [MealAnalysisResult.name MealAnalysisResult.confidence
       MealAnalysisResult.ingredients].
  repeat split; eauto.
  - unfold zero_default_fields. repeat constructor; assumption.
  - unfold extended_fields. repeat constructor; assumption.
Qed.

(** [normalizeAnalysisResult] returns exactly when the object literal is
    built: the check after it cannot raise, and what it returns is the literal. *)
Lemma normalizeAnalysisResult_returned (result : value) (isHebrew : bool)
    (ws : list event) (normalized : MealAnalysisResult.t) :
  normalizeAnalysisResult result isHebrew = (ws, Returned normalized) <->
  normalized_record result isHebrew = Returned normalized /\
  ws = trace_of (validateTotals normalized).
Proof.
  unfold normalizeAnalysisResult, lift.
  cbn [bind comp_monad ret].
  destruct (normalized_record result isHebrew) as [n | e].
  - assert (V : exists t, validateTotals n = (t, Returned tt)).
    { unfold validateTotals, emit. cbn [ret comp_monad].
      destruct (_ <? _)%nat; [destruct (totals_mismatch n)|]; eauto. }
    destruct V as (t & V). rewrite V. cbn [trace_of fst app].
    rewrite app_nil_r. split.
    + intros H. injection H as <- <-. rewrite V. auto.
    + intros [H ->]. injection H as <-. rewrite V. reflexivity.
  - split; [discriminate | intros [H _]; discriminate].
Qed.

(** ** Reading one entry of a table *)

Lemma table_entry {A : Type} {P : A -> Prop} {l : list A} :
  Forall P l -> forall x, In x l -> P x.
Proof. intros H x Hx. exact (proj1 (Forall_forall P l) H x Hx). Defined.

Ltac in_table := simpl; repeat (first [left; reflexivity | right]).

(** ** Required numeric fields *)

Lemma ToNumber_missing : ToNumber VUndefined = Returned Num.nan.
Proof. reflexivity. Qed.

(** C1 (as amended).  Whenever [normalizeAnalysisResult] returns, none of
    calories, protein, carbs, fat, fiber, sugar, sodium and confidence is NaN
    (a number field cannot be [undefined]); each of the first seven is 0 when
    the reply's field is missing or coerces to NaN; and confidence is then 75,
    not 0. *)
Theorem required_fields_defaulted (result : value) (isHebrew : bool)
    (ws : list event) (normalized : MealAnalysisResult.t) :
  normalizeAnalysisResult result isHebrew = (ws, Returned normalized) ->
  Forall (fun '(key, field) =>
            Num.is_nan (field normalized) = false /\
            (prop result key = VUndefined \/
             ToNumber (prop result key) = Returned Num.nan ->
             field normalized = Num.zero))
         zero_default_fields /\
  Num.is_nan (MealAnalysisResult.confidence normalized) = false /\
  (prop result "confidence" = VUndefined \/
   ToNumber (prop result "confidence") = Returned Num.nan ->
   MealAnalysisResult.confidence normalized = Num.of_Z 75).
Proof.
  intros H. apply normalizeAnalysisResult_returned in H as [H _].
  apply normalized_record_inv in H as (_ & Hz & Hc & _ & _).
  assert (missing : forall v, v = VUndefined \/ ToNumber v = Returned Num.nan ->
                              ToNumber v = Returned Num.nan).
  { intros v [-> | Hv]; [apply ToNumber_missing | exact Hv]. }
  split; [| split].
  - eapply Forall_impl; [| exact Hz]. intros [key field] Hf. split.
    + eapply number_or_not_nan; [| exact Hf]. reflexivity.
    + intros Hm. eapply number_or_nan; [apply missing, Hm | exact Hf].
  - eapply number_or_not_nan; [| exact Hc]. reflexivity.
  - intros Hm. eapply number_or_nan; [apply missing, Hm | exact Hc].
Qed.

Lemma required_fields_defaulted_witness :
  exists ws normalized,
    normalizeAnalysisResult sample_reply false = (ws, Returned normalized) /\
    MealAnalysisResult.carbs normalized = Num.zero /\
    MealAnalysisResult.confidence normalized = Num.of_Z 75.
Proof.
  destruct (normalizeAnalysisResult sample_reply false) as [ws [n | e]] eqn:E;
    [| vm_compute in E; discriminate E].
  exists ws, n. split; [reflexivity |].
  destruct (required_fields_defaulted sample_reply false ws n E) as (Hz & _ & Hc).
  split.
  - apply (table_entry Hz ("carbs", MealAnalysisResult.carbs)); [in_table |].
    right. reflexivity.
  - apply Hc. left. reflexivity.
Defined.

(** C1 as stated fails on confidence: the empty reply has no confidence, and
    the record's confidence is 75, which is not 0. *)
Lemma confidence_default_counterexample :
  prop (VObj []) "confidence" = VUndefined /\
  exists normalized,
    normalizeAnalysisResult (VObj []) false = ([], Returned normalized) /\
    MealAnalysisResult.confidence normalized = Num.of_Z 75 /\
    Num.eqb (MealAnalysisResult.confidence normalized) Num.zero = false.
Proof.
  split; [reflexivity |].
  eexists. split; [vm_compute; reflexivity |]. split; reflexivity.
Qed.

(** ** Extended nutrient fields *)

(** What the object literal puts in the extended fields it does not coerce. *)
Lemma normalized_record_values (result : value) (isHebrew : bool)
    (normalized : MealAnalysisResult.t) :
  normalized_record result isHebrew = Returned normalized ->
  Forall (fun '(key, default, field) =>
            field normalized = prop result key ||| default)
         extended_value_fields.
Proof.
  unfold normalized_record. intros H. returned_steps H.
  cbn [ret outcome_monad] in H. injection H as <-.
  unfold extended_value_fields. repeat constructor.
Qed.

(** C2 (as amended).  Whenever [normalizeAnalysisResult] returns, each of
    the twelve extended fields filled by [Number(x) || undefined] is absent
    when the reply does not have it, holds the reply's number (or the number
    its value coerces to) when that number is neither 0 nor NaN, and is absent
    when the reply's number is 0: a provided 0 reads the same as no value.
    The eight other extended fields
    (glycemic_index and insulin_index among them) hold the reply's own value,
    not coerced, when it is truthy, and their default otherwise, so also when
    the reply gives 0: the default is [undefined] for glycemic_index,
    insulin_index and health_risk_notes, an empty object for the four _json
    fields and the empty string for processing_level. *)
Theorem extended_fields_kept_unless_zero (result : value) (isHebrew : bool)
    (ws : list event) (normalized : MealAnalysisResult.t) :
  normalizeAnalysisResult result isHebrew = (ws, Returned normalized) ->
  Forall (fun '(key, field) =>
            (prop result key = VUndefined -> field normalized = None) /\
            (forall x, prop result key = VNum x ->
                       field normalized = if Num.truthy x then Some x else None) /\
            (forall x, ToNumber (prop result key) = Returned x ->
                       field normalized = if Num.truthy x then Some x else None))
         extended_fields /\
  Forall (fun '(key, default, field) =>
            (prop result key = VUndefined -> field normalized = default) /\
            (forall x, prop result key = VNum x ->
                       field normalized = if Num.truthy x then VNum x else default) /\
            field normalized
            = if truthy (prop result key) then prop result key else default)
         extended_value_fields /\
  MealAnalysisResult.glycemic_index normalized
  = (if truthy (prop result "glycemic_index") then prop result "glycemic_index"
     else VUndefined) /\
  MealAnalysisResult.insulin_index normalized
  = (if truthy (prop result "insulin_index") then prop result "insulin_index"
     else VUndefined).
Proof.
  intros H. apply normalizeAnalysisResult_returned in H as [H _].
  pose proof (normalized_record_values _ _ _ H) as Hv.
  apply normalized_record_inv in H as (_ & _ & _ & _ & He).
  split; [| split; [| split]].
  - eapply Forall_impl; [| exact He]. intros [key field] Hf.
    apply number_or_undefined_inv in Hf as (n & Hn & ->). split; [| split].
    + intros Hm. rewrite Hm in Hn. injection Hn as <-. reflexivity.
    + intros x Hx. rewrite Hx in Hn. injection Hn as <-. reflexivity.
    + intros x Hx. rewrite Hx in Hn. injection Hn as <-. reflexivity.
  - eapply Forall_impl; [| exact Hv]. intros [[key default] field] ->.
    unfold or_else. split; [| split].
    + intros ->. reflexivity.
    + intros x ->. reflexivity.
    + reflexivity.
  - exact (table_entry Hv ("glycemic_index", VUndefined,
                           MealAnalysisResult.glycemic_index)
             ltac:(in_table)).
  - exact (table_entry Hv ("insulin_index", VUndefined,
                           MealAnalysisResult.insulin_index)
             ltac:(in_table)).
Qed.

(** A reply with extended fields of each kind: a number, a number given as
    text, a zero, and fields left out. *)
Lemma extended_fields_kept_unless_zero_witness :
  let reply :=
    VObj [ ("cholesterol_mg", num 30); ("omega_3_g", num 0);
           ("caffeine_mg", VStr "80.5");
           ("glycemic_index", num 55); ("insulin_index", num 0);
           ("processing_level", VStr "minimal") ] in
  exists ws normalized,
    normalizeAnalysisResult reply false = (ws, Returned normalized) /\
    MealAnalysisResult.saturated_fats_g normalized = None /\
    MealAnalysisResult.cholesterol_mg normalized = Some (Num.of_Z 30) /\
    MealAnalysisResult.omega_3_g normalized = None /\
    MealAnalysisResult.caffeine_mg normalized = Some (Num.decimal false 805 (-1)) /\
    MealAnalysisResult.glycemic_index normalized = num 55 /\
    MealAnalysisResult.insulin_index normalized = VUndefined /\
    MealAnalysisResult.health_risk_notes normalized = VUndefined /\
    MealAnalysisResult.vitamins_json normalized = VObj [] /\
    MealAnalysisResult.processing_level normalized = VStr "minimal".
Proof.
  intros reply.
  destruct (normalizeAnalysisResult reply false) as [ws [n | e]] eqn:E;
    [| vm_compute in E; discriminate E].
  exists ws, n. split; [reflexivity |].
  destruct (extended_fields_kept_unless_zero reply false ws n E)
    as (He & Hv & Hg & Hi).
  split; [| split; [| split; [| split; [| split; [| split; [| split; [| split]]]]]]].
  - apply (table_entry He ("saturated_fats_g", MealAnalysisResult.saturated_fats_g));
      [in_table | reflexivity].
  - destruct (table_entry He ("cholesterol_mg", MealAnalysisResult.cholesterol_mg))
      as (_ & Hx & _); [in_table |].
    apply (Hx (Num.of_Z 30)). reflexivity.
  - destruct (table_entry He ("omega_3_g", MealAnalysisResult.omega_3_g))
      as (_ & Hx & _); [in_table |].
    apply (Hx (Num.of_Z 0)). reflexivity.
  - destruct (table_entry He ("caffeine_mg", MealAnalysisResult.caffeine_mg))
      as (_ & _ & Hx); [in_table |].
    apply (Hx (Num.decimal false 805 (-1))). reflexivity.
  - exact Hg.
  - exact Hi.
  - destruct (table_entry Hv ("health_risk_notes", VUndefined,
                              MealAnalysisResult.health_risk_notes))
      as [Hx _]; [in_table |].
    apply Hx. reflexivity.
  - destruct (table_entry Hv ("vitamins_json", VObj [],
                              MealAnalysisResult.vitamins_json))
      as [Hx _]; [in_table |].
    apply Hx. reflexivity.
  - destruct (table_entry Hv ("processing_level", VStr "",
                              MealAnalysisResult.processing_level))
      as (_ & _ & Hx); [in_table |].
    exact Hx.
Defined.

(** C2 as stated fails on a provided 0: the reply that gives saturated_fats_g
    as 0 and the reply that leaves it out are normalized to the same record,
    in which the field is absent. *)
Lemma provided_zero_counterexample :
  prop (VObj [("saturated_fats_g", VNum Num.zero)]) "saturated_fats_g"
    = VNum Num.zero /\
  exists with_zero without,
    normalizeAnalysisResult (VObj [("saturated_fats_g", VNum Num.zero)]) false
      = ([], Returned with_zero) /\
    normalizeAnalysisResult (VObj []) false = ([], Returned without) /\
    MealAnalysisResult.saturated_fats_g with_zero = None /\
    with_zero = without.
Proof.
  split; [reflexivity |].
  eexists. eexists. split; [vm_compute; reflexivity |].
  split; [vm_compute; reflexivity |]. split; reflexivity.
Qed.

(** ** The ingredient list *)

Lemma map_outcome_Forall2 {A B : Type} (f : A -> outcome B) (l : list A)
    (l' : list B) :
  map_outcome f l = Returned l' ->
  Forall2 (fun x y => f x = Returned y) l l'.
Proof.
  revert l'. induction l as [| x rest IH]; intros l' H.
  - injection H as <-. constructor.
  - cbn [map_outcome] in H. returned_steps H.
    cbn [ret outcome_monad] in H. injection H as <-.
    constructor; auto.
Qed.

Lemma Forall2_nth_error_l {A B : Type} (R : A -> B -> Prop) (l : list A)
    (l' : list B) (i : nat) (x : A) :
  Forall2 R l l' -> nth_error l i = Some x ->
  exists y, nth_error l' i = Some y /\ R x y.
Proof.
  intros H. revert i. induction H as [| a b l l' Hab _ IH]; intros i Hi.
  - destruct i; discriminate Hi.
  - destruct i as [| i]; cbn in Hi |- *.
    + injection Hi as <-. eauto.
    + apply IH, Hi.
Qed.

Lemma ingredients_shape (result : value) (isHebrew : bool)
    (ws : list event) (normalized : MealAnalysisResult.t) :
  normalizeAnalysisResult result isHebrew = (ws, Returned normalized) ->
  match prop result "ingredients" with
  | VArr elems =>
      List.length (MealAnalysisResult.ingredients normalized) = List.length elems /\
      Forall2 (fun element item => normalizeIngredient isHebrew element = Returned item)
              elems (MealAnalysisResult.ingredients normalized)
  | _ => MealAnalysisResult.ingredients normalized = []
  end.
Proof.
  intros H. apply normalizeAnalysisResult_returned in H as [H _].
  apply normalized_record_inv in H as (_ & _ & _ & Hi & _).
  unfold normalizeIngredients in Hi.
  destruct (prop result "ingredients");
    try (injection Hi as <-; reflexivity).
  apply map_outcome_Forall2 in Hi. split; [| exact Hi].
  symmetry. eapply Forall2_length, Hi.
Qed.

(** C10.  Whenever [normalizeAnalysisResult] returns, the record's
    ingredients are a list: the empty one when the reply's ingredients field
    is missing or is no array, and otherwise the normalized elements of the
    reply's array, one for each, in the same order. *)
Theorem ingredients_follow_reply (result : value) (isHebrew : bool)
    (ws : list event) (normalized : MealAnalysisResult.t) :
  normalizeAnalysisResult result isHebrew = (ws, Returned normalized) ->
  match prop result "ingredients" with
  | VArr elems =>
      List.length (MealAnalysisResult.ingredients normalized) = List.length elems /\
      Forall2 (fun element item => normalizeIngredient isHebrew element = Returned item)
              elems (MealAnalysisResult.ingredients normalized)
  | _ => MealAnalysisResult.ingredients normalized = []
  end.
Proof. exact (ingredients_shape result isHebrew ws normalized). Qed.

Lemma ingredients_follow_reply_witness :
  exists ws normalized first second,
    normalizeAnalysisResult sample_reply false = (ws, Returned normalized) /\
    MealAnalysisResult.ingredients normalized = [first; second] /\
    Ingredient.name first = VStr "Feta" /\
    Ingredient.name second = VStr "Unknown ingredient".
Proof.
  destruct (normalizeAnalysisResult sample_reply false) as [ws [n | e]] eqn:E;
    [| vm_compute in E; discriminate E].
  pose proof (ingredients_follow_reply sample_reply false ws n E) as H.
  cbn [sample_reply prop lookup String.eqb Ascii.eqb Bool.eqb] in H.
  destruct H as [_ H].
  inversion H as [| e1 i1 r1 l1 H1 Hr]; subst.
  inversion Hr as [| e2 i2 r2 l2 H2 Hn]; subst.
  inversion Hn; subst.
  exists ws, n, i1, i2. split; [reflexivity |]. split; [congruence |].
  vm_compute in H1. vm_compute in H2.
  injection H1 as <-. injection H2 as <-. split; reflexivity.
Defined.

(** ** Aliased field names of an ingredient *)

Lemma normalizeIngredient_inv (isHebrew : bool) (ingredient : value)
    (item : Ingredient.t) :
  normalizeIngredient isHebrew ingredient = Returned item ->
  Forall (fun '(first, second, field) =>
            number_or (prop ingredient first ||| prop ingredient second) Num.zero
              = Returned (field item))
         ingredient_aliases.
Proof.
  unfold normalizeIngredient. intros H. returned_steps H.
  cbn [ret outcome_monad] in H. injection H as <-.
  unfold ingredient_aliases. repeat constructor; assumption.
Qed.

Lemma eqb_refl (x : number) : Num.is_nan x = false -> Num.eqb x x = true.
Proof.
  unfold Num.eqb, SFeqb.
  destruct x as [s | s | | s m e]; cbn; try congruence; intros _.
  - destruct s; reflexivity.
  - rewrite Z.compare_refl, Pos.compare_cont_refl. destruct s; reflexivity.
Qed.

Lemma eqb_zero (x : number) : Num.is_zero x = true -> Num.eqb Num.zero x = true.
Proof. destruct x; cbn; congruence. Qed.

(** A value that is falsy and is a number once coerced coerces to 0. *)
Lemma falsy_number_is_zero (v : value) (x : number) :
  v <> VUndefined -> truthy v = false -> ToNumber v = Returned x ->
  Num.is_nan x = false -> Num.is_zero x = true.
Proof.
  intros Hv Hf Hx Hn.
  destruct v as [| | b | n | s | l | props]; cbn in Hf; try discriminate Hf.
  - congruence.
  - injection Hx as <-. reflexivity.
  - subst b. injection Hx as <-. reflexivity.
  - injection Hx as ->. unfold Num.truthy in Hf. rewrite Hn in Hf.
    cbn in Hf. now destruct (Num.is_zero x).
  - destruct s; [| discriminate Hf]. injection Hx as <-. reflexivity.
Qed.

(** [Number(v || undefined) || 0] and [Number(undefined || v) || 0]. *)
Lemma alias_read (v : value) (x r : number) :
  v <> VUndefined -> ToNumber v = Returned x -> Num.is_nan x = false ->
  number_or (v ||| VUndefined) Num.zero = Returned r \/
  number_or (VUndefined ||| v) Num.zero = Returned r ->
  Num.eqb r x = true /\ (Num.is_zero x = false -> r = x).
Proof.
  intros Hv Hx Hn H.
  assert (direct : forall r', number_or v Num.zero = Returned r' ->
                     Num.eqb r' x = true /\ (Num.is_zero x = false -> r' = x)).
  { intros r' Hr. apply number_or_inv in Hr as (n & Hn' & ->).
    rewrite Hx in Hn'. injection Hn' as <-.
    unfold Num.truthy. rewrite Hn. cbn [orb negb].
    destruct (Num.is_zero x) eqn:Z; cbn [negb].
    - split; [apply eqb_zero, Z | discriminate].
    - split; [apply eqb_refl, Hn | reflexivity]. }
  destruct H as [H | H]; [| exact (direct r H)].
  unfold or_else in H. destruct (truthy v) eqn:T; [exact (direct r H) |].
  pose proof (falsy_number_is_zero v x Hv T Hx Hn) as Z.
  apply number_or_inv in H as (n & Hn' & ->).
  injection Hn' as <-. cbn. split; [apply eqb_zero, Z | congruence].
Qed.

(** C6.  Whenever [normalizeAnalysisResult] returns, take an ingredient of
    the reply that gives a nutrient under exactly one of its two names, with a
    value [v] that coerces to a number [x]: the field of the normalized
    ingredient is numerically equal to [x], and is [x] itself unless [x] is a
    zero (the field is then +0). *)
Theorem alias_value_kept (result : value) (isHebrew : bool) (ws : list event)
    (normalized : MealAnalysisResult.t) (elems : list value) (i : nat)
    (ingredient : value) :
  normalizeAnalysisResult result isHebrew = (ws, Returned normalized) ->
  prop result "ingredients" = VArr elems ->
  nth_error elems i = Some ingredient ->
  exists item,
    nth_error (MealAnalysisResult.ingredients normalized) i = Some item /\
    Forall (fun '(first, second, field) =>
              forall v x,
                v <> VUndefined ->
                (prop ingredient first = v /\ prop ingredient second = VUndefined) \/
                (prop ingredient first = VUndefined /\ prop ingredient second = v) ->
                ToNumber v = Returned x -> Num.is_nan x = false ->
                Num.eqb (field item) x = true /\
                (Num.is_zero x = false -> field item = x))
           ingredient_aliases.
Proof.
  intros H Harr Hi. apply ingredients_shape in H.
  rewrite Harr in H. destruct H as [_ H].
  destruct (Forall2_nth_error_l _ _ _ _ _ H Hi) as (item & Hitem & Hnorm).
  exists item. split; [exact Hitem |].
  apply normalizeIngredient_inv in Hnorm.
  eapply Forall_impl; [| exact Hnorm].
  intros [[first second] field] Hf v x Hv Hone Hx Hn.
  apply (alias_read v x (field item) Hv Hx Hn).
  destruct Hone as [[H1 H2] | [H1 H2]]; rewrite H1, H2 in Hf; auto.
Qed.

Lemma alias_value_kept_witness :
  exists ws normalized item,
    normalizeAnalysisResult sample_reply false = (ws, Returned normalized) /\
    nth_error (MealAnalysisResult.ingredients normalized) 0 = Some item /\
    Ingredient.protein item = Num.of_Z 14 /\
    Ingredient.sodium_mg item = Num.of_Z 900.
Proof.
  destruct (normalizeAnalysisResult sample_reply false) as [ws [n | e]] eqn:E;
    [| vm_compute in E; discriminate E].
  destruct (alias_value_kept sample_reply false ws n _ 0 _ E eq_refl eq_refl)
    as (item & Hitem & Hall).
  exists ws, n, item. split; [reflexivity |]. split; [exact Hitem |]. split.
  - refine (proj2 (table_entry Hall ("protein", "protein_g", Ingredient.protein)
                     _ (num 14) (Num.of_Z 14) _ _ _ _) _);
      [in_table | discriminate | right; split; reflexivity
      | reflexivity | reflexivity | reflexivity].
  - refine (proj2 (table_entry Hall ("sodium_mg", "sodium", Ingredient.sodium_mg)
                     _ (num 900) (Num.of_Z 900) _ _ _ _) _);
      [in_table | discriminate | right; split; reflexivity
      | reflexivity | reflexivity | reflexivity].
Defined.

(** ** The check of the totals *)

(** The record that [normalizeAnalysisResult] returns, or the exception it
    raises, is that of the object literal: the check adds nothing to it. *)
Lemma normalizeAnalysisResult_outcome (result : value) (isHebrew : bool) :
  outcome_of (normalizeAnalysisResult result isHebrew)
  = normalized_record result isHebrew.
Proof.
  unfold normalizeAnalysisResult, lift. cbn [bind comp_monad ret].
  destruct (normalized_record result isHebrew) as [n | e]; [| reflexivity].
  unfold validateTotals, emit. cbn [ret comp_monad].
  destruct (_ <? _)%nat; [destruct (totals_mismatch n) |]; reflexivity.
Qed.

(** C5 (as amended).  When the object literal is built for a reply, has at
    least one ingredient, and the sum of the ingredients' calories is further
    from the meal's calories than 0.2 times these, [normalizeAnalysisResult]
    writes one warning (the meal's calories, the sum, the difference) and
    returns the literal as it was built. *)
Theorem mismatch_warns_and_returns (result : value) (isHebrew : bool)
    (normalized : MealAnalysisResult.t) :
  normalized_record result isHebrew = Returned normalized ->
  MealAnalysisResult.ingredients normalized <> [] ->
  totals_mismatch normalized = true ->
  normalizeAnalysisResult result isHebrew =
    ([Warn (MealAnalysisResult.calories normalized)
           (total_calories (ingredientTotals (MealAnalysisResult.ingredients normalized)))
           (caloriesDiff normalized)],
     Returned normalized).
Proof.
  intros H Hne Hm.
  apply normalizeAnalysisResult_returned. split; [exact H |].
  unfold validateTotals. rewrite Hm.
  destruct (MealAnalysisResult.ingredients normalized) as [| i rest];
    [contradiction | reflexivity].
Qed.

Lemma mismatch_warns_and_returns_witness :
  exists normalized,
    normalized_record sample_reply false = Returned normalized /\
    normalizeAnalysisResult sample_reply false =
      ([Warn (Num.of_Z 500) (Num.of_Z 350) (Num.of_Z 150)], Returned normalized).
Proof.
  destruct (normalized_record sample_reply false) as [n | e] eqn:E;
    [| vm_compute in E; discriminate E].
  exists n. split; [reflexivity |].
  assert (En : MealAnalysisResult.ingredients n <> [] /\
               totals_mismatch n = true /\
               MealAnalysisResult.calories n = Num.of_Z 500 /\
               total_calories (ingredientTotals (MealAnalysisResult.ingredients n))
                 = Num.of_Z 350 /\
               caloriesDiff n = Num.of_Z 150).
  { vm_compute in E. injection E as <-.
    split; [discriminate | repeat split; vm_compute; reflexivity]. }
  destruct En as (Hne & Hm & Hc & Hs & Hd).
  rewrite (mismatch_warns_and_returns sample_reply false n E Hne Hm).
  rewrite Hc, Hs, Hd. reflexivity.
Defined.

(** C5 as stated fails on a reply without ingredients: the sum of no
    calories is 0, the meal's 500 calories are further from it than a fifth of
    500, and no warning is written. *)
Lemma no_ingredients_counterexample :
  exists normalized,
    normalizeAnalysisResult (VObj [("calories", num 500); ("ingredients", VArr [])]) false
      = ([], Returned normalized) /\
    MealAnalysisResult.calories normalized = Num.of_Z 500 /\
    total_calories (ingredientTotals (MealAnalysisResult.ingredients normalized))
      = Num.zero /\
    caloriesDiff normalized = Num.of_Z 500 /\
    Num.mul (MealAnalysisResult.calories normalized) (Num.decimal false 2 (-1))
      = Num.of_Z 100 /\
    totals_mismatch normalized = true.
Proof.
  eexists. split; [vm_compute; reflexivity |].
  repeat split; vm_compute; reflexivity.
Qed.

(** ** Replies on which normalization returns *)

(** Induction on a value, with the hypothesis for the elements of an array
    and for the properties of an object. *)
Section ValueInduction.
Variable P : value -> Prop.
Hypothesis P_undefined : P VUndefined.
Hypothesis P_null : P VNull.
Hypothesis P_bool : forall b, P (VBool b).
Hypothesis P_num : forall n, P (VNum n).
Hypothesis P_str : forall s, P (VStr s).
Hypothesis P_arr : forall elems, Forall P elems -> P (VArr elems).
Hypothesis P_obj : forall props, Forall (fun p => P (snd p)) props -> P (VObj props).

Fixpoint value_induction (v : value) : P v :=
  match v with
  | VUndefined => P_undefined
  | VNull => P_null
  | VBool b => P_bool b
  | VNum n => P_num n
  | VStr s => P_str s
  | VArr elems =>
      P_arr elems
        ((fix all (l : list value) : Forall P l :=
            match l with
            | [] => Forall_nil P
            | x :: rest => Forall_cons x (value_induction x) (all rest)
            end) elems)
  | VObj props =>
      P_obj props
        ((fix all (l : list (string * value)) : Forall (fun p => P (snd p)) l :=
            match l with
            | [] => Forall_nil _
            | p :: rest =>
                Forall_cons (P := fun p => P (snd p)) p
                  (value_induction (snd p)) (all rest)
            end) props)
  end.
End ValueInduction.

Lemma plain_no_raise (v : value) : plain v = true -> to_string_raises v = false.
Proof.
  induction v as [| | b | n | s | elems IH | props _] using value_induction;
    try reflexivity; cbn [plain to_string_raises]; intros H.
  - induction IH as [| e rest He _ IHrest]; [reflexivity |].
    cbn [forallb] in H. apply andb_prop in H as [Hp Hrest].
    cbn [existsb]. rewrite (He Hp). exact (IHrest Hrest).
  - apply andb_prop in H as [H _].
    now destruct (has_own "toString" props).
Qed.

Lemma ToNumber_returns (v : value) :
  to_string_raises v = false -> exists n, ToNumber v = Returned n.
Proof.
  induction v as [| | b | n | s | elems IH | props _] using value_induction;
    cbn [ToNumber]; intros H; eauto.
  - destruct elems as [| x [| y rest]]; eauto.
    + cbn [to_string_raises existsb] in H. rewrite orb_false_r in H.
      pose proof (Forall_inv IH H) as Hx.
      destruct x as [| | b | n | s | l | props]; eauto.
    + cbn [to_string_raises] in H. rewrite H. eauto.
  - cbn [to_string_raises] in H. rewrite H. eauto.
Qed.

Lemma plain_lookup (k : string) (props : list (string * value)) :
  forallb (fun p => plain (snd p)) props = true -> plain (lookup k props) = true.
Proof.
  induction props as [| [k' v] rest IH]; [reflexivity |].
  cbn [forallb lookup snd]. intros H. apply andb_prop in H as [Hv Hrest].
  destruct (String.eqb k k'); auto.
Qed.

Lemma plain_prop (v : value) (k : string) :
  plain v = true -> plain (prop v k) = true.
Proof.
  destruct v; try reflexivity. cbn [plain prop]. intros H.
  apply andb_prop in H as [_ H]. apply plain_lookup, H.
Qed.

Lemma plain_or_else (a b : value) :
  plain a = true -> plain b = true -> plain (a ||| b) = true.
Proof. unfold or_else. now destruct (truthy a). Qed.

Lemma number_or_returns (v : value) (d : number) :
  plain v = true -> exists x, number_or v d = Returned x.
Proof.
  intros H. destruct (ToNumber_returns v (plain_no_raise v H)) as [n Hn].
  unfold number_or. rewrite Hn. cbn. eauto.
Qed.

Lemma number_or_undefined_returns (v : value) :
  plain v = true -> exists x, number_or_undefined v = Returned x.
Proof.
  intros H. destruct (ToNumber_returns v (plain_no_raise v H)) as [n Hn].
  unfold number_or_undefined. rewrite Hn. cbn. eauto.
Qed.

Create HintDb plain.
#[local] Hint Resolve plain_prop plain_or_else : plain.

(** One step of a sequence of binds returns, and the sequence goes on. *)
Ltac step_returns :=
  match goal with
  | |- context [number_or ?v ?d] =>
      let x := fresh "x" in
      destruct (number_or_returns v d) as [x ->];
      [ auto with plain | cbn [bind outcome_monad] ]
  | |- context [number_or_undefined ?v] =>
      let x := fresh "x" in
      destruct (number_or_undefined_returns v) as [x ->];
      [ auto with plain | cbn [bind outcome_monad] ]
  end.

Lemma normalizeIngredient_returns (isHebrew : bool) (ingredient : value) :
  nullish ingredient = false -> plain ingredient = true ->
  exists item, normalizeIngredient isHebrew ingredient = Returned item.
Proof.
  intros Hn Hp. unfold normalizeIngredient.
  assert (G : exists name, get ingredient "name" = Returned name)
    by (destruct ingredient; try discriminate Hn; cbn; eauto).
  destruct G as [name ->]. cbn [bind outcome_monad].
  repeat step_returns. cbn [ret outcome_monad]. eauto.
Qed.

Lemma map_outcome_returns {A B : Type} (f : A -> outcome B) (l : list A) :
  Forall (fun x => exists y, f x = Returned y) l ->
  exists l', map_outcome f l = Returned l'.
Proof.
  induction 1 as [| x rest [y Hy] _ [ys IH]]; cbn [map_outcome].
  - cbn. eauto.
  - rewrite Hy. cbn [bind outcome_monad]. rewrite IH. cbn. eauto.
Qed.

Lemma normalizeIngredients_returns (isHebrew : bool) (v : value) :
  plain v = true ->
  match v with
  | VArr elems => forallb (fun e => negb (nullish e)) elems
  | _ => true
  end = true ->
  exists items, normalizeIngredients isHebrew v = Returned items.
Proof.
  intros Hp Hn. destruct v; cbn [normalizeIngredients]; try (cbn; eauto; fail).
  apply map_outcome_returns. cbn [plain] in Hp.
  rewrite forallb_forall in Hp, Hn. apply Forall_forall. intros e He.
  apply normalizeIngredient_returns; [| auto].
  specialize (Hn e He). now destruct (nullish e).
Qed.

(** On a well-formed reply the object literal is built, and so
    [normalizeAnalysisResult] returns a record. *)
Theorem normalizeAnalysisResult_returns (result : value) (isHebrew : bool) :
  well_formed_reply result = true ->
  exists ws normalized,
    normalizeAnalysisResult result isHebrew = (ws, Returned normalized).
Proof.
  unfold well_formed_reply. intros H.
  apply andb_prop in H as [H Hi]. apply andb_prop in H as [Hn Hp].
  assert (R : exists n, normalized_record result isHebrew = Returned n).
  { unfold normalized_record.
    assert (G : exists name, get result "name" = Returned name)
      by (destruct result; try discriminate Hn; cbn; eauto).
    destruct G as [name ->]. cbn [bind outcome_monad].
    do 8 step_returns.
    destruct (normalizeIngredients_returns isHebrew (prop result "ingredients"))
      as [items ->]; [auto with plain | exact Hi |].
    cbn [bind outcome_monad].
    repeat step_returns. cbn [ret outcome_monad]. eauto. }
  destruct R as [n R].
  pose proof (normalizeAnalysisResult_outcome result isHebrew) as O.
  destruct (normalizeAnalysisResult result isHebrew) as [ws o].
  cbn [outcome_of snd] in O. exists ws, n. congruence.
Qed.

Lemma normalizeAnalysisResult_returns_sample :
  exists ws normalized,
    normalizeAnalysisResult sample_reply true = (ws, Returned normalized).
Proof. apply normalizeAnalysisResult_returns. reflexivity. Defined.

(** ** The operations *)

Lemma bind_lift {A B : Type} (o : outcome A) (k : A -> Comp B) :
  bind (lift o) k = match o with
                    | Returned a => k a
                    | Raised e => ([], Raised e)
                    end.
Proof.
  unfold lift. cbn [bind comp_monad]. destruct o as [a | e]; [| reflexivity].
  now destruct (k a).
Qed.

Lemma bind_send {B : Type} (client : OpenAI) (request : ChatRequest)
    (k : Completion.t -> Comp B) :
  bind (send client request) k =
  match create client request with
  | Returned response =>
      (Request request :: trace_of (k response), outcome_of (k response))
  | Raised e => ([Request request], Raised e)
  end.
Proof.
  unfold send. cbn [bind comp_monad].
  destruct (create client request) as [response | e]; [| reflexivity].
  now destruct (k response).
Qed.

Lemma require_client_unconfigured (cfg : Config) :
  openai cfg = None \/ text_truthy (OPENAI_API_KEY cfg) = false ->
  require_client cfg = Raised not_configured.
Proof.
  unfold require_client. intros [H | H]; rewrite H; [reflexivity |].
  now destruct (openai cfg).
Qed.

Lemma try_catch_throw {A : Type} (body : Comp A) (f : thrown -> thrown) :
  try_catch body (fun e => throw (f e)) =
  (trace_of body,
   match outcome_of body with
   | Returned a => Returned a
   | Raised e => Raised (f e)
   end).
Proof.
  destruct body as [t [a | e]]; cbn; [reflexivity |].
  now rewrite app_nil_r.
Qed.

(** [normalizeAnalysisResult] sends nothing: its trace holds warnings only. *)
Lemma normalizeAnalysisResult_sends_nothing (result : value) (isHebrew : bool) :
  requests_of (trace_of (normalizeAnalysisResult result isHebrew)) = [].
Proof.
  unfold normalizeAnalysisResult. rewrite bind_lift.
  destruct (normalized_record result isHebrew) as [n | e]; [| reflexivity].
  unfold validateTotals, emit. cbn [ret comp_monad].
  destruct (_ <? _)%nat; [destruct (totals_mismatch n) |]; reflexivity.
Qed.

Lemma append_empty (s : string) : s ++ EmptyString = s.
Proof. induction s as [| c s IH]; cbn; congruence. Qed.

Lemma append_assoc (a b c : string) : (a ++ b) ++ c = a ++ b ++ c.
Proof. induction a as [| x a IH]; cbn; congruence. Qed.

(** The first and the last line of each analysis prompt. *)
Lemma analysis_prompts_framed :
  (exists body,
      analysis_prompt_hebrew
      = "אתה מומחה תזונה מקצועי המנתח תמונות של ארוחות. נתח את התמונה ותחזיר JSON מדויק עם המידע הבא:"
        ++ body ++ "- השתמש בשמות עבריים למרכיבים") /\
  (exists body,
      analysis_prompt_english
      = "You are a professional nutrition expert analyzing meal images. Analyze the image and return accurate JSON with this information:"
        ++ body ++ "- Be precise with portion estimates").
Proof.
  split.
  - exists (substring 162 (length analysis_prompt_hebrew - 162 - 53)
              analysis_prompt_hebrew).
    vm_compute. reflexivity.
  - exists (substring 128 (length analysis_prompt_english - 128 - 35)
              analysis_prompt_english).
    vm_compute. reflexivity.
Qed.

(** [language === "hebrew"], with the default of the parameter. *)
Lemma is_hebrew_iff (language : option string) :
  is_hebrew language = true <-> language = Some "hebrew".
Proof.
  unfold is_hebrew, language_or_default. destruct language as [l |].
  - rewrite String.eqb_eq. split; congruence.
  - split; discriminate.
Qed.

Section ServiceProperties.

Variable extractCleanJSON : string -> outcome string.
Variable JSON_parse : string -> outcome value.
Variable JSON_stringify : value -> outcome string.
Variable NumberToString : number -> string.

Local Abbreviation analyzeMealImage :=
  (OpenAIService.analyzeMealImage extractCleanJSON JSON_parse NumberToString).
Local Abbreviation analyzeMealImage_try :=
  (OpenAIService.analyzeMealImage_try extractCleanJSON JSON_parse NumberToString).
Local Abbreviation analysis_prompt :=
  (OpenAIService.analysis_prompt NumberToString).
Local Abbreviation updateMealAnalysis :=
  (OpenAIService.updateMealAnalysis extractCleanJSON JSON_parse JSON_stringify).
Local Abbreviation updateMealAnalysis_try :=
  (OpenAIService.updateMealAnalysis_try extractCleanJSON JSON_parse JSON_stringify).
Local Abbreviation buildUpdatePrompt :=
  (OpenAIService.buildUpdatePrompt JSON_stringify).
Local Abbreviation generateText := OpenAIService.generateText.
Local Abbreviation generateText_try := OpenAIService.generateText_try.

(** C3.  With no credential configured (no client handle, or no key in
    the environment), each of the three operations raises the
    not-configured error and its trace is empty: no request was sent. *)
Theorem unconfigured_operations_fail (cfg : Config) :
  openai cfg = None \/ text_truthy (OPENAI_API_KEY cfg) = false ->
  (forall imageBase64 language updateText editedIngredients,
      analyzeMealImage cfg imageBase64 language updateText editedIngredients
      = ([], Raised not_configured)) /\
  (forall originalAnalysis updateText language,
      updateMealAnalysis cfg originalAnalysis updateText language
      = ([], Raised not_configured)) /\
  (forall prompt maxTokens,
      generateText cfg prompt maxTokens = ([], Raised not_configured)).
Proof.
  intros H. apply require_client_unconfigured in H.
  repeat split; intros;
    unfold OpenAIService.analyzeMealImage, OpenAIService.updateMealAnalysis,
      OpenAIService.generateText;
    rewrite bind_lift, H; reflexivity.
Qed.

(** *** Errors of the provider *)

(** C4 (as amended).  With a credential configured and a provider that
    raises [error] on the request, each operation has sent that one request
    and no other; [analyzeMealImage] raises one of four fixed messages, picked
    by looking for "quota", then "rate limit", then "invalid_request_error" in
    the message of [error]; [updateMealAnalysis] raises its own fixed message
    whatever [error] is; and [generateText] raises [error] itself. *)
Theorem provider_errors_handled (cfg : Config) (client : OpenAI) (error : thrown) :
  require_client cfg = Returned client ->
  (forall request, create client request = Raised error) ->
  (forall imageBase64 language updateText editedIngredients prompt,
      analysis_prompt language updateText editedIngredients = Returned prompt ->
      analyzeMealImage cfg imageBase64 language updateText editedIngredients
      = ([Request (analysis_request prompt imageBase64 updateText editedIngredients)],
         Raised (translate_error error))) /\
  In (translate_error error)
     [quota_exceeded; rate_limited; invalid_image; analysis_failed] /\
  (forall message, error = JsError message ->
      translate_error error =
        if includes message "quota" then quota_exceeded
        else if includes message "rate limit" then rate_limited
        else if includes message "invalid_request_error" then invalid_image
        else analysis_failed) /\
  (forall originalAnalysis updateText language prompt,
      buildUpdatePrompt originalAnalysis updateText (is_hebrew language)
        = Returned prompt ->
      updateMealAnalysis cfg originalAnalysis updateText language
      = ([Request (update_request prompt updateText)], Raised update_failed)) /\
  (forall prompt maxTokens,
      generateText cfg prompt maxTokens
      = ([Request (text_request prompt (maxTokens_or_default maxTokens))],
         Raised error)).
Proof.
  intros Hc He. split; [| split; [| split; [| split]]].
  - intros img language updateText edited prompt Hp.
    unfold OpenAIService.analyzeMealImage, OpenAIService.analyzeMealImage_try.
    rewrite bind_lift, Hc, try_catch_throw, bind_lift, Hp, bind_send, He.
    reflexivity.
  - unfold translate_error. destruct error as [message | v]; cbn [In].
    + destruct (includes message "quota"); [auto |].
      destruct (includes message "rate limit"); [auto |].
      destruct (includes message "invalid_request_error"); auto.
    + auto.
  - intros message ->. reflexivity.
  - intros original updateText language prompt Hp.
    unfold OpenAIService.updateMealAnalysis, OpenAIService.updateMealAnalysis_try.
    rewrite bind_lift, Hc, (try_catch_throw _ (fun _ => update_failed)),
      bind_lift, Hp, bind_send, He.
    reflexivity.
  - intros prompt maxTokens.
    unfold OpenAIService.generateText, OpenAIService.generateText_try.
    rewrite bind_lift, Hc, (try_catch_throw _ (fun e => e)), bind_send, He.
    reflexivity.
Qed.

(** *** A response without content *)

(** C9.  With a credential configured and a provider whose response has no
    text content, [generateText] returns the empty string, while the [try]
    blocks of [analyzeMealImage] and [updateMealAnalysis] raise the
    empty-response error, which makes both operations fail. *)
Theorem empty_response (cfg : Config) (client : OpenAI) (response : Completion.t) :
  require_client cfg = Returned client ->
  (forall request, create client request = Returned response) ->
  text_truthy (first_content response) = false ->
  (forall prompt maxTokens,
      generateText cfg prompt maxTokens
      = ([Request (text_request prompt (maxTokens_or_default maxTokens))],
         Returned EmptyString)) /\
  (forall imageBase64 language updateText editedIngredients prompt,
      analysis_prompt language updateText editedIngredients = Returned prompt ->
      outcome_of (analyzeMealImage_try client imageBase64 language updateText
                    editedIngredients) = Raised no_content /\
      outcome_of (analyzeMealImage cfg imageBase64 language updateText
                    editedIngredients) = Raised analysis_failed) /\
  (forall originalAnalysis updateText language prompt,
      buildUpdatePrompt originalAnalysis updateText (is_hebrew language)
        = Returned prompt ->
      outcome_of (updateMealAnalysis_try client originalAnalysis updateText
                    language) = Raised no_content /\
      outcome_of (updateMealAnalysis cfg originalAnalysis updateText language)
        = Raised update_failed).
Proof.
  intros Hc Hr Hn.
  assert (Hcontent : require_content response = Raised no_content).
  { unfold require_content.
    destruct (first_content response) as [[| c s] |]; try reflexivity.
    discriminate Hn. }
  split; [| split].
  - intros prompt maxTokens.
    unfold OpenAIService.generateText, OpenAIService.generateText_try.
    rewrite bind_lift, Hc, (try_catch_throw _ (fun e => e)), bind_send, Hr.
    cbn. destruct (first_content response) as [[| c s] |]; try reflexivity.
    discriminate Hn.
  - intros img language updateText edited prompt Hp.
    assert (T : outcome_of (analyzeMealImage_try client img language updateText
                              edited) = Raised no_content).
    { unfold OpenAIService.analyzeMealImage_try.
      rewrite bind_lift, Hp, bind_send, Hr, bind_lift, Hcontent. reflexivity. }
    split; [exact T |].
    unfold OpenAIService.analyzeMealImage.
    rewrite bind_lift, Hc, try_catch_throw. cbn [outcome_of snd].
    fold (outcome_of (analyzeMealImage_try client img language updateText edited)).
    rewrite T. reflexivity.
  - intros original updateText language prompt Hp.
    assert (T : outcome_of (updateMealAnalysis_try client original updateText
                              language) = Raised no_content).
    { unfold OpenAIService.updateMealAnalysis_try.
      rewrite bind_lift, Hp, bind_send, Hr, bind_lift, Hcontent. reflexivity. }
    split; [exact T |].
    unfold OpenAIService.updateMealAnalysis.
    rewrite bind_lift, Hc, (try_catch_throw _ (fun _ => update_failed)).
    cbn [outcome_of snd].
    fold (outcome_of (updateMealAnalysis_try client original updateText language)).
    rewrite T. reflexivity.
Qed.

End ServiceProperties.

(** ** The operations on the sample environment *)

(** No credential: nothing is sent, whatever the arguments. *)
Lemma unconfigured_operations_fail_witness :
  OpenAIService.analyzeMealImage Sample.extractCleanJSON Sample.JSON_parse
    Sample.NumberToString Sample.unconfigured "aGVsbG8=" (Some "hebrew")
    (Some "more rice") None
  = ([], Raised not_configured) /\
  OpenAIService.updateMealAnalysis Sample.extractCleanJSON Sample.JSON_parse
    Sample.JSON_stringify Sample.unconfigured sample_reply "more rice" None
  = ([], Raised not_configured) /\
  OpenAIService.generateText Sample.unconfigured "hello" None
  = ([], Raised not_configured).
Proof.
  destruct (unconfigured_operations_fail Sample.extractCleanJSON
              Sample.JSON_parse Sample.JSON_stringify Sample.NumberToString
              Sample.unconfigured (or_introl eq_refl)) as (Ha & Hu & Hg).
  split; [apply Ha | split; [apply Hu | apply Hg]].
Defined.

Lemma provider_errors_handled_witness :
  OpenAIService.analyzeMealImage Sample.extractCleanJSON Sample.JSON_parse
    Sample.NumberToString (Sample.configured (Sample.failing out_of_quota))
    "aGVsbG8=" None None None
  = ([Request (analysis_request analysis_prompt_english "aGVsbG8=" None None)],
     Raised quota_exceeded).
Proof.
  destruct (provider_errors_handled Sample.extractCleanJSON Sample.JSON_parse
              Sample.JSON_stringify Sample.NumberToString
              (Sample.configured (Sample.failing out_of_quota))
              (Sample.failing out_of_quota) out_of_quota eq_refl
              (fun _ => eq_refl)) as (Ha & _).
  exact (Ha "aGVsbG8=" None None None analysis_prompt_english eq_refl).
Defined.

(** C4 as stated fails on the two other operations: on the same error of the
    provider, [generateText] raises the provider's error as it is and
    [updateMealAnalysis] raises its own message, and neither is one of the four
    messages of [analyzeMealImage]. *)
Lemma provider_error_counterexample :
  (outcome_of (OpenAIService.generateText
                 (Sample.configured (Sample.failing out_of_quota)) "hello" None)
   = Raised out_of_quota /\
   ~ In out_of_quota [quota_exceeded; rate_limited; invalid_image; analysis_failed]) /\
  (outcome_of (OpenAIService.updateMealAnalysis Sample.extractCleanJSON
                 Sample.JSON_parse Sample.JSON_stringify
                 (Sample.configured (Sample.failing out_of_quota))
                 sample_reply "more rice" None)
   = Raised update_failed /\
   ~ In update_failed [quota_exceeded; rate_limited; invalid_image; analysis_failed]).
Proof.
  split; (split; [vm_compute; reflexivity |]);
    intros [H | [H | [H | [H | []]]]]; discriminate H.
Qed.

Lemma empty_response_witness :
  OpenAIService.generateText (Sample.configured (Sample.answering None)) "hello" None
  = ([Request (text_request "hello" (Num.of_Z 1000))], Returned EmptyString) /\
  outcome_of (OpenAIService.analyzeMealImage Sample.extractCleanJSON
                Sample.JSON_parse Sample.NumberToString
                (Sample.configured (Sample.answering None))
                "aGVsbG8=" None None None)
  = Raised analysis_failed /\
  outcome_of (OpenAIService.updateMealAnalysis Sample.extractCleanJSON
                Sample.JSON_parse Sample.JSON_stringify
                (Sample.configured (Sample.answering None))
                sample_reply "more rice" None)
  = Raised update_failed.
Proof.
  destruct (empty_response Sample.extractCleanJSON Sample.JSON_parse
              Sample.JSON_stringify Sample.NumberToString
              (Sample.configured (Sample.answering None))
              (Sample.answering None) (Sample.completion None)
              eq_refl (fun _ => eq_refl) eq_refl) as (Hg & Ha & Hu).
  split; [apply Hg |]. split.
  - exact (proj2 (Ha "aGVsbG8=" None None None analysis_prompt_english eq_refl)).
  - destruct (OpenAIService.buildUpdatePrompt Sample.JSON_stringify sample_reply
                "more rice" (is_hebrew None)) as [prompt | e] eqn:Hp;
      [| vm_compute in Hp; discriminate Hp].
    exact (proj2 (Hu sample_reply "more rice" None prompt Hp)).
Defined.

(** * Further properties of the normalization *)

(** ** What a returned record holds *)

Lemma get_prop (v : value) (k : string) (x : value) :
  get v k = Returned x -> x = prop v k.
Proof. destruct v; cbn; intros H; try discriminate H; now injection H as <-. Qed.

Lemma or_else_truthy (a b : value) : truthy a = true -> a ||| b = a.
Proof. unfold or_else. now intros ->. Qed.

Lemma truthy_or_else_r (a b : value) : truthy b = true -> truthy (a ||| b) = true.
Proof. unfold or_else. intros H. now destruct (truthy a) eqn:T. Qed.

Lemma unknown_meal_truthy (isHebrew : bool) :
  truthy (VStr (unknown_meal isHebrew)) = true.
Proof. now destruct isHebrew. Qed.

Lemma unknown_ingredient_truthy (isHebrew : bool) :
  truthy (VStr (unknown_ingredient isHebrew)) = true.
Proof. now destruct isHebrew. Qed.

(** Every number of a normalized ingredient, read off a run that returned. *)
Lemma normalizeIngredient_numbers (isHebrew : bool) (ingredient : value)
    (item : Ingredient.t) :
  normalizeIngredient isHebrew ingredient = Returned item ->
  Forall (fun '(read, field) =>
            number_or (read ingredient) Num.zero = Returned (field item))
         ingredient_number_fields.
Proof.
  unfold normalizeIngredient. intros H. returned_steps H.
  cbn [ret outcome_monad] in H. injection H as <-.
  unfold ingredient_number_fields. repeat constructor; assumption.
Qed.

Lemma normalizeIngredient_name (isHebrew : bool) (ingredient : value)
    (item : Ingredient.t) :
  normalizeIngredient isHebrew ingredient = Returned item ->
  exists name, get ingredient "name" = Returned name /\
               Ingredient.name item = name ||| VStr (unknown_ingredient isHebrew).
Proof.
  unfold normalizeIngredient. intros H. returned_steps H.
  cbn [ret outcome_monad] in H. injection H as <-. eauto.
Qed.

Lemma normalized_record_texts (result : value) (isHebrew : bool)
    (normalized : MealAnalysisResult.t) :
  normalized_record result isHebrew = Returned normalized ->
  MealAnalysisResult.servingSize normalized
  = prop result "serving_size" ||| prop result "servingSize" ||| VStr "1 serving".
Proof.
  unfold normalized_record. intros H. returned_steps H.
  cbn [ret outcome_monad] in H. injection H as <-. reflexivity.
Qed.

(** The names in a normalized record: the reply's own when it is truthy, the
    placeholder of the language otherwise. *)
Lemma normalized_names (result : value) (isHebrew : bool) (ws : list event)
    (normalized : MealAnalysisResult.t) :
  normalizeAnalysisResult result isHebrew = (ws, Returned normalized) ->
  MealAnalysisResult.name normalized
  = (if truthy (prop result "name") then prop result "name"
     else VStr (unknown_meal isHebrew)) /\
  (forall elems, prop result "ingredients" = VArr elems ->
     Forall2 (fun element item =>
                Ingredient.name item
                = if truthy (prop element "name") then prop element "name"
                  else VStr (unknown_ingredient isHebrew))
             elems (MealAnalysisResult.ingredients normalized)).
Proof.
  intros H. pose proof (ingredients_shape _ _ _ _ H) as Hs.
  apply normalizeAnalysisResult_returned in H as [H _].
  apply normalized_record_inv in H as ((name & Hg & Hname) & _).
  apply get_prop in Hg. subst name. split; [exact Hname |].
  intros elems He. rewrite He in Hs. destruct Hs as [_ Hs].
  eapply Forall2_impl; [| exact Hs]. intros element item Hi.
  apply normalizeIngredient_name in Hi as (name' & Hg & ->).
  apply get_prop in Hg. now subst name'.
Qed.

(** X1.  Whenever [normalizeAnalysisResult] returns, the name of the meal,
    its serving size and the name of every ingredient are truthy.  The name
    of the meal is the reply's name when that is truthy, and otherwise (the
    reply leaves it out, or gives an empty string, 0 or null) the placeholder
    of the language; the serving size is the reply's serving_size when that is
    truthy, else its servingSize when that is truthy, else "1 serving"; the
    name of each ingredient is that of the reply's ingredient when it is
    truthy, and otherwise the placeholder of the language. *)
Theorem names_are_never_empty (result : value) (isHebrew : bool)
    (ws : list event) (normalized : MealAnalysisResult.t) :
  normalizeAnalysisResult result isHebrew = (ws, Returned normalized) ->
  truthy (MealAnalysisResult.name normalized) = true /\
  truthy (MealAnalysisResult.servingSize normalized) = true /\
  Forall (fun item => truthy (Ingredient.name item) = true)
         (MealAnalysisResult.ingredients normalized) /\
  MealAnalysisResult.name normalized
  = (if truthy (prop result "name") then prop result "name"
     else VStr (if isHebrew then "ארוחה לא מזוהה" else "Unknown meal")) /\
  MealAnalysisResult.servingSize normalized
  = (if truthy (prop result "serving_size") then prop result "serving_size"
     else if truthy (prop result "servingSize") then prop result "servingSize"
     else VStr "1 serving") /\
  (forall elems, prop result "ingredients" = VArr elems ->
     Forall2 (fun element item =>
                Ingredient.name item
                = if truthy (prop element "name") then prop element "name"
                  else VStr (if isHebrew then "מרכיב לא מזוהה"
                             else "Unknown ingredient"))
             elems (MealAnalysisResult.ingredients normalized)).
Proof.
  intros H. pose proof (ingredients_shape _ _ _ _ H) as Hs.
  apply normalizeAnalysisResult_returned in H as [H _].
  pose proof (normalized_record_texts _ _ _ H) as Ht.
  apply normalized_record_inv in H as ((name & Hg & Hname) & _).
  apply get_prop in Hg. subst name.
  split; [rewrite Hname; apply truthy_or_else_r, unknown_meal_truthy |].
  split; [rewrite Ht; now apply truthy_or_else_r |].
  split; [| split; [| split]].
  - destruct (prop result "ingredients"); try (rewrite Hs; constructor).
    destruct Hs as [_ Hs].
    induction Hs as [| e item es items He _ IH]; constructor; [| exact IH].
    apply normalizeIngredient_name in He as (name' & _ & ->).
    apply truthy_or_else_r, unknown_ingredient_truthy.
  - rewrite Hname. unfold or_else, unknown_meal. reflexivity.
  - rewrite Ht. unfold or_else.
    destruct (truthy (prop result "serving_size")) eqn:T1; cbv iota;
      [now rewrite T1 |].
    now destruct (truthy (prop result "servingSize")).
  - intros elems He. rewrite He in Hs. destruct Hs as [_ Hs].
    eapply Forall2_impl; [| exact Hs]. intros element item Hi.
    apply normalizeIngredient_name in Hi as (name' & Hg & ->).
    apply get_prop in Hg. subst name'.
    unfold or_else, unknown_ingredient. reflexivity.
Qed.

(** A Hebrew reply whose meal has an empty name and no serving size, with
    one ingredient named 0 and one named: only the given name is kept. *)
Lemma names_are_never_empty_witness :
  exists ws normalized first second,
    normalizeAnalysisResult
      (VObj [("name", VStr EmptyString);
             ("ingredients",
               VArr [VObj [("name", num 0)]; VObj [("name", VStr "Feta")]])])
      true
    = (ws, Returned normalized) /\
    truthy (MealAnalysisResult.name normalized) = true /\
    MealAnalysisResult.name normalized = VStr "ארוחה לא מזוהה" /\
    MealAnalysisResult.servingSize normalized = VStr "1 serving" /\
    MealAnalysisResult.ingredients normalized = [first; second] /\
    Ingredient.name first = VStr "מרכיב לא מזוהה" /\
    Ingredient.name second = VStr "Feta".
Proof.
  destruct (normalizeAnalysisResult _ true) as [ws [n | e]] eqn:E;
    [| vm_compute in E; discriminate E].
  destruct (names_are_never_empty _ _ _ _ E) as (Ht & _ & _ & Hn & Hs & Hi).
  specialize (Hi _ eq_refl).
  inversion Hi as [| e1 i1 r1 l1 Hfirst Hrest]; subst.
  inversion Hrest as [| e2 i2 r2 l2 Hsecond Hnil]; subst.
  inversion Hnil; subst.
  exists ws, n, i1, i2. split; [reflexivity |].
  split; [exact Ht |]. split; [exact Hn |]. split; [exact Hs |].
  split; [congruence |]. split; [exact Hfirst | exact Hsecond].
Defined.

(** X2.  Whenever [normalizeAnalysisResult] returns, no number of any
    ingredient record is NaN, and each is 0 when what the reply's ingredient
    gives for it (under either of its names) is missing or coerces to NaN. *)
Theorem ingredient_numbers_defaulted (result : value) (isHebrew : bool)
    (ws : list event) (normalized : MealAnalysisResult.t)
    (elems : list value) :
  normalizeAnalysisResult result isHebrew = (ws, Returned normalized) ->
  prop result "ingredients" = VArr elems ->
  Forall2 (fun element item =>
             Forall (fun '(read, field) =>
                       Num.is_nan (field item) = false /\
                       (ToNumber (read element) = Returned Num.nan ->
                        field item = Num.zero))
                    ingredient_number_fields)
          elems (MealAnalysisResult.ingredients normalized).
Proof.
  intros H He. apply ingredients_shape in H. rewrite He in H.
  destruct H as [_ H]. eapply Forall2_impl; [| exact H].
  intros element item Hi. apply normalizeIngredient_numbers in Hi.
  eapply Forall_impl; [| exact Hi]. intros [read field] Hf. split.
  - eapply number_or_not_nan; [| exact Hf]. reflexivity.
  - intros Hn. eapply number_or_nan; eassumption.
Qed.

Lemma ingredient_numbers_defaulted_witness :
  exists ws normalized first second,
    normalizeAnalysisResult sample_reply false = (ws, Returned normalized) /\
    MealAnalysisResult.ingredients normalized = [first; second] /\
    Ingredient.caffeine_mg first = Num.zero /\
    Ingredient.carbs second = Num.zero.
Proof.
  destruct (normalizeAnalysisResult sample_reply false) as [ws [n | e]] eqn:E;
    [| vm_compute in E; discriminate E].
  pose proof (ingredient_numbers_defaulted sample_reply false ws n _ E eq_refl) as H.
  inversion H as [| e1 i1 r1 l1 H1 Hr]; subst.
  inversion Hr as [| e2 i2 r2 l2 H2 Hn]; subst.
  inversion Hn; subst.
  exists ws, n, i1, i2. split; [reflexivity |]. split; [congruence |]. split.
  - apply (table_entry H1 (fun i => prop i "caffeine_mg", Ingredient.caffeine_mg));
      [in_table | reflexivity].
  - apply (table_entry H2 (fun i => prop i "carbs" ||| prop i "carbs_g",
                           Ingredient.carbs)); [in_table | reflexivity].
Defined.

(** X3.  Whenever [normalizeAnalysisResult] returns, take an ingredient of
    the reply that gives a nutrient as a number under both of its names: the
    first name wins when its number is neither 0 nor NaN; when it is 0, the
    second name is used instead (and 0 is kept only if that one is 0 too). *)
Theorem first_alias_wins_unless_zero (result : value) (isHebrew : bool)
    (ws : list event) (normalized : MealAnalysisResult.t)
    (elems : list value) :
  normalizeAnalysisResult result isHebrew = (ws, Returned normalized) ->
  prop result "ingredients" = VArr elems ->
  Forall2 (fun element item =>
             Forall (fun '(first, second, field) =>
                       forall x y,
                         prop element first = VNum x ->
                         prop element second = VNum y ->
                         field item =
                           if Num.truthy x then x
                           else if Num.truthy y then y else Num.zero)
                    ingredient_aliases)
          elems (MealAnalysisResult.ingredients normalized).
Proof.
  intros H He. apply ingredients_shape in H. rewrite He in H.
  destruct H as [_ H]. eapply Forall2_impl; [| exact H].
  intros element item Hi. apply normalizeIngredient_inv in Hi.
  eapply Forall_impl; [| exact Hi]. intros [[first second] field] Hf x y Hx Hy.
  rewrite Hx, Hy in Hf. unfold or_else in Hf. cbn [truthy] in Hf.
  destruct (Num.truthy x) eqn:Tx;
    apply number_or_inv in Hf as (n & Hn & ->);
    injection Hn as <-.
  - now rewrite Tx.
  - reflexivity.
Qed.

Lemma first_alias_wins_unless_zero_witness :
  exists ws normalized item,
    normalizeAnalysisResult
      (VObj [("ingredients",
              VArr [VObj [("protein", num 0); ("protein_g", num 5);
                          ("carbs", num 7); ("carbs_g", num 9)]])])
      false
    = (ws, Returned normalized) /\
    MealAnalysisResult.ingredients normalized = [item] /\
    Ingredient.protein item = Num.of_Z 5 /\
    Ingredient.carbs item = Num.of_Z 7.
Proof.
  destruct (normalizeAnalysisResult _ false) as [ws [n | e]] eqn:E;
    [| vm_compute in E; discriminate E].
  pose proof (first_alias_wins_unless_zero _ false ws n _ E eq_refl) as H.
  inversion H as [| e1 i1 r1 l1 H1 Hn]; subst. inversion Hn; subst.
  exists ws, n, i1. split; [reflexivity |]. split; [congruence |]. split.
  - apply (table_entry H1 ("protein", "protein_g", Ingredient.protein)
             ltac:(in_table) (Num.of_Z 0) (Num.of_Z 5)); reflexivity.
  - apply (table_entry H1 ("carbs", "carbs_g", Ingredient.carbs)
             ltac:(in_table) (Num.of_Z 7) (Num.of_Z 9)); reflexivity.
Defined.

(** X4.  Whenever [normalizeAnalysisResult] returns, an extended field that
    is present holds the number the reply's field coerces to, and that number
    is neither 0 nor NaN. *)
Theorem extended_field_present_is_nonzero (result : value) (isHebrew : bool)
    (ws : list event) (normalized : MealAnalysisResult.t) :
  normalizeAnalysisResult result isHebrew = (ws, Returned normalized) ->
  Forall (fun '(key, field) =>
            forall x, field normalized = Some x ->
                      ToNumber (prop result key) = Returned x /\
                      Num.is_zero x = false /\ Num.is_nan x = false)
         extended_fields.
Proof.
  intros H. apply normalizeAnalysisResult_returned in H as [H _].
  apply normalized_record_inv in H as (_ & _ & _ & _ & He).
  eapply Forall_impl; [| exact He]. intros [key field] Hf x Hx.
  apply number_or_undefined_inv in Hf as (n & Hn & Hv).
  rewrite Hx in Hv. destruct (Num.truthy n) eqn:T; [| discriminate Hv].
  injection Hv as ->. split; [exact Hn |].
  unfold Num.truthy in T. destruct (Num.is_nan n), (Num.is_zero n);
    try discriminate T. auto.
Qed.

Lemma extended_field_present_is_nonzero_witness :
  exists ws normalized,
    normalizeAnalysisResult sample_reply false = (ws, Returned normalized) /\
    MealAnalysisResult.cholesterol_mg normalized = Some (Num.of_Z 30) /\
    ToNumber (prop sample_reply "cholesterol_mg") = Returned (Num.of_Z 30).
Proof.
  destruct (normalizeAnalysisResult sample_reply false) as [ws [n | e]] eqn:E;
    [| vm_compute in E; discriminate E].
  exists ws, n. split; [reflexivity |].
  assert (Hc : MealAnalysisResult.cholesterol_mg n = Some (Num.of_Z 30)).
  { vm_compute in E. injection E as _ <-. reflexivity. }
  split; [exact Hc |].
  pose proof (extended_field_present_is_nonzero sample_reply false ws n E) as H.
  exact (proj1 (table_entry H ("cholesterol_mg", MealAnalysisResult.cholesterol_mg)
                  ltac:(in_table) _ Hc)).
Defined.

(** X5.  Whenever [normalizeAnalysisResult] returns, the confidence is
    neither 0 nor NaN: a reply that reports a confidence of 0 gets 75, as one
    that reports none. *)
Theorem confidence_is_never_zero (result : value) (isHebrew : bool)
    (ws : list event) (normalized : MealAnalysisResult.t) :
  normalizeAnalysisResult result isHebrew = (ws, Returned normalized) ->
  Num.truthy (MealAnalysisResult.confidence normalized) = true /\
  (forall x, prop result "confidence" = VNum x -> Num.is_zero x = true ->
             MealAnalysisResult.confidence normalized = Num.of_Z 75).
Proof.
  intros H. apply normalizeAnalysisResult_returned in H as [H _].
  apply normalized_record_inv in H as (_ & _ & Hc & _).
  apply number_or_inv in Hc as (n & Hn & ->). split.
  - now destruct (Num.truthy n) eqn:T.
  - intros x Hx Hz. rewrite Hx in Hn. injection Hn as <-.
    unfold Num.truthy. rewrite Hz, orb_true_r. reflexivity.
Qed.

Lemma confidence_is_never_zero_witness :
  exists ws normalized,
    normalizeAnalysisResult (VObj [("confidence", num 0)]) false
    = (ws, Returned normalized) /\
    MealAnalysisResult.confidence normalized = Num.of_Z 75.
Proof.
  destruct (normalizeAnalysisResult _ false) as [ws [n | e]] eqn:E;
    [| vm_compute in E; discriminate E].
  exists ws, n. split; [reflexivity |].
  exact (proj2 (confidence_is_never_zero _ false ws n E) (Num.of_Z 0)
           eq_refl eq_refl).
Defined.

(** ** The language and the reply *)

Lemma map_outcome_ext {A B : Type} (f g : A -> outcome B) (l : list A) :
  Forall (fun x => f x = g x) l -> map_outcome f l = map_outcome g l.
Proof.
  induction 1 as [| x rest Hx _ IH]; [reflexivity |].
  cbn [map_outcome]. rewrite Hx, IH. reflexivity.
Qed.

(** Two sequences of binds that take the same steps: each step raises in
    both, or returns the same value to both. *)
Ltac same_steps :=
  repeat
    match goal with
    | |- match ?m with Returned _ => _ | Raised _ => _ end = _ =>
        destruct m; [| reflexivity]
    end.

(** On an ingredient that has a name, the language changes nothing. *)
Lemma normalizeIngredient_named (ingredient : value) :
  truthy (prop ingredient "name") = true ->
  normalizeIngredient true ingredient = normalizeIngredient false ingredient.
Proof.
  intros Hn. unfold normalizeIngredient. cbn [bind outcome_monad].
  destruct (get ingredient "name") as [name | e] eqn:G; [| reflexivity].
  apply get_prop in G. subst name.
  same_steps. cbn [ret outcome_monad].
  now rewrite (or_else_truthy _ (VStr (unknown_ingredient true)) Hn),
    (or_else_truthy _ (VStr (unknown_ingredient false)) Hn).
Qed.

(** X6.  The language only chooses the placeholders: on a reply that names
    its meal and every one of its ingredients, [normalizeAnalysisResult] gives
    the same warnings and the same record (or raises the same exception) in
    Hebrew and in English. *)
Theorem language_only_fills_names (result : value) :
  truthy (prop result "name") = true ->
  (forall elems, prop result "ingredients" = VArr elems ->
                 Forall (fun element => truthy (prop element "name") = true) elems) ->
  normalizeAnalysisResult result true = normalizeAnalysisResult result false.
Proof.
  intros Hn Hi.
  assert (R : normalized_record result true = normalized_record result false).
  { unfold normalized_record. cbn [bind outcome_monad].
    destruct (get result "name") as [name | e] eqn:G; [| reflexivity].
    apply get_prop in G. subst name.
    assert (I : normalizeIngredients true (prop result "ingredients")
                = normalizeIngredients false (prop result "ingredients")).
    { unfold normalizeIngredients.
      destruct (prop result "ingredients") as [| | | | | elems |] eqn:E;
        [reflexivity | reflexivity | reflexivity | reflexivity | reflexivity
        | | reflexivity].
      apply map_outcome_ext. eapply Forall_impl; [| exact (Hi elems eq_refl)].
      intros element. apply normalizeIngredient_named. }
    rewrite I.
    same_steps. cbn [ret outcome_monad].
    now rewrite (or_else_truthy _ (VStr (unknown_meal true)) Hn),
      (or_else_truthy _ (VStr (unknown_meal false)) Hn). }
  unfold normalizeAnalysisResult. now rewrite R.
Qed.

Lemma language_only_fills_names_witness :
  normalizeAnalysisResult
    (VObj [("name", VStr "Shakshuka"); ("calories", num 300);
           ("ingredients", VArr [VObj [("name", VStr "Egg"); ("calories", num 150)]])])
    true
  = normalizeAnalysisResult
      (VObj [("name", VStr "Shakshuka"); ("calories", num 300);
             ("ingredients", VArr [VObj [("name", VStr "Egg"); ("calories", num 150)]])])
      false.
Proof.
  apply language_only_fills_names; [reflexivity |].
  intros elems E. injection E as <-. repeat constructor.
Defined.

(** ** When the warning is written *)

(** The warnings of a run that returned, spelled out. *)
Lemma warnings_of_returned (result : value) (isHebrew : bool) (ws : list event)
    (normalized : MealAnalysisResult.t) :
  normalizeAnalysisResult result isHebrew = (ws, Returned normalized) ->
  ws = match MealAnalysisResult.ingredients normalized with
       | [] => []
       | _ :: _ =>
           if totals_mismatch normalized
           then [Warn (MealAnalysisResult.calories normalized)
                      (total_calories
                         (ingredientTotals (MealAnalysisResult.ingredients normalized)))
                      (caloriesDiff normalized)]
           else []
       end.
Proof.
  intros H. apply normalizeAnalysisResult_returned in H as [_ ->].
  unfold validateTotals.
  destruct (MealAnalysisResult.ingredients normalized); [reflexivity |].
  cbn [List.length Nat.ltb Nat.leb].
  now destruct (totals_mismatch normalized).
Qed.

Lemma sub_self (x : number) :
  Num.is_nan (Num.sub x x) = true \/ Num.sub x x = Num.zero.
Proof.
  destruct x as [s | s | | s m e]; cbn.
  - right. now destruct s.
  - left. now destruct s.
  - now left.
  - right. unfold Num.sub, SFsub. now rewrite Z.sub_diag.
Qed.

(** A product with a factor that is not negative, rounded, is not below 0. *)
Lemma round_not_below_zero (m : Z) (e : Z) (l : location) :
  SFltb (binary_round_aux Num.prec Num.emax false m e l) Num.zero = false.
Proof.
  unfold binary_round_aux.
  destruct (shr_fexp _ _ _ _ _) as [mrs e'].
  destruct (shr_fexp _ _ _ _ _) as [mrs' e''].
  destruct (shr_m mrs'); [reflexivity | | reflexivity].
  now destruct (_ <=? _)%Z.
Qed.

Lemma fifth_not_below_zero (x : number) :
  is_negative x = false ->
  is_negative (Num.mul x (Num.decimal false 2 (-1))) = false.
Proof.
  change (Num.decimal false 2 (-1))
    with (S754_finite false 7205759403792794 (-55)).
  unfold is_negative, Num.gtb.
  destruct x as [s | s | | s m e]; cbn [Num.mul SFmul]; intros H.
  - now destruct s.
  - now destruct s.
  - reflexivity.
  - destruct s; [discriminate H |]. apply round_not_below_zero.
Qed.

(** X7.  Whenever [normalizeAnalysisResult] returns a record whose
    ingredients' calories add up to exactly the meal's calories, and these are
    not negative, it writes no warning. *)
Theorem consistent_totals_do_not_warn (result : value) (isHebrew : bool)
    (ws : list event) (normalized : MealAnalysisResult.t) :
  normalizeAnalysisResult result isHebrew = (ws, Returned normalized) ->
  total_calories (ingredientTotals (MealAnalysisResult.ingredients normalized))
    = MealAnalysisResult.calories normalized ->
  is_negative (MealAnalysisResult.calories normalized) = false ->
  ws = [].
Proof.
  intros H Hs Hc. rewrite (warnings_of_returned _ _ _ _ H).
  destruct (MealAnalysisResult.ingredients normalized) eqn:E; [reflexivity |].
  assert (M : totals_mismatch normalized = false); [| now rewrite M].
  unfold totals_mismatch, caloriesDiff. rewrite E, Hs.
  apply fifth_not_below_zero in Hc. revert Hc.
  unfold is_negative, Num.gtb.
  destruct (sub_self (MealAnalysisResult.calories normalized)) as [N | ->].
  - destruct (Num.sub _ _); try discriminate N. intros _.
    now destruct (Num.mul _ _).
  - auto.
Qed.

Lemma consistent_totals_do_not_warn_witness :
  exists normalized,
    normalizeAnalysisResult
      (VObj [("calories", num 350);
             ("ingredients", VArr [VObj [("calories", num 260)];
                                   VObj [("calories", num 90)]])])
      false
    = ([], Returned normalized).
Proof.
  destruct (normalizeAnalysisResult _ false) as [ws [n | e]] eqn:E;
    [| vm_compute in E; discriminate E].
  exists n.
  assert (P : total_calories (ingredientTotals (MealAnalysisResult.ingredients n))
              = MealAnalysisResult.calories n /\
              is_negative (MealAnalysisResult.calories n) = false).
  { vm_compute in E. injection E as _ <-. split; vm_compute; reflexivity. }
  now rewrite (consistent_totals_do_not_warn _ _ _ _ E (proj1 P) (proj2 P)).
Defined.

(** X8.  When the record built for a reply has ingredients and its meal
    calories are 0 (the reply gave none, or gave 0), the warning is written
    exactly when the ingredients' calories add up to something other than 0. *)
Theorem no_meal_calories_warns (result : value) (isHebrew : bool)
    (ws : list event) (normalized : MealAnalysisResult.t) :
  normalizeAnalysisResult result isHebrew = (ws, Returned normalized) ->
  MealAnalysisResult.ingredients normalized <> [] ->
  Num.is_zero (MealAnalysisResult.calories normalized) = true ->
  ws = if Num.truthy (total_calories
                        (ingredientTotals (MealAnalysisResult.ingredients normalized)))
       then [Warn (MealAnalysisResult.calories normalized)
                  (total_calories
                     (ingredientTotals (MealAnalysisResult.ingredients normalized)))
                  (caloriesDiff normalized)]
       else [].
Proof.
  intros H Hne Hz. rewrite (warnings_of_returned _ _ _ _ H).
  destruct (MealAnalysisResult.ingredients normalized) eqn:E; [contradiction |].
  assert (M : totals_mismatch normalized
              = Num.truthy (total_calories (ingredientTotals
                                              (MealAnalysisResult.ingredients normalized)))).
  { unfold totals_mismatch, caloriesDiff.
    change (Num.decimal false 2 (-1))
      with (S754_finite false 7205759403792794 (-55)).
    destruct (MealAnalysisResult.calories normalized) as [c | | |];
      try discriminate Hz.
    destruct (total_calories _) as [s | s | | s m e]; destruct c;
      try destruct s; reflexivity. }
  rewrite E in M. now rewrite M.
Qed.

Lemma no_meal_calories_warns_witness :
  exists normalized,
    normalizeAnalysisResult
      (VObj [("ingredients", VArr [VObj [("calories", num 260)]])]) false
    = ([Warn Num.zero (Num.of_Z 260) (Num.of_Z 260)], Returned normalized).
Proof.
  destruct (normalizeAnalysisResult _ false) as [ws [n | e]] eqn:E;
    [| vm_compute in E; discriminate E].
  exists n.
  assert (P : MealAnalysisResult.ingredients n <> [] /\
              Num.is_zero (MealAnalysisResult.calories n) = true /\
              MealAnalysisResult.calories n = Num.zero /\
              total_calories (ingredientTotals (MealAnalysisResult.ingredients n))
                = Num.of_Z 260 /\
              caloriesDiff n = Num.of_Z 260).
  { vm_compute in E. injection E as _ <-.
    split; [discriminate |]. split; [reflexivity |].
    split; [reflexivity |]. split; vm_compute; reflexivity. }
  destruct P as (Hne & Hz & Hc & Hs & Hd).
  rewrite (no_meal_calories_warns _ _ _ _ E Hne Hz), Hs, Hc, Hd. reflexivity.
Defined.

(** ** Replies that are no object, and replies that cannot be normalized *)

(** X9.  A reply that is valid JSON but no object (a number, a string, a
    boolean or an array) is accepted: every property read from it is
    [undefined], so it is normalized exactly as the empty object is, to the
    record of all defaults. *)
Theorem non_object_reply_is_empty (result : value) (isHebrew : bool) :
  nullish result = false ->
  (forall props, result <> VObj props) ->
  normalizeAnalysisResult result isHebrew
  = normalizeAnalysisResult (VObj []) isHebrew.
Proof.
  intros Hn Ho.
  destruct result as [| | b | n | s | elems | props];
    try discriminate Hn; try reflexivity.
  now destruct (Ho props).
Qed.

Lemma non_object_reply_is_empty_witness :
  normalizeAnalysisResult (VArr [num 1; num 2]) true
  = normalizeAnalysisResult (VObj []) true /\
  normalizeAnalysisResult (VStr "I cannot analyze this image.") false
  = normalizeAnalysisResult (VObj []) false.
Proof.
  split; apply non_object_reply_is_empty;
    solve [reflexivity | intros props; discriminate].
Defined.

Lemma normalizeIngredient_nullish (isHebrew : bool) (ingredient : value) :
  nullish ingredient = true ->
  exists e, normalizeIngredient isHebrew ingredient = Raised e /\ In e type_errors.
Proof.
  destruct ingredient; try discriminate; intros _;
    (eexists; split; [reflexivity | cbn; auto]).
Qed.

(** Whatever [Number(v)] raises is the TypeError of the conversion. *)
Lemma ToNumber_raises (v : value) (e : thrown) :
  ToNumber v = Raised e -> e = cannot_convert.
Proof.
  induction v as [| | b | n | s | elems IH | props _] using value_induction;
    cbn [ToNumber]; try discriminate.
  - destruct elems as [| x [| y rest]]; try discriminate.
    + pose proof (Forall_inv IH) as Hx.
      destruct x as [| | b | n | s | l | props]; try discriminate.
      * exact Hx.
      * destruct (has_own "toString" props); [congruence | discriminate].
    + destruct (existsb _ _); [congruence | discriminate].
  - destruct (has_own "toString" props); [congruence | discriminate].
Qed.

Lemma number_or_raises (v : value) (d : number) (e : thrown) :
  number_or v d = Raised e -> e = cannot_convert.
Proof.
  unfold number_or. cbn [bind outcome_monad].
  destruct (ToNumber v) eqn:E; [discriminate |].
  intros H. injection H as <-. eapply ToNumber_raises, E.
Qed.

Lemma number_or_undefined_raises (v : value) (e : thrown) :
  number_or_undefined v = Raised e -> e = cannot_convert.
Proof.
  unfold number_or_undefined. cbn [bind outcome_monad].
  destruct (ToNumber v) eqn:E; [discriminate |].
  intros H. injection H as <-. eapply ToNumber_raises, E.
Qed.

Lemma get_raises (v : value) (e : thrown) :
  get v "name" = Raised e -> In e type_errors.
Proof.
  destruct v; try discriminate; intros H; injection H as <-; cbn; auto.
Qed.

(** One step of a sequence of binds that raised: the step raised, or it
    returned and a later one raised. *)
Ltac raised_steps H other :=
  cbn [bind outcome_monad] in H;
  repeat
    match type of H with
    | match ?m with Returned _ => _ | Raised _ => _ end = Raised _ =>
        let E := fresh "E" in
        destruct m eqn:E;
        [ | injection H as <-;
            first [ apply number_or_raises in E; subst; cbn; auto
                  | apply number_or_undefined_raises in E; subst; cbn; auto
                  | apply get_raises in E; exact E
                  | other E ] ]
    end.

Lemma normalizeIngredient_raises (isHebrew : bool) (ingredient : value)
    (e : thrown) :
  normalizeIngredient isHebrew ingredient = Raised e -> In e type_errors.
Proof.
  unfold normalizeIngredient. intros H.
  raised_steps H ltac:(fun E => fail). discriminate H.
Qed.

Lemma map_outcome_raises {A B : Type} (f : A -> outcome B) (l : list A)
    (e : thrown) :
  map_outcome f l = Raised e -> exists x, In x l /\ f x = Raised e.
Proof.
  induction l as [| x rest IH]; [discriminate |].
  cbn [map_outcome bind outcome_monad].
  destruct (f x) eqn:Ex.
  - destruct (map_outcome f rest); [discriminate |].
    intros H. destruct (IH H) as (y & Hy & Hf). exists y. cbn. auto.
  - intros H. injection H as <-. exists x. cbn. auto.
Qed.

Lemma normalizeIngredients_raises (isHebrew : bool) (v : value) (e : thrown) :
  normalizeIngredients isHebrew v = Raised e -> In e type_errors.
Proof.
  destruct v; try discriminate. cbn [normalizeIngredients]. intros H.
  apply map_outcome_raises in H as (x & _ & H).
  eapply normalizeIngredient_raises, H.
Qed.

(** The exceptions of [normalizeAnalysisResult] are TypeErrors, raised before
    any warning is written. *)
Lemma normalizeAnalysisResult_raises (result : value) (isHebrew : bool)
    (t : list event) (e : thrown) :
  normalizeAnalysisResult result isHebrew = (t, Raised e) ->
  t = [] /\ In e type_errors.
Proof.
  unfold normalizeAnalysisResult. rewrite bind_lift.
  destruct (normalized_record result isHebrew) as [n | e'] eqn:R.
  - unfold validateTotals, emit. cbn [ret comp_monad bind].
    destruct (_ <? _)%nat; [destruct (totals_mismatch n) |]; discriminate.
  - intros H. injection H as <- <-. split; [reflexivity |].
    unfold normalized_record in R.
    raised_steps R ltac:(fun E => eapply normalizeIngredients_raises, E).
    discriminate R.
Qed.

(** X10.  A reply that is [null], or whose ingredients array holds a [null],
    cannot be normalized: [normalizeAnalysisResult] raises a TypeError and
    writes no warning. *)
Theorem null_in_reply_raises (result : value) (isHebrew : bool) :
  nullish result = true \/
  (exists elems, prop result "ingredients" = VArr elems /\
                 existsb nullish elems = true) ->
  exists e, normalizeAnalysisResult result isHebrew = ([], Raised e) /\
            In e type_errors.
Proof.
  intros H.
  destruct (normalizeAnalysisResult result isHebrew) as [t [n | e]] eqn:E.
  - exfalso. destruct H as [H | (elems & He & Hn)].
    + apply normalizeAnalysisResult_returned in E as [E _].
      destruct result; try discriminate H; discriminate E.
    + apply ingredients_shape in E. rewrite He in E. destruct E as [_ E].
      apply existsb_exists in Hn as (x & Hx & Hn).
      apply In_nth_error in Hx as [i Hx].
      destruct (Forall2_nth_error_l _ _ _ i x E Hx) as (item & _ & Hi).
      destruct (normalizeIngredient_nullish isHebrew x Hn) as (e & He' & _).
      congruence.
  - apply normalizeAnalysisResult_raises in E as E'. destruct E' as [-> He].
    eauto.
Qed.

Lemma null_in_reply_raises_witness :
  exists e,
    normalizeAnalysisResult
      (VObj [("name", VStr "Toast");
             ("ingredients", VArr [VObj [("name", VStr "Bread")]; VNull])])
      false
    = ([], Raised e) /\
    In e type_errors.
Proof.
  apply null_in_reply_raises. right. eexists. split; reflexivity.
Defined.

(** * Further properties of the operations *)

Lemma translate_error_in (error : thrown) :
  In (translate_error error)
     [quota_exceeded; rate_limited; invalid_image; analysis_failed].
Proof.
  unfold translate_error. destruct error as [message | v]; cbn [In]; [| auto].
  destruct (includes message "quota"); [auto |].
  destruct (includes message "rate limit"); [auto |].
  destruct (includes message "invalid_request_error"); auto.
Qed.

(** A TypeError of the service's own is reported as the generic failure. *)
Lemma translate_type_error (error : thrown) :
  In error type_errors -> translate_error error = analysis_failed.
Proof. intros [<- | [<- | [<- | []]]]; reflexivity. Qed.

(** Reading [result.name] for the log raises exactly when the normalization
    would, with the same exception. *)
Lemma get_then_normalize (parsed : value) (isHebrew : bool) :
  bind (lift (get parsed "name"))
       (fun _ => normalizeAnalysisResult parsed isHebrew)
  = normalizeAnalysisResult parsed isHebrew.
Proof.
  rewrite bind_lift. destruct parsed; reflexivity.
Qed.

(** The shapes a run of the normalization can have. *)
Lemma normalizeAnalysisResult_shape (result : value) (isHebrew : bool) :
  (exists e, normalizeAnalysisResult result isHebrew = ([], Raised e)) \/
  (exists n, normalizeAnalysisResult result isHebrew = ([], Returned n)) \/
  (exists a b d n,
     normalizeAnalysisResult result isHebrew = ([Warn a b d], Returned n)).
Proof.
  destruct (normalizeAnalysisResult result isHebrew) as [t [n | e]] eqn:E.
  - right. rewrite (warnings_of_returned _ _ _ _ E).
    destruct (MealAnalysisResult.ingredients n); [eauto |].
    destruct (totals_mismatch n); [right | left]; eauto 6.
  - left. apply normalizeAnalysisResult_raises in E as [-> _]. eauto.
Qed.

Section ServiceFurther.

Variable extractCleanJSON : string -> outcome string.
Variable JSON_parse : string -> outcome value.
Variable JSON_stringify : value -> outcome string.
Variable NumberToString : number -> string.

Local Abbreviation analyzeMealImage :=
  (OpenAIService.analyzeMealImage extractCleanJSON JSON_parse NumberToString).
Local Abbreviation analyzeMealImage_try :=
  (OpenAIService.analyzeMealImage_try extractCleanJSON JSON_parse NumberToString).
Local Abbreviation analysis_prompt :=
  (OpenAIService.analysis_prompt NumberToString).
Local Abbreviation buildUpdateContext :=
  (OpenAIService.buildUpdateContext NumberToString).
Local Abbreviation updateMealAnalysis :=
  (OpenAIService.updateMealAnalysis extractCleanJSON JSON_parse JSON_stringify).
Local Abbreviation updateMealAnalysis_try :=
  (OpenAIService.updateMealAnalysis_try extractCleanJSON JSON_parse JSON_stringify).
Local Abbreviation buildUpdatePrompt :=
  (OpenAIService.buildUpdatePrompt JSON_stringify).
Local Abbreviation generateText := OpenAIService.generateText.
Local Abbreviation reply_of := (read_reply extractCleanJSON JSON_parse).

(** ** The runs of the operations, step by step *)

Lemma reply_of_shape (response : Completion.t) (isHebrew : bool) :
  (exists e, reply_of response isHebrew = ([], Raised e)) \/
  (exists n, reply_of response isHebrew = ([], Returned n)) \/
  (exists a b d n, reply_of response isHebrew = ([Warn a b d], Returned n)).
Proof.
  unfold read_reply.
  destruct (require_content response) as [content |]; [| eauto].
  destruct (extractCleanJSON content) as [cleaned |]; [| eauto].
  destruct (JSON_parse cleaned) as [parsed |]; [| eauto].
  apply normalizeAnalysisResult_shape.
Qed.

(** A run of [analyzeMealImage] with a credential: the prompt is built, the
    request is sent, the reply is read, and whatever was raised on the way is
    translated. *)
Lemma analyzeMealImage_run (cfg : Config) (client : OpenAI)
    (imageBase64 : string) (language updateText : option string)
    (editedIngredients : option (list value)) :
  require_client cfg = Returned client ->
  analyzeMealImage cfg imageBase64 language updateText editedIngredients =
  match analysis_prompt language updateText editedIngredients with
  | Raised e => ([], Raised (translate_error e))
  | Returned prompt =>
      let request :=
        analysis_request prompt imageBase64 updateText editedIngredients in
      match create client request with
      | Raised e => ([Request request], Raised (translate_error e))
      | Returned response =>
          (Request request :: trace_of (reply_of response (is_hebrew language)),
           match outcome_of (reply_of response (is_hebrew language)) with
           | Returned n => Returned n
           | Raised e => Raised (translate_error e)
           end)
      end
  end.
Proof.
  intros Hc. unfold OpenAIService.analyzeMealImage.
  rewrite bind_lift, Hc, try_catch_throw.
  unfold OpenAIService.analyzeMealImage_try. rewrite bind_lift.
  destruct (analysis_prompt _ _ _) as [prompt | e]; [| reflexivity].
  rewrite bind_send. cbv zeta.
  destruct (create client _) as [response | e]; [| reflexivity].
  cbn [trace_of outcome_of fst snd]. unfold read_reply.
  rewrite bind_lift.
  destruct (require_content response) as [content |]; [| reflexivity].
  rewrite bind_lift.
  destruct (extractCleanJSON content) as [cleaned |]; [| reflexivity].
  rewrite bind_lift.
  destruct (JSON_parse cleaned) as [parsed |]; [| reflexivity].
  now rewrite get_then_normalize.
Qed.

Lemma updateMealAnalysis_run (cfg : Config) (client : OpenAI)
    (originalAnalysis : value) (updateText : string)
    (language : option string) :
  require_client cfg = Returned client ->
  updateMealAnalysis cfg originalAnalysis updateText language =
  match buildUpdatePrompt originalAnalysis updateText (is_hebrew language) with
  | Raised e => ([], Raised update_failed)
  | Returned prompt =>
      let request := update_request prompt updateText in
      match create client request with
      | Raised e => ([Request request], Raised update_failed)
      | Returned response =>
          (Request request :: trace_of (reply_of response (is_hebrew language)),
           match outcome_of (reply_of response (is_hebrew language)) with
           | Returned n => Returned n
           | Raised e => Raised update_failed
           end)
      end
  end.
Proof.
  intros Hc. unfold OpenAIService.updateMealAnalysis.
  rewrite bind_lift, Hc, (try_catch_throw _ (fun _ => update_failed)).
  unfold OpenAIService.updateMealAnalysis_try. rewrite bind_lift.
  destruct (buildUpdatePrompt _ _ _) as [prompt | e]; [| reflexivity].
  rewrite bind_send. cbv zeta.
  destruct (create client _) as [response | e]; [| reflexivity].
  cbn [trace_of outcome_of fst snd]. unfold read_reply.
  rewrite bind_lift.
  destruct (require_content response) as [content |]; [| reflexivity].
  rewrite bind_lift.
  destruct (extractCleanJSON content) as [cleaned |]; [| reflexivity].
  rewrite bind_lift.
  destruct (JSON_parse cleaned) as [parsed |]; reflexivity.
Qed.

Lemma generateText_run (cfg : Config) (client : OpenAI) (prompt : string)
    (maxTokens : option number) :
  require_client cfg = Returned client ->
  generateText cfg prompt maxTokens =
  let request := text_request prompt (maxTokens_or_default maxTokens) in
  ([Request request],
   match create client request with
   | Raised e => Raised e
   | Returned response =>
       Returned match first_content response with
                | Some content => content
                | None => EmptyString
                end
   end).
Proof.
  intros Hc. unfold OpenAIService.generateText, OpenAIService.generateText_try.
  rewrite bind_lift, Hc, (try_catch_throw _ (fun e => e)), bind_send. cbv zeta.
  destruct (create client _) as [response | e]; [| reflexivity].
  cbn. now destruct (first_content response) as [[| c s] |].
Qed.

(** ** The traces *)

(** X11.  Whatever its arguments, its configuration and the provider, a call
    of [analyzeMealImage] or [updateMealAnalysis] ends in one of four ways: it
    fails before any request; it sends one request and fails; it sends one
    request and returns a record; or it sends one request, writes one warning
    and returns a record.  It never sends a second request, and a call that
    fails leaves no warning.  A call of [generateText] sends at most one
    request too. *)
Theorem runs_have_four_shapes (cfg : Config) :
  (forall imageBase64 language updateText editedIngredients,
      run_shape (analyzeMealImage cfg imageBase64 language updateText
                   editedIngredients)) /\
  (forall originalAnalysis updateText language,
      run_shape (updateMealAnalysis cfg originalAnalysis updateText language)) /\
  (forall prompt maxTokens,
      (exists e, generateText cfg prompt maxTokens = ([], Raised e)) \/
      (exists r e, generateText cfg prompt maxTokens = ([Request r], Raised e)) \/
      (exists r a, generateText cfg prompt maxTokens = ([Request r], Returned a))).
Proof.
  unfold run_shape.
  destruct (require_client cfg) as [client | e] eqn:Hc.
  - split; [| split].
    + intros img language updateText edited.
      rewrite (analyzeMealImage_run _ _ _ _ _ _ Hc).
      destruct (analysis_prompt _ _ _) as [prompt |];
        [| left; eauto].
      cbv zeta. destruct (create client _) as [response |];
        [| right; left; eauto].
      destruct (reply_of_shape response (is_hebrew language))
        as [[e ->] | [[n ->] | (a & b & d & n & ->)]]; cbn.
      * right. left. eauto.
      * right. right. left. eauto.
      * right. right. right. eauto 8.
    + intros original updateText language.
      rewrite (updateMealAnalysis_run _ _ _ _ _ Hc).
      destruct (buildUpdatePrompt _ _ _) as [prompt |];
        [| left; eauto].
      cbv zeta. destruct (create client _) as [response |];
        [| right; left; eauto].
      destruct (reply_of_shape response (is_hebrew language))
        as [[e ->] | [[n ->] | (a & b & d & n & ->)]]; cbn.
      * right. left. eauto.
      * right. right. left. eauto.
      * right. right. right. eauto 8.
    + intros prompt maxTokens.
      rewrite (generateText_run _ _ _ _ Hc). cbv zeta.
      destruct (create client _); [right; right | right; left]; eauto.
  - split; [| split]; intros; left;
      unfold OpenAIService.analyzeMealImage, OpenAIService.updateMealAnalysis,
        OpenAIService.generateText;
      rewrite bind_lift, Hc; eauto.
Qed.

(** ** The failures *)

(** X12.  A call of [analyzeMealImage] that fails raises one of five fixed
    messages (not configured, quota exceeded, rate limited, invalid image
    format, generic failure), and a call of [updateMealAnalysis] one of two
    (not configured, failed to update): the text of an error of the provider,
    of the parser or of the service itself never reaches the caller. *)
Theorem failures_are_fixed_messages (cfg : Config) :
  (forall imageBase64 language updateText editedIngredients e,
      outcome_of (analyzeMealImage cfg imageBase64 language updateText
                    editedIngredients) = Raised e ->
      In e [not_configured; quota_exceeded; rate_limited; invalid_image;
            analysis_failed]) /\
  (forall originalAnalysis updateText language e,
      outcome_of (updateMealAnalysis cfg originalAnalysis updateText language)
        = Raised e ->
      In e [not_configured; update_failed]).
Proof.
  destruct (require_client cfg) as [client | e0] eqn:Hc.
  - split.
    + intros img language updateText edited e.
      rewrite (analyzeMealImage_run _ _ _ _ _ _ Hc).
      assert (T : forall x, Raised (A := MealAnalysisResult.t) (translate_error x)
                            = Raised e ->
                            In e [not_configured; quota_exceeded; rate_limited;
                                  invalid_image; analysis_failed]).
      { intros x H. injection H as <-. right. apply translate_error_in. }
      destruct (analysis_prompt _ _ _) as [prompt | x]; [| apply T].
      cbv zeta. destruct (create client _) as [response | x]; [| apply T].
      cbn [outcome_of snd].
      fold (outcome_of (reply_of response (is_hebrew language))).
      destruct (outcome_of _); [discriminate | apply T].
    + intros original updateText language e.
      rewrite (updateMealAnalysis_run _ _ _ _ _ Hc).
      assert (T : Raised (A := MealAnalysisResult.t) update_failed = Raised e ->
                  In e [not_configured; update_failed]).
      { intros H. injection H as <-. cbn. auto. }
      destruct (buildUpdatePrompt _ _ _) as [prompt | x]; [| apply T].
      cbv zeta. destruct (create client _) as [response | x]; [| apply T].
      cbn [outcome_of snd].
      fold (outcome_of (reply_of response (is_hebrew language))).
      destruct (outcome_of _); [discriminate | apply T].
  - assert (E0 : e0 = not_configured).
    { unfold require_client in Hc. destruct (openai cfg); [| congruence].
      destruct (negb _); congruence. }
    subst e0.
    split; intros;
      unfold OpenAIService.analyzeMealImage, OpenAIService.updateMealAnalysis in H;
      rewrite bind_lift, Hc in H; injection H as <-; cbn; auto.
Qed.

(** X13.  With a credential configured, when the provider answers with a
    content that the cleaning utility or [JSON.parse] rejects with an error
    [e], the one request has been sent; [analyzeMealImage] raises the
    translation of [e] (so a parser message that happens to hold "quota" is
    reported as quota exceeded) and [updateMealAnalysis] its fixed message. *)
Theorem malformed_reply_fails (cfg : Config) (client : OpenAI)
    (response : Completion.t) (content : string) (e : thrown) :
  require_client cfg = Returned client ->
  (forall request, create client request = Returned response) ->
  require_content response = Returned content ->
  extractCleanJSON content = Raised e \/
  (exists cleaned, extractCleanJSON content = Returned cleaned /\
                   JSON_parse cleaned = Raised e) ->
  (forall imageBase64 language updateText editedIngredients prompt,
      analysis_prompt language updateText editedIngredients = Returned prompt ->
      analyzeMealImage cfg imageBase64 language updateText editedIngredients
      = ([Request (analysis_request prompt imageBase64 updateText editedIngredients)],
         Raised (translate_error e))) /\
  (forall originalAnalysis updateText language prompt,
      buildUpdatePrompt originalAnalysis updateText (is_hebrew language)
        = Returned prompt ->
      updateMealAnalysis cfg originalAnalysis updateText language
      = ([Request (update_request prompt updateText)], Raised update_failed)).
Proof.
  intros Hc Hr Hcontent He.
  assert (R : forall h, reply_of response h = ([], Raised e)).
  { intros h. unfold read_reply. rewrite Hcontent.
    destruct He as [-> | (cleaned & -> & ->)]; reflexivity. }
  split.
  - intros img language updateText edited prompt Hp.
    rewrite (analyzeMealImage_run _ _ _ _ _ _ Hc), Hp. cbv zeta.
    now rewrite Hr, R.
  - intros original updateText language prompt Hp.
    rewrite (updateMealAnalysis_run _ _ _ _ _ Hc), Hp. cbv zeta.
    now rewrite Hr, R.
Qed.

(** X14.  With a credential configured, when everything returns (the
    provider answers with a content, the content is cleaned and parsed, the
    parsed reply is normalized), both [analyzeMealImage] and
    [updateMealAnalysis] return the normalized record of the parsed reply, in
    the language of the call; their trace is the request followed by the
    warnings of the normalization. *)
Theorem operations_return_the_normalized_reply (cfg : Config) (client : OpenAI)
    (response : Completion.t) (content cleaned : string) (parsed : value)
    (language : option string) (ws : list event)
    (normalized : MealAnalysisResult.t) :
  require_client cfg = Returned client ->
  (forall request, create client request = Returned response) ->
  require_content response = Returned content ->
  extractCleanJSON content = Returned cleaned ->
  JSON_parse cleaned = Returned parsed ->
  normalizeAnalysisResult parsed (is_hebrew language) = (ws, Returned normalized) ->
  (forall imageBase64 updateText editedIngredients prompt,
      analysis_prompt language updateText editedIngredients = Returned prompt ->
      analyzeMealImage cfg imageBase64 language updateText editedIngredients
      = (Request (analysis_request prompt imageBase64 updateText editedIngredients)
           :: ws,
         Returned normalized)) /\
  (forall originalAnalysis updateText prompt,
      buildUpdatePrompt originalAnalysis updateText (is_hebrew language)
        = Returned prompt ->
      updateMealAnalysis cfg originalAnalysis updateText language
      = (Request (update_request prompt updateText) :: ws, Returned normalized)).
Proof.
  intros Hc Hr H1 H2 H3 Hn.
  assert (R : reply_of response (is_hebrew language) = (ws, Returned normalized)).
  { unfold read_reply. now rewrite H1, H2, H3. }
  split.
  - intros img updateText edited prompt Hp.
    rewrite (analyzeMealImage_run _ _ _ _ _ _ Hc), Hp. cbv zeta.
    now rewrite Hr, R.
  - intros original updateText prompt Hp.
    rewrite (updateMealAnalysis_run _ _ _ _ _ Hc), Hp. cbv zeta.
    now rewrite Hr, R.
Qed.

(** X15.  With a credential configured, [generateText] sends its one request
    and hands back the content of the first choice of the response, whatever
    it is and without reading the other choices; an error of the provider is
    raised as it is. *)
Theorem generateText_passes_content (cfg : Config) (client : OpenAI)
    (prompt : string) (maxTokens : option number) :
  require_client cfg = Returned client ->
  trace_of (generateText cfg prompt maxTokens)
  = [Request (text_request prompt (maxTokens_or_default maxTokens))] /\
  (forall content rest,
      create client (text_request prompt (maxTokens_or_default maxTokens))
      = Returned {| Completion.choices :=
                      {| Completion.message :=
                           Some {| Completion.content := Some content |} |}
                      :: rest |} ->
      outcome_of (generateText cfg prompt maxTokens) = Returned content) /\
  (forall e,
      create client (text_request prompt (maxTokens_or_default maxTokens))
      = Raised e ->
      outcome_of (generateText cfg prompt maxTokens) = Raised e).
Proof.
  intros Hc. rewrite (generateText_run _ _ _ _ Hc). cbv zeta.
  split; [reflexivity |]. split.
  - intros content rest ->. reflexivity.
  - intros e ->. reflexivity.
Qed.

(** X16.  With a credential configured, when [JSON.stringify] cannot print
    the original analysis, [updateMealAnalysis] fails with its fixed message
    before any request is sent. *)
Theorem unprintable_analysis_fails (cfg : Config) (client : OpenAI)
    (originalAnalysis : value) (updateText : string)
    (language : option string) (e : thrown) :
  require_client cfg = Returned client ->
  JSON_stringify originalAnalysis = Raised e ->
  updateMealAnalysis cfg originalAnalysis updateText language
  = ([], Raised update_failed).
Proof.
  intros Hc He. rewrite (updateMealAnalysis_run _ _ _ _ _ Hc).
  unfold OpenAIService.buildUpdatePrompt. now rewrite He.
Qed.

(** ** The update text and the edited ingredients *)

Local Abbreviation ToString := (OpenAIService.ToString NumberToString).
Local Abbreviation edited_ingredient_line :=
  (OpenAIService.edited_ingredient_line NumberToString).
Local Abbreviation edited_ingredient_lines :=
  (OpenAIService.edited_ingredient_lines NumberToString).

(** The string of an array, from the string of its first element and the
    string of the array of the others. *)
Ltac name_join H rest :=
  match type of H with
  | context [match ?j rest with Returned _ => _ | Raised _ => _ end] =>
      destruct (j rest) eqn:?
  end.

Lemma ToString_raises (v : value) (e : thrown) :
  ToString v = Raised e -> e = cannot_convert.
Proof.
  revert e.
  induction v as [| | b | n | s | elems IH | props _] using value_induction;
    intros e; cbn [OpenAIService.ToString]; try discriminate.
  - induction IH as [| x rest Hx _ IHrest]; [discriminate |].
    intros H.
    destruct (match x with
              | VUndefined | VNull => Returned EmptyString
              | _ => ToString x
              end) as [sx | ex] eqn:Ex.
    + cbn [OpenAIService.ToString] in IHrest. name_join H rest.
      * discriminate H.
      * injection H as <-. now apply IHrest.
    + injection H as <-.
      destruct x; try discriminate Ex; now apply Hx.
  - destruct (has_own "toString" props); [congruence | discriminate].
Qed.

Lemma ToString_returns (v : value) :
  plain v = true -> exists s, ToString v = Returned s.
Proof.
  induction v as [| | b | n | s | elems IH | props _] using value_induction;
    cbn [OpenAIService.ToString plain]; intros H; eauto.
  - induction IH as [| x rest Hx _ IHrest]; [eauto |].
    cbn [forallb] in H. apply andb_prop in H as [Hp Hrest].
    destruct (IHrest Hrest) as [s Hs].
    assert (Ex : exists sx, match x with
                            | VUndefined | VNull => Returned EmptyString
                            | _ => ToString x
                            end = Returned sx)
      by (destruct x; eauto).
    destruct Ex as [sx Ex]. rewrite Ex.
    name_join Hs rest; [eauto | discriminate Hs].
  - apply andb_prop in H as [H _].
    destruct (has_own "toString" props); [discriminate H | eauto].
Qed.

Lemma edited_ingredient_line_raises (index : nat) (ingredient : value)
    (e : thrown) :
  edited_ingredient_line index ingredient = Raised e -> In e type_errors.
Proof.
  unfold OpenAIService.edited_ingredient_line. cbn [bind outcome_monad].
  destruct (get ingredient "name") as [name |] eqn:G;
    [| intros H; injection H as <-; eapply get_raises, G].
  assert (T : forall v, ToString v = Raised e -> In e type_errors).
  { intros v H. apply ToString_raises in H as ->. cbn. auto. }
  destruct (ToString name) eqn:E1;
    [| intros H; injection H as <-; eapply T, E1].
  destruct (ToString (prop ingredient "calories")) eqn:E2;
    [| intros H; injection H as <-; eapply T, E2].
  destruct (ToString (prop ingredient "protein")) eqn:E3;
    [discriminate | intros H; injection H as <-; eapply T, E3].
Qed.

Lemma edited_ingredient_lines_raises (index : nat) (l : list value)
    (e : thrown) :
  edited_ingredient_lines index l = Raised e -> In e type_errors.
Proof.
  revert index. induction l as [| x rest IH]; intros index; [discriminate |].
  cbn [OpenAIService.edited_ingredient_lines bind outcome_monad].
  destruct (edited_ingredient_line index x) eqn:Ex.
  - destruct (edited_ingredient_lines (S index) rest) eqn:Er; [discriminate |].
    intros H. injection H as <-. eapply IH, Er.
  - intros H. injection H as <-. eapply edited_ingredient_line_raises, Ex.
Qed.

Lemma edited_ingredient_lines_nullish (index : nat) (l : list value) :
  existsb nullish l = true ->
  exists e, edited_ingredient_lines index l = Raised e.
Proof.
  revert index. induction l as [| x rest IH]; intros index; [discriminate |].
  cbn [existsb OpenAIService.edited_ingredient_lines bind outcome_monad].
  intros H. destruct (edited_ingredient_line index x) eqn:Ex; [| eauto].
  destruct (nullish x) eqn:Nx.
  - destruct x; try discriminate Nx; discriminate Ex.
  - destruct (IH (S index) H) as [e ->]. eauto.
Qed.

Lemma edited_ingredient_lines_returns (index : nat) (l : list value) :
  forallb (fun x => negb (nullish x) && plain x) l = true ->
  exists s, edited_ingredient_lines index l = Returned s.
Proof.
  revert index. induction l as [| x rest IH]; intros index; [cbn; eauto |].
  cbn [forallb]. intros H. apply andb_prop in H as [Hx Hrest].
  apply andb_prop in Hx as [Hn Hp].
  cbn [OpenAIService.edited_ingredient_lines].
  unfold OpenAIService.edited_ingredient_line.
  assert (G : get x "name" = Returned (prop x "name"))
    by (destruct x; try discriminate Hn; reflexivity).
  rewrite G. cbn [bind outcome_monad].
  destruct (ToString_returns (prop x "name")) as [s1 ->]; [auto with plain |].
  destruct (ToString_returns (prop x "calories")) as [s2 ->]; [auto with plain |].
  destruct (ToString_returns (prop x "protein")) as [s3 ->]; [auto with plain |].
  cbn [bind ret outcome_monad].
  destruct (IH (S index) Hrest) as [s ->]. cbn. eauto.
Qed.

(** X17.  An empty update text and an empty list of edited ingredients count
    as none: a call of [analyzeMealImage] with either or both is the same run,
    request included, as the call with neither. *)
Theorem empty_update_is_no_update (cfg : Config) (imageBase64 : string)
    (language : option string) :
  analyzeMealImage cfg imageBase64 language (Some EmptyString) (Some [])
  = analyzeMealImage cfg imageBase64 language None None /\
  analyzeMealImage cfg imageBase64 language (Some EmptyString) None
  = analyzeMealImage cfg imageBase64 language None None /\
  analyzeMealImage cfg imageBase64 language None (Some [])
  = analyzeMealImage cfg imageBase64 language None None.
Proof. repeat split. Qed.

(** X18.  With a credential configured, a [null] among the edited
    ingredients makes [analyzeMealImage] fail with the generic message before
    any request is sent. *)
Theorem null_edited_ingredient_fails (cfg : Config) (client : OpenAI)
    (imageBase64 : string) (language updateText : option string)
    (edited : list value) :
  require_client cfg = Returned client ->
  existsb nullish edited = true ->
  analyzeMealImage cfg imageBase64 language updateText (Some edited)
  = ([], Raised analysis_failed).
Proof.
  intros Hc Hn. rewrite (analyzeMealImage_run _ _ _ _ _ _ Hc).
  destruct edited as [| x rest]; [discriminate Hn |].
  unfold OpenAIService.analysis_prompt. rewrite orb_true_r.
  unfold OpenAIService.buildUpdateContext. cbn [bind outcome_monad].
  destruct (edited_ingredient_lines_nullish 0 (x :: rest) Hn) as [e He].
  rewrite He. cbn [bind outcome_monad].
  now rewrite (translate_type_error e (edited_ingredient_lines_raises _ _ _ He)).
Qed.

(** X19.  The system prompt of [analyzeMealImage] is always built when no
    edited ingredient is [null] and none holds an object with a property
    named toString: in particular whenever there are no edited ingredients.
    With a credential configured, the request is then sent. *)
Theorem prompt_is_built (cfg : Config) (client : OpenAI) (imageBase64 : string)
    (language updateText : option string)
    (editedIngredients : option (list value)) :
  require_client cfg = Returned client ->
  match editedIngredients with
  | Some edited => forallb (fun x => negb (nullish x) && plain x) edited
  | None => true
  end = true ->
  exists prompt,
    analysis_prompt language updateText editedIngredients = Returned prompt /\
    requests_of (trace_of (analyzeMealImage cfg imageBase64 language updateText
                             editedIngredients))
    = [analysis_request prompt imageBase64 updateText editedIngredients].
Proof.
  intros Hc He.
  assert (P : exists prompt,
             analysis_prompt language updateText editedIngredients
             = Returned prompt).
  { unfold OpenAIService.analysis_prompt.
    destruct (_ || _); [| cbn; eauto].
    unfold OpenAIService.buildUpdateContext.
    destruct editedIngredients as [[| x rest] |]; try (cbn; eauto; fail).
    destruct (edited_ingredient_lines_returns 0 (x :: rest) He) as [s Hs].
    cbn [bind outcome_monad]. rewrite Hs. cbn. eauto. }
  destruct P as [prompt Hp]. exists prompt. split; [exact Hp |].
  rewrite (analyzeMealImage_run _ _ _ _ _ _ Hc), Hp. cbv zeta.
  destruct (create client _) as [response |]; [| reflexivity].
  cbn [trace_of fst requests_of]. f_equal.
  destruct (reply_of_shape response (is_hebrew language))
    as [[e ->] | [[n ->] | (a & b & d & n & ->)]]; reflexivity.
Qed.

(** ** When the prompts are built *)

(** The string of a value is taken exactly when [to_string_raises] says it
    can be. *)
Lemma ToString_defined (v : value) :
  if to_string_raises v then ToString v = Raised cannot_convert
  else exists s, ToString v = Returned s.
Proof.
  induction v as [| | b | n | s | elems IH | props _] using value_induction;
    cbn [OpenAIService.ToString to_string_raises]; eauto.
  - induction IH as [| x rest Hx _ IHrest]; [cbn; eauto |].
    cbn [existsb].
    destruct (to_string_raises x) eqn:Rx; cbn [orb].
    + destruct x; try discriminate Rx; rewrite Hx; reflexivity.
    + assert (Ex : exists sx, match x with
                              | VUndefined | VNull => Returned EmptyString
                              | _ => ToString x
                              end = Returned sx)
        by (destruct x; eauto).
      destruct Ex as [sx Ex]. rewrite Ex.
      cbn [OpenAIService.ToString] in IHrest.
      destruct (existsb to_string_raises rest).
      * name_join IHrest rest; [discriminate IHrest | congruence].
      * destruct IHrest as [s Hs].
        name_join Hs rest; [eauto | discriminate Hs].
  - destruct (has_own "toString" props); eauto.
Qed.

Lemma edited_ingredient_line_defined (index : nat) (ingredient : value) :
  if printable_edit ingredient
  then exists s, edited_ingredient_line index ingredient = Returned s
  else exists e, edited_ingredient_line index ingredient = Raised e.
Proof.
  unfold printable_edit, OpenAIService.edited_ingredient_line.
  destruct (nullish ingredient) eqn:N; cbn [negb andb].
  - destruct ingredient; try discriminate N; cbn; eauto.
  - assert (G : get ingredient "name" = Returned (prop ingredient "name"))
      by (destruct ingredient; try discriminate N; reflexivity).
    rewrite G. cbn [bind outcome_monad].
    pose proof (ToString_defined (prop ingredient "name")) as H1.
    pose proof (ToString_defined (prop ingredient "calories")) as H2.
    pose proof (ToString_defined (prop ingredient "protein")) as H3.
    destruct (to_string_raises (prop ingredient "name")); cbn [negb andb];
      [rewrite H1; eauto | destruct H1 as [s1 ->]].
    destruct (to_string_raises (prop ingredient "calories")); cbn [negb andb];
      [rewrite H2; eauto | destruct H2 as [s2 ->]].
    destruct (to_string_raises (prop ingredient "protein")); cbn [negb andb];
      [rewrite H3; eauto | destruct H3 as [s3 ->]].
    cbn [ret outcome_monad]. eauto.
Qed.

Lemma edited_ingredient_lines_defined (index : nat) (l : list value) :
  if forallb printable_edit l
  then exists s, edited_ingredient_lines index l = Returned s
  else exists e, edited_ingredient_lines index l = Raised e.
Proof.
  revert index. induction l as [| x rest IH]; intros index; [cbn; eauto |].
  cbn [forallb OpenAIService.edited_ingredient_lines bind outcome_monad].
  pose proof (edited_ingredient_line_defined index x) as Hx.
  destruct (printable_edit x); cbn [andb].
  - destruct Hx as [s ->]. specialize (IH (S index)).
    destruct (forallb printable_edit rest).
    + destruct IH as [more ->]. cbn [ret outcome_monad]. eauto.
    + destruct IH as [e ->]. eauto.
  - destruct Hx as [e ->]. eauto.
Qed.

(** The system prompt of [analyzeMealImage], written out: the analysis
    prompt, followed when there is an update text or an edited ingredient by
    the heading of the context, the line of the update text, the lines of the
    edited ingredients and the closing sentence. *)
Lemma analysis_prompt_defined (language updateText : option string)
    (editedIngredients : option (list value)) :
  printable_edits editedIngredients = true ->
  exists added,
    match editedIngredients with
    | Some edited => edited_ingredient_lines 0 edited
    | None => Returned EmptyString
    end = Returned added /\
    analysis_prompt language updateText editedIngredients
    = Returned
        (buildAnalysisPrompt (is_hebrew language)
         ++ if text_truthy updateText
               || match editedIngredients with Some (_ :: _) => true | _ => false end
            then
              nl ++ nl
              ++ (if is_hebrew language then "הקשר נוסף:" else "Additional context:")
              ++ nl
              ++ match updateText with
                 | Some ((String _ _) as text) =>
                     (if is_hebrew language then "- המשתמש הוסיף הערה: "
                      else "- User provided feedback: ")
                     ++ quoted text ++ nl
                 | _ => EmptyString
                 end
              ++ match editedIngredients with
                 | Some ((_ :: _) as edited) =>
                     (if is_hebrew language
                      then "- המשתמש ערך " ++ nat_to_string (List.length edited)
                           ++ " מרכיבים:"
                      else "- User edited " ++ nat_to_string (List.length edited)
                           ++ " ingredients:")
                     ++ nl ++ added
                 | _ => EmptyString
                 end
              ++ nl
              ++ (if is_hebrew language then "אנא התחשב במידע זה בעת עדכון הניתוח."
                  else "Please incorporate this information when updating the analysis.")
            else EmptyString).
Proof.
  intros Hp. unfold OpenAIService.analysis_prompt.
  generalize (buildAnalysisPrompt (is_hebrew language)) as base. intros base.
  assert (L : exists added,
             match editedIngredients with
             | Some edited => edited_ingredient_lines 0 edited
             | None => Returned EmptyString
             end = Returned added).
  { destruct editedIngredients as [edited |]; [| eauto].
    pose proof (edited_ingredient_lines_defined 0 edited) as H.
    cbn [printable_edits] in Hp. now rewrite Hp in H. }
  destruct L as [added L]. exists added. split; [exact L |].
  unfold OpenAIService.buildUpdateContext.
  destruct editedIngredients as [[| x rest] |];
    destruct updateText as [[| c text] |]; cbn [text_truthy orb];
    try (cbn [ret outcome_monad]; now rewrite append_empty);
    try rewrite L; cbn [bind ret outcome_monad];
    destruct (is_hebrew language); f_equal; f_equal;
    rewrite ?append_assoc; reflexivity.
Qed.

Lemma analysis_prompt_undefined (language updateText : option string)
    (editedIngredients : option (list value)) :
  printable_edits editedIngredients = false ->
  exists e, analysis_prompt language updateText editedIngredients = Raised e.
Proof.
  destruct editedIngredients as [[| x rest] |]; try discriminate.
  cbn [printable_edits]. intros Hp.
  pose proof (edited_ingredient_lines_defined 0 (x :: rest)) as H.
  rewrite Hp in H. destruct H as [e He].
  unfold OpenAIService.analysis_prompt. rewrite orb_true_r.
  unfold OpenAIService.buildUpdateContext. cbn [bind outcome_monad].
  rewrite He. cbn [bind outcome_monad]. eauto.
Qed.

(** The prompt of [buildUpdatePrompt], written out. *)
Lemma buildUpdatePrompt_defined (originalAnalysis : value)
    (updateText : string) (isHebrew : bool) (json : string) :
  JSON_stringify originalAnalysis = Returned json ->
  buildUpdatePrompt originalAnalysis updateText isHebrew
  = Returned
      (if isHebrew
       then "אתה מומחה תזונה המעדכן ניתוח ארוחה קיים על בסיס משוב מהמשתמש."
            ++ nl ++ nl ++ "ניתוח מקורי:" ++ nl ++ json
            ++ nl ++ nl ++ "משוב מהמשתמש: " ++ quoted updateText ++ nl ++ nl
            ++ "אנא עדכן את הניתוח בהתאם למשוב והחזר JSON מעודכן באותו פורמט."
       else "You are a nutrition expert updating an existing meal analysis based on user feedback."
            ++ nl ++ nl ++ "Original analysis:" ++ nl ++ json
            ++ nl ++ nl ++ "User feedback: " ++ quoted updateText ++ nl ++ nl
            ++ "Please update the analysis according to the feedback and return updated JSON in the same format.").
Proof.
  intros Hj. unfold OpenAIService.buildUpdatePrompt. rewrite Hj.
  cbn [bind ret outcome_monad]. f_equal.
  destruct isHebrew; unfold update_prompt_hebrew, update_prompt_english;
    rewrite ?append_assoc; reflexivity.
Qed.

(** ** The requests a call sends *)

Lemma analyzeMealImage_requests (cfg : Config) (client : OpenAI)
    (imageBase64 : string) (language updateText : option string)
    (editedIngredients : option (list value)) :
  require_client cfg = Returned client ->
  requests_of (trace_of (analyzeMealImage cfg imageBase64 language updateText
                           editedIngredients))
  = match analysis_prompt language updateText editedIngredients with
    | Returned prompt =>
        [analysis_request prompt imageBase64 updateText editedIngredients]
    | Raised _ => []
    end.
Proof.
  intros Hc. rewrite (analyzeMealImage_run _ _ _ _ _ _ Hc).
  destruct (analysis_prompt _ _ _) as [prompt |]; [| reflexivity].
  cbv zeta. destruct (create client _) as [response |]; [| reflexivity].
  cbn [trace_of fst requests_of]. f_equal.
  destruct (reply_of_shape response (is_hebrew language))
    as [[e ->] | [[n ->] | (a & b & d & n & ->)]]; reflexivity.
Qed.

Lemma updateMealAnalysis_requests (cfg : Config) (client : OpenAI)
    (originalAnalysis : value) (updateText : string)
    (language : option string) :
  require_client cfg = Returned client ->
  requests_of (trace_of (updateMealAnalysis cfg originalAnalysis updateText
                           language))
  = match buildUpdatePrompt originalAnalysis updateText (is_hebrew language) with
    | Returned prompt => [update_request prompt updateText]
    | Raised _ => []
    end.
Proof.
  intros Hc. rewrite (updateMealAnalysis_run _ _ _ _ _ Hc).
  destruct (buildUpdatePrompt _ _ _) as [prompt |]; [| reflexivity].
  cbv zeta. destruct (create client _) as [response |]; [| reflexivity].
  cbn [trace_of fst requests_of]. f_equal.
  destruct (reply_of_shape response (is_hebrew language))
    as [[e ->] | [[n ->] | (a & b & d & n & ->)]]; reflexivity.
Qed.

(** C8.  With a credential configured, each operation sends its request
    with these settings.  [analyzeMealImage] sends exactly one request, with
    max_tokens 2000 and temperature 0.1, whenever every edited ingredient can
    be written in the prompt, and none otherwise.  [updateMealAnalysis] sends
    exactly one request, with max_tokens 1500 and temperature 0.1, whenever
    [JSON.stringify] prints the original analysis, and none when it raises.
    [generateText] always sends exactly one request, with max_tokens as given,
    1000 when it is left out, and temperature 0.7. *)
Theorem requests_tuned (cfg : Config) (client : OpenAI) :
  require_client cfg = Returned client ->
  (forall imageBase64 language updateText editedIngredients,
      let sent :=
        requests_of (trace_of (analyzeMealImage cfg imageBase64 language
                                 updateText editedIngredients)) in
      (printable_edits editedIngredients = true ->
       exists request,
         sent = [request] /\
         max_tokens request = Num.of_Z 2000 /\
         temperature request = Num.decimal false 1 (-1)) /\
      (printable_edits editedIngredients = false -> sent = [])) /\
  (forall originalAnalysis updateText language,
      let sent :=
        requests_of (trace_of (updateMealAnalysis cfg originalAnalysis
                                 updateText language)) in
      (forall json,
          JSON_stringify originalAnalysis = Returned json ->
          exists request,
            sent = [request] /\
            max_tokens request = Num.of_Z 1500 /\
            temperature request = Num.decimal false 1 (-1)) /\
      (forall e, JSON_stringify originalAnalysis = Raised e -> sent = [])) /\
  (forall prompt maxTokens,
      exists request,
        requests_of (trace_of (generateText cfg prompt maxTokens)) = [request] /\
        max_tokens request
          = match maxTokens with Some n => n | None => Num.of_Z 1000 end /\
        temperature request = Num.decimal false 7 (-1)).
Proof.
  intros Hc. split; [| split].
  - intros img language updateText edited sent. subst sent.
    rewrite (analyzeMealImage_requests _ _ _ _ _ _ Hc). split.
    + intros Hp.
      destruct (analysis_prompt_defined language updateText edited Hp)
        as (added & _ & ->).
      eexists. split; [reflexivity |]. split; reflexivity.
    + intros Hp.
      destruct (analysis_prompt_undefined language updateText edited Hp)
        as [e ->].
      reflexivity.
  - intros original updateText language sent. subst sent.
    rewrite (updateMealAnalysis_requests _ _ _ _ _ Hc). split.
    + intros json Hj.
      rewrite (buildUpdatePrompt_defined _ updateText (is_hebrew language) _ Hj).
      eexists. split; [reflexivity |]. split; reflexivity.
    + intros e He. unfold OpenAIService.buildUpdatePrompt. now rewrite He.
  - intros prompt maxTokens.
    exists (text_request prompt (maxTokens_or_default maxTokens)).
    split; [| split; reflexivity].
    now rewrite (generateText_run _ _ _ _ Hc).
Qed.

(** ** The language of a call *)

(** A record that [analyzeMealImage] returns is the normalization, in the
    language of the call, of what was parsed from the provider's content. *)
Lemma analyzeMealImage_returned (cfg : Config) (client : OpenAI)
    (imageBase64 : string) (language updateText : option string)
    (editedIngredients : option (list value))
    (normalized : MealAnalysisResult.t) :
  require_client cfg = Returned client ->
  outcome_of (analyzeMealImage cfg imageBase64 language updateText
                editedIngredients) = Returned normalized ->
  exists request response content cleaned parsed ws,
    create client request = Returned response /\
    require_content response = Returned content /\
    extractCleanJSON content = Returned cleaned /\
    JSON_parse cleaned = Returned parsed /\
    normalizeAnalysisResult parsed (is_hebrew language) = (ws, Returned normalized).
Proof.
  intros Hc. unfold OpenAIService.analyzeMealImage.
  rewrite bind_lift, Hc, try_catch_throw. cbn [outcome_of snd].
  unfold OpenAIService.analyzeMealImage_try. rewrite bind_lift.
  destruct (analysis_prompt _ _ _) as [prompt |]; [| discriminate].
  rewrite bind_send.
  destruct (create client _) as [response |] eqn:Hr; [| discriminate].
  cbn [snd outcome_of]. rewrite bind_lift.
  destruct (require_content response) as [content |] eqn:H1; [| discriminate].
  rewrite bind_lift.
  destruct (extractCleanJSON content) as [cleaned |] eqn:H2; [| discriminate].
  rewrite bind_lift.
  destruct (JSON_parse cleaned) as [parsed |] eqn:H3; [| discriminate].
  rewrite bind_lift.
  destruct (get parsed "name"); [| discriminate].
  destruct (normalizeAnalysisResult parsed (is_hebrew language))
    as [ws [n |]] eqn:H4; [| discriminate].
  cbn [snd]. intros H. injection H as <-.
  repeat eexists; eauto.
Qed.

Lemma updateMealAnalysis_returned (cfg : Config) (client : OpenAI)
    (originalAnalysis : value) (updateText : string)
    (language : option string) (normalized : MealAnalysisResult.t) :
  require_client cfg = Returned client ->
  outcome_of (updateMealAnalysis cfg originalAnalysis updateText language)
    = Returned normalized ->
  exists request response content cleaned parsed ws,
    create client request = Returned response /\
    require_content response = Returned content /\
    extractCleanJSON content = Returned cleaned /\
    JSON_parse cleaned = Returned parsed /\
    normalizeAnalysisResult parsed (is_hebrew language) = (ws, Returned normalized).
Proof.
  intros Hc. unfold OpenAIService.updateMealAnalysis.
  rewrite bind_lift, Hc, (try_catch_throw _ (fun _ => update_failed)).
  cbn [outcome_of snd].
  unfold OpenAIService.updateMealAnalysis_try. rewrite bind_lift.
  destruct (buildUpdatePrompt _ _ _) as [prompt |]; [| discriminate].
  rewrite bind_send.
  destruct (create client _) as [response |] eqn:Hr; [| discriminate].
  cbn [snd outcome_of]. rewrite bind_lift.
  destruct (require_content response) as [content |] eqn:H1; [| discriminate].
  rewrite bind_lift.
  destruct (extractCleanJSON content) as [cleaned |] eqn:H2; [| discriminate].
  rewrite bind_lift.
  destruct (JSON_parse cleaned) as [parsed |] eqn:H3; [| discriminate].
  destruct (normalizeAnalysisResult parsed (is_hebrew language))
    as [ws [n |]] eqn:H4; [| discriminate].
  cbn [snd]. intros H. injection H as <-.
  repeat eexists; eauto.
Qed.

(** C7.  With a credential configured, a call is in Hebrew exactly when its
    language is "hebrew"; with any other language, or none, it is in English.
    Whenever every edited ingredient can be written, [analyzeMealImage] sends
    one request whose system message is the analysis prompt of the language,
    followed (when there is an update text or an edited ingredient) by the
    context in that language: its heading, the line of the update text, the
    heading of the edited ingredients with their lines, and the closing
    sentence; the lines of the edited ingredients themselves are the same in
    both languages.  Whenever [JSON.stringify] prints the original analysis,
    [updateMealAnalysis] sends one request whose system message is the update
    prompt of the language, whole.  When the provider answers with a
    well-formed reply, both operations return its normalization, in which a
    meal without a name and each ingredient without a name get the placeholder
    of the language, and a given name is kept; and every record either
    operation returns is such a normalization. *)
Theorem language_selection (cfg : Config) (client : OpenAI)
    (language : option string) :
  require_client cfg = Returned client ->
  let hebrew := is_hebrew language in
  let named (parsed : value) (normalized : MealAnalysisResult.t) :=
    MealAnalysisResult.name normalized
    = (if truthy (prop parsed "name") then prop parsed "name"
       else VStr (if hebrew then "ארוחה לא מזוהה" else "Unknown meal")) /\
    (forall elems, prop parsed "ingredients" = VArr elems ->
       Forall2 (fun element item =>
                  Ingredient.name item
                  = if truthy (prop element "name") then prop element "name"
                    else VStr (if hebrew then "מרכיב לא מזוהה"
                               else "Unknown ingredient"))
               elems (MealAnalysisResult.ingredients normalized)) in
  let normalization_of (normalized : MealAnalysisResult.t) :=
    exists cleaned parsed ws,
      JSON_parse cleaned = Returned parsed /\
      normalizeAnalysisResult parsed hebrew = (ws, Returned normalized) /\
      named parsed normalized in
  (hebrew = true <-> language = Some "hebrew") /\
  (exists body,
      analysis_prompt_hebrew
      = "אתה מומחה תזונה מקצועי המנתח תמונות של ארוחות. נתח את התמונה ותחזיר JSON מדויק עם המידע הבא:"
        ++ body ++ "- השתמש בשמות עבריים למרכיבים") /\
  (exists body,
      analysis_prompt_english
      = "You are a professional nutrition expert analyzing meal images. Analyze the image and return accurate JSON with this information:"
        ++ body ++ "- Be precise with portion estimates") /\
  (forall imageBase64 updateText editedIngredients,
      printable_edits editedIngredients = true ->
      exists added request,
        match editedIngredients with
        | Some edited => edited_ingredient_lines 0 edited
        | None => Returned EmptyString
        end = Returned added /\
        requests_of (trace_of (analyzeMealImage cfg imageBase64 language
                                 updateText editedIngredients)) = [request] /\
        system_prompt request
        = Some
            ((if hebrew then analysis_prompt_hebrew else analysis_prompt_english)
             ++ if text_truthy updateText
                   || match editedIngredients with
                      | Some (_ :: _) => true
                      | _ => false
                      end
                then
                  nl ++ nl
                  ++ (if hebrew then "הקשר נוסף:" else "Additional context:")
                  ++ nl
                  ++ match updateText with
                     | Some ((String _ _) as text) =>
                         (if hebrew then "- המשתמש הוסיף הערה: "
                          else "- User provided feedback: ")
                         ++ quoted text ++ nl
                     | _ => EmptyString
                     end
                  ++ match editedIngredients with
                     | Some ((_ :: _) as edited) =>
                         (if hebrew
                          then "- המשתמש ערך " ++ nat_to_string (List.length edited)
                               ++ " מרכיבים:"
                          else "- User edited " ++ nat_to_string (List.length edited)
                               ++ " ingredients:")
                         ++ nl ++ added
                     | _ => EmptyString
                     end
                  ++ nl
                  ++ (if hebrew then "אנא התחשב במידע זה בעת עדכון הניתוח."
                      else "Please incorporate this information when updating the analysis.")
                else EmptyString)) /\
  (forall originalAnalysis updateText json,
      JSON_stringify originalAnalysis = Returned json ->
      exists request,
        requests_of (trace_of (updateMealAnalysis cfg originalAnalysis
                                 updateText language)) = [request] /\
        system_prompt request
        = Some
            (if hebrew
             then "אתה מומחה תזונה המעדכן ניתוח ארוחה קיים על בסיס משוב מהמשתמש."
                  ++ nl ++ nl ++ "ניתוח מקורי:" ++ nl ++ json
                  ++ nl ++ nl ++ "משוב מהמשתמש: " ++ quoted updateText ++ nl ++ nl
                  ++ "אנא עדכן את הניתוח בהתאם למשוב והחזר JSON מעודכן באותו פורמט."
             else "You are a nutrition expert updating an existing meal analysis based on user feedback."
                  ++ nl ++ nl ++ "Original analysis:" ++ nl ++ json
                  ++ nl ++ nl ++ "User feedback: " ++ quoted updateText ++ nl ++ nl
                  ++ "Please update the analysis according to the feedback and return updated JSON in the same format.")) /\
  (forall response content cleaned parsed,
      (forall request, create client request = Returned response) ->
      require_content response = Returned content ->
      extractCleanJSON content = Returned cleaned ->
      JSON_parse cleaned = Returned parsed ->
      well_formed_reply parsed = true ->
      exists normalized,
        named parsed normalized /\
        (forall imageBase64 updateText editedIngredients,
            printable_edits editedIngredients = true ->
            outcome_of (analyzeMealImage cfg imageBase64 language updateText
                          editedIngredients) = Returned normalized) /\
        (forall originalAnalysis updateText json,
            JSON_stringify originalAnalysis = Returned json ->
            outcome_of (updateMealAnalysis cfg originalAnalysis updateText
                          language) = Returned normalized)) /\
  (forall imageBase64 updateText editedIngredients normalized,
      outcome_of (analyzeMealImage cfg imageBase64 language updateText
                    editedIngredients) = Returned normalized ->
      normalization_of normalized) /\
  (forall originalAnalysis updateText normalized,
      outcome_of (updateMealAnalysis cfg originalAnalysis updateText language)
        = Returned normalized ->
      normalization_of normalized).
Proof.
  intros Hc hebrew named normalization_of.
  assert (N : forall parsed ws normalized,
             normalizeAnalysisResult parsed hebrew = (ws, Returned normalized) ->
             named parsed normalized).
  { intros parsed ws normalized Hn.
    exact (normalized_names parsed hebrew ws normalized Hn). }
  split; [apply is_hebrew_iff |].
  split; [exact (proj1 analysis_prompts_framed) |].
  split; [exact (proj2 analysis_prompts_framed) |].
  split; [| split; [| split; [| split]]].
  - intros img updateText edited Hp.
    destruct (analysis_prompt_defined language updateText edited Hp)
      as (added & Ha & Hprompt).
    exists added. eexists. split; [exact Ha |].
    rewrite (analyzeMealImage_requests _ _ _ _ _ _ Hc), Hprompt.
    split; reflexivity.
  - intros original updateText json Hj. eexists.
    rewrite (updateMealAnalysis_requests _ _ _ _ _ Hc),
      (buildUpdatePrompt_defined _ updateText (is_hebrew language) _ Hj).
    split; reflexivity.
  - intros response content cleaned parsed Hr H1 H2 H3 Hw.
    destruct (normalizeAnalysisResult_returns parsed hebrew Hw)
      as (ws & normalized & Hn).
    assert (R : reply_of response hebrew = (ws, Returned normalized)).
    { unfold read_reply. now rewrite H1, H2, H3. }
    exists normalized. split; [exact (N _ _ _ Hn) |]. split.
    + intros img updateText edited Hp.
      destruct (analysis_prompt_defined language updateText edited Hp)
        as (added & _ & Hprompt).
      rewrite (analyzeMealImage_run _ _ _ _ _ _ Hc), Hprompt. cbv zeta.
      fold hebrew. now rewrite Hr, R.
    + intros original updateText json Hj.
      rewrite (updateMealAnalysis_run _ _ _ _ _ Hc),
        (buildUpdatePrompt_defined _ updateText (is_hebrew language) _ Hj).
      cbv zeta. fold hebrew. now rewrite Hr, R.
  - intros img updateText edited normalized H.
    destruct (analyzeMealImage_returned _ _ _ _ _ _ _ Hc H)
      as (_ & _ & _ & cleaned & parsed & ws & _ & _ & _ & Hparse & Hn).
    exists cleaned, parsed, ws. split; [exact Hparse |]. split; [exact Hn |].
    exact (N _ _ _ Hn).
  - intros original updateText normalized H.
    destruct (updateMealAnalysis_returned _ _ _ _ _ _ Hc H)
      as (_ & _ & _ & cleaned & parsed & ws & _ & _ & _ & Hparse & Hn).
    exists cleaned, parsed, ws. split; [exact Hparse |]. split; [exact Hn |].
    exact (N _ _ _ Hn).
Qed.

End ServiceFurther.

(** ** The further properties on the sample environment *)

Lemma failures_are_fixed_messages_witness :
  In quota_exceeded
     [not_configured; quota_exceeded; rate_limited; invalid_image; analysis_failed].
Proof.
  apply (proj1 (failures_are_fixed_messages Sample.extractCleanJSON
                  Sample.JSON_parse Sample.JSON_stringify Sample.NumberToString
                  (Sample.configured (Sample.failing out_of_quota)))
           "aGVsbG8=" None None None quota_exceeded).
  reflexivity.
Defined.

Lemma malformed_reply_fails_witness :
  OpenAIService.analyzeMealImage Sample.extractCleanJSON Sample.JSON_parse
    Sample.NumberToString
    (Sample.configured (Sample.answering (Some "Sorry, I see no food here.")))
    "aGVsbG8=" None None None
  = ([Request (analysis_request analysis_prompt_english "aGVsbG8=" None None)],
     Raised analysis_failed).
Proof.
  exact (proj1 (malformed_reply_fails Sample.extractCleanJSON Sample.JSON_parse
                  Sample.JSON_stringify Sample.NumberToString
                  (Sample.configured (Sample.answering (Some "Sorry, I see no food here.")))
                  (Sample.answering (Some "Sorry, I see no food here."))
                  (Sample.completion (Some "Sorry, I see no food here."))
                  "Sorry, I see no food here."
                  (JsError "Unexpected token in JSON")
                  eq_refl (fun _ => eq_refl) eq_refl
                  (or_intror (ex_intro _ "Sorry, I see no food here."
                                (conj eq_refl eq_refl))))
           "aGVsbG8=" None None None analysis_prompt_english eq_refl).
Defined.

Lemma operations_return_the_normalized_reply_witness :
  exists ws normalized,
    normalizeAnalysisResult sample_reply true = (ws, Returned normalized) /\
    OpenAIService.analyzeMealImage Sample.extractCleanJSON Sample.JSON_parse
      Sample.NumberToString
      (Sample.configured (Sample.answering (Some Sample.reply_text)))
      "aGVsbG8=" (Some "hebrew") None None
    = (Request (analysis_request analysis_prompt_hebrew "aGVsbG8=" None None) :: ws,
       Returned normalized).
Proof.
  destruct (normalizeAnalysisResult sample_reply true) as [ws [n | e]] eqn:E;
    [| vm_compute in E; discriminate E].
  exists ws, n. split; [reflexivity |].
  exact (proj1 (operations_return_the_normalized_reply Sample.extractCleanJSON
                  Sample.JSON_parse Sample.JSON_stringify Sample.NumberToString
                  (Sample.configured (Sample.answering (Some Sample.reply_text)))
                  (Sample.answering (Some Sample.reply_text))
                  (Sample.completion (Some Sample.reply_text))
                  Sample.reply_text Sample.reply_text sample_reply
                  (Some "hebrew") ws n
                  eq_refl (fun _ => eq_refl) eq_refl eq_refl eq_refl E)
           "aGVsbG8=" None None analysis_prompt_hebrew eq_refl).
Defined.

Lemma generateText_passes_content_witness :
  outcome_of (OpenAIService.generateText
                (Sample.configured (Sample.answering (Some "Eat more greens.")))
                "Any advice?" (Some (Num.of_Z 50)))
  = Returned "Eat more greens.".
Proof.
  exact (proj1 (proj2 (generateText_passes_content
                         (Sample.configured (Sample.answering (Some "Eat more greens.")))
                         (Sample.answering (Some "Eat more greens."))
                         "Any advice?" (Some (Num.of_Z 50)) eq_refl))
           "Eat more greens." [] eq_refl).
Defined.

Lemma unprintable_analysis_fails_witness :
  OpenAIService.updateMealAnalysis Sample.extractCleanJSON Sample.JSON_parse
    (fun _ => Raised (JsError "Converting circular structure to JSON"))
    (Sample.configured (Sample.answering (Some Sample.reply_text)))
    sample_reply "more rice" None
  = ([], Raised update_failed).
Proof.
  exact (unprintable_analysis_fails Sample.extractCleanJSON Sample.JSON_parse
           (fun _ => Raised (JsError "Converting circular structure to JSON"))
           (Sample.configured (Sample.answering (Some Sample.reply_text)))
           (Sample.answering (Some Sample.reply_text))
           sample_reply "more rice" None
           (JsError "Converting circular structure to JSON") eq_refl eq_refl).
Defined.

Lemma null_edited_ingredient_fails_witness :
  OpenAIService.analyzeMealImage Sample.extractCleanJSON Sample.JSON_parse
    Sample.NumberToString
    (Sample.configured (Sample.answering (Some Sample.reply_text)))
    "aGVsbG8=" None None (Some [VObj [("name", VStr "Rice")]; VNull])
  = ([], Raised analysis_failed).
Proof.
  exact (null_edited_ingredient_fails Sample.extractCleanJSON Sample.JSON_parse
           Sample.NumberToString
           (Sample.configured (Sample.answering (Some Sample.reply_text)))
           (Sample.answering (Some Sample.reply_text))
           "aGVsbG8=" None None [VObj [("name", VStr "Rice")]; VNull]
           eq_refl eq_refl).
Defined.

Lemma prompt_is_built_witness :
  exists prompt,
    OpenAIService.analysis_prompt Sample.NumberToString None (Some "more rice")
      (Some [VObj [("name", VStr "Rice"); ("calories", num 200)]])
    = Returned prompt /\
    requests_of
      (trace_of
         (OpenAIService.analyzeMealImage Sample.extractCleanJSON Sample.JSON_parse
            Sample.NumberToString
            (Sample.configured (Sample.answering (Some Sample.reply_text)))
            "aGVsbG8=" None (Some "more rice")
            (Some [VObj [("name", VStr "Rice"); ("calories", num 200)]])))
    = [analysis_request prompt "aGVsbG8=" (Some "more rice")
         (Some [VObj [("name", VStr "Rice"); ("calories", num 200)]])].
Proof.
  exact (prompt_is_built Sample.extractCleanJSON Sample.JSON_parse
           Sample.NumberToString
           (Sample.configured (Sample.answering (Some Sample.reply_text)))
           (Sample.answering (Some Sample.reply_text))
           "aGVsbG8=" None (Some "more rice")
           (Some [VObj [("name", VStr "Rice"); ("calories", num 200)]])
           eq_refl eq_refl).
Defined.

(** One request from each operation, with its settings; and none from an
    analysis whose edited ingredient cannot be written. *)
Lemma requests_tuned_witness :
  let cfg := Sample.configured (Sample.answering (Some Sample.reply_text)) in
  (exists request,
     requests_of
       (trace_of
          (OpenAIService.analyzeMealImage Sample.extractCleanJSON
             Sample.JSON_parse Sample.NumberToString cfg "aGVsbG8="
             (Some "hebrew") (Some "more rice")
             (Some [VObj [("name", VStr "Rice")]]))) = [request] /\
     max_tokens request = Num.of_Z 2000 /\
     temperature request = Num.decimal false 1 (-1)) /\
  requests_of
    (trace_of
       (OpenAIService.analyzeMealImage Sample.extractCleanJSON
          Sample.JSON_parse Sample.NumberToString cfg "aGVsbG8=" None None
          (Some [VObj [("name", VObj [("toString", VNull)])]]))) = [] /\
  (exists request,
     requests_of
       (trace_of
          (OpenAIService.updateMealAnalysis Sample.extractCleanJSON
             Sample.JSON_parse Sample.JSON_stringify cfg sample_reply
             "more rice" None)) = [request] /\
     max_tokens request = Num.of_Z 1500 /\
     temperature request = Num.decimal false 1 (-1)) /\
  (exists request,
     requests_of (trace_of (OpenAIService.generateText cfg "hello" None))
     = [request] /\
     max_tokens request = Num.of_Z 1000 /\
     temperature request = Num.decimal false 7 (-1)) /\
  (exists request,
     requests_of
       (trace_of (OpenAIService.generateText cfg "hello" (Some (Num.of_Z 50))))
     = [request] /\
     max_tokens request = Num.of_Z 50 /\
     temperature request = Num.decimal false 7 (-1)).
Proof.
  intros cfg.
  destruct (requests_tuned Sample.extractCleanJSON Sample.JSON_parse
              Sample.JSON_stringify Sample.NumberToString cfg
              (Sample.answering (Some Sample.reply_text)) eq_refl)
    as (Ha & Hu & Hg).
  split; [| split; [| split; [| split]]].
  - apply (proj1 (Ha "aGVsbG8=" (Some "hebrew") (Some "more rice")
                    (Some [VObj [("name", VStr "Rice")]]))).
    reflexivity.
  - apply (proj2 (Ha "aGVsbG8=" None None
                    (Some [VObj [("name", VObj [("toString", VNull)])]]))).
    reflexivity.
  - apply (proj1 (Hu sample_reply "more rice" None) "{}"). reflexivity.
  - exact (Hg "hello" None).
  - exact (Hg "hello" (Some (Num.of_Z 50))).
Defined.

(** A Hebrew call and a call in another language, on a reply that names
    neither its meal nor its ingredient: the system prompts, whole, and the
    placeholders. *)
Lemma language_selection_witness :
  let parsed := VObj [("ingredients", VArr [VObj [("calories", num 90)]])] in
  let parse := fun _ : string => Returned parsed in
  let cfg := Sample.configured (Sample.answering (Some "{}")) in
  let edited := [VObj [("name", VStr "Rice"); ("calories", VStr "200");
                       ("protein", VStr "4")]] in
  let analyze :=
    OpenAIService.analyzeMealImage Sample.extractCleanJSON parse
      Sample.NumberToString cfg "aGVsbG8=" in
  let update :=
    OpenAIService.updateMealAnalysis Sample.extractCleanJSON parse
      Sample.JSON_stringify cfg sample_reply "more rice" in
  (exists request,
     requests_of (trace_of (analyze (Some "hebrew") (Some "more rice") (Some edited)))
     = [request] /\
     system_prompt request
     = Some (analysis_prompt_hebrew ++ nl ++ nl ++ "הקשר נוסף:" ++ nl
             ++ "- המשתמש הוסיף הערה: " ++ quoted "more rice" ++ nl
             ++ "- המשתמש ערך 1 מרכיבים:" ++ nl
             ++ "  1. Rice: 200 cal, 4g protein" ++ nl ++ nl
             ++ "אנא התחשב במידע זה בעת עדכון הניתוח.")) /\
  (exists request,
     requests_of (trace_of (update (Some "hebrew"))) = [request] /\
     system_prompt request
     = Some ("אתה מומחה תזונה המעדכן ניתוח ארוחה קיים על בסיס משוב מהמשתמש."
             ++ nl ++ nl ++ "ניתוח מקורי:" ++ nl ++ "{}" ++ nl ++ nl
             ++ "משוב מהמשתמש: " ++ quoted "more rice" ++ nl ++ nl
             ++ "אנא עדכן את הניתוח בהתאם למשוב והחזר JSON מעודכן באותו פורמט.")) /\
  (exists normalized item,
     outcome_of (analyze (Some "hebrew") None None) = Returned normalized /\
     outcome_of (update (Some "hebrew")) = Returned normalized /\
     MealAnalysisResult.name normalized = VStr "ארוחה לא מזוהה" /\
     MealAnalysisResult.ingredients normalized = [item] /\
     Ingredient.name item = VStr "מרכיב לא מזוהה") /\
  (exists request,
     requests_of (trace_of (analyze (Some "Hebrew") None None)) = [request] /\
     system_prompt request = Some analysis_prompt_english) /\
  (exists normalized item,
     outcome_of (analyze (Some "Hebrew") None None) = Returned normalized /\
     MealAnalysisResult.name normalized = VStr "Unknown meal" /\
     MealAnalysisResult.ingredients normalized = [item] /\
     Ingredient.name item = VStr "Unknown ingredient").
Proof.
  intros parsed parse cfg edited analyze update.
  destruct (language_selection Sample.extractCleanJSON parse
              Sample.JSON_stringify Sample.NumberToString cfg
              (Sample.answering (Some "{}")) (Some "hebrew") eq_refl)
    as (_ & _ & _ & Ha & Hu & Hr & _).
  destruct (language_selection Sample.extractCleanJSON parse
              Sample.JSON_stringify Sample.NumberToString cfg
              (Sample.answering (Some "{}")) (Some "Hebrew") eq_refl)
    as (_ & _ & _ & Ha' & _ & Hr' & _).
  split; [| split; [| split; [| split]]].
  - destruct (Ha "aGVsbG8=" (Some "more rice") (Some edited) eq_refl)
      as (added & request & Hadded & Hsent & Hprompt).
    exists request. split; [exact Hsent |].
    rewrite Hprompt. injection Hadded as <-. reflexivity.
  - destruct (Hu sample_reply "more rice" "{}" eq_refl)
      as (request & Hsent & Hprompt).
    exists request. split; [exact Hsent | exact Hprompt].
  - destruct (Hr (Sample.completion (Some "{}")) "{}" "{}" parsed
                (fun _ => eq_refl) eq_refl eq_refl eq_refl eq_refl)
      as (normalized & [Hname Hitems] & Hanalyze & Hupdate).
    specialize (Hitems _ eq_refl).
    inversion Hitems as [| e1 i1 r1 l1 Hfirst Hnil]; subst.
    inversion Hnil; subst.
    exists normalized, i1.
    split; [exact (Hanalyze "aGVsbG8=" None None eq_refl) |].
    split; [exact (Hupdate sample_reply "more rice" "{}" eq_refl) |].
    split; [exact Hname |]. split; [congruence | exact Hfirst].
  - destruct (Ha' "aGVsbG8=" None None eq_refl)
      as (added & request & _ & Hsent & Hprompt).
    exists request. split; [exact Hsent |].
    rewrite Hprompt. cbn [is_hebrew text_truthy orb].
    now rewrite append_empty.
  - destruct (Hr' (Sample.completion (Some "{}")) "{}" "{}" parsed
                (fun _ => eq_refl) eq_refl eq_refl eq_refl eq_refl)
      as (normalized & [Hname Hitems] & Hanalyze & _).
    specialize (Hitems _ eq_refl).
    inversion Hitems as [| e1 i1 r1 l1 Hfirst Hnil]; subst.
    inversion Hnil; subst.
    exists normalized, i1.
    split; [exact (Hanalyze "aGVsbG8=" None None eq_refl) |].
    split; [exact Hname |]. split; [congruence | exact Hfirst].
Defined.
